(** * PubMed paper fetcher: a shallow embedding of [task.py]

    The program queries the PubMed search endpoint, fetches the summaries of
    the papers found, classifies the authors' affiliations and reports the
    rows on the console or in a CSV file.

    The embedding keeps Python's dynamic typing: every JSON value the
    program touches is a [pyval], every operation that can raise returns a
    [result], and the code that talks to the network, the logger, the
    console and the file system runs in a state-and-exception monad over a
    [world].  A [str] is held as the bytes of its UTF-8 encoding and is
    decoded into code points where Python works on them. *)

From Stdlib Require Import String Ascii List NArith ZArith Bool Lia.
From Stdlib Require PrimFloat.
Import ListNotations.
Open Scope string_scope.
Open Scope list_scope.

Set Implicit Arguments.
Set Warnings "-register-all".

(* ================================================================== *)
(** ** Python values, exceptions and results *)

Module Py.

(** The values [json.loads] can produce. A [dict] keeps its items in
    insertion order. *)
Inductive pyval : Type :=
| PNone
| PBool (b : bool)
| PInt (z : Z)
| PFloat (f : PrimFloat.float)
| PStr (s : string)
| PList (l : list pyval)
| PDict (d : list (string * pyval)).

(** The subclasses of [requests.exceptions.RequestException] that the two
    calls can meet: what [requests.get] raises when no response arrives,
    what [raise_for_status] raises, and what [Response.json] raises on a
    body that is not JSON. *)
Inductive transport_error : Type :=
| ConnectionError
| Timeout
| TooManyRedirects.

Inductive request_error : Type :=
| Transport (t : transport_error)
| HTTPError (status : Z)
| JSONDecodeError.

Inductive exn : Type :=
| RequestException (e : request_error)
| AttributeError
| TypeError
| IndexError
| KeyError
| ValueError
| OSError
| UnicodeEncodeError
| CsvError.

Inductive result (A : Type) : Type :=
| Ok (a : A)
| Raise (e : exn).

Arguments Ok {A} a.
Arguments Raise {A} e.

Definition bind {A B : Type} (r : result A) (k : A -> result B) : result B :=
  match r with
  | Ok a => k a
  | Raise e => Raise e
  end.

Definition is_RequestException (e : exn) : bool :=
  match e with
  | RequestException _ => true
  | _ => false
  end.

(** [bool(v)] *)
Definition truthy (v : pyval) : bool :=
  match v with
  | PNone => false
  | PBool b => b
  | PInt z => negb (Z.eqb z 0)
  | PFloat f => negb (PrimFloat.eqb f PrimFloat.zero)
  | PStr s => negb (String.eqb s "")
  | PList l => match l with [] => false | _ => true end
  | PDict d => match d with [] => false | _ => true end
  end.

(** [a or b] *)
Definition py_or (a b : pyval) : pyval := if truthy a then a else b.

(** *** Dictionaries *)

Fixpoint dict_get (d : list (string * pyval)) (k : string) : option pyval :=
  match d with
  | [] => None
  | (k', v) :: rest => if String.eqb k' k then Some v else dict_get rest k
  end.

Definition dict_keys (d : list (string * pyval)) : list string := map fst d.

(** [obj.get(k, default)]: only a dict has the method. *)
Definition py_get (obj : pyval) (k : string) (default : pyval) : result pyval :=
  match obj with
  | PDict d =>
      Ok (match dict_get d k with Some v => v | None => default end)
  | _ => Raise AttributeError
  end.

(** [obj.items()] *)
Definition py_items (obj : pyval) : result (list (string * pyval)) :=
  match obj with
  | PDict d => Ok d
  | _ => Raise AttributeError
  end.

(** *** Strings

    A [str] is the [string] of the bytes of its UTF-8 encoding; a lone
    surrogate, which a [str] can hold, is the three bytes the encoding
    scheme gives a code point of its range. Substring tests, joins and
    the special characters of CSV are the same on the bytes as on the
    code points; iteration, case folding and the encoding on output work
    on the code points. *)

Definition is_continuation (b : N) : bool := ((128 <=? b) && (b <? 192))%N.

(** The code points of a [str], each with its bytes. A byte that starts
    no well-formed sequence, which the bytes of a [str] never hold, stands
    for itself. *)
Fixpoint decode (s : string) : list (N * string) :=
  match s with
  | EmptyString => []
  | String b0 t0 =>
      let n0 := N_of_ascii b0 in
      let single := (n0, String b0 EmptyString) :: decode t0 in
      if (n0 <? 192)%N then single
      else
        match t0 with
        | EmptyString => single
        | String b1 t1 =>
            let n1 := N_of_ascii b1 in
            if negb (is_continuation n1) then single
            else if (n0 <? 224)%N then
              (((n0 - 192) * 64 + (n1 - 128))%N,
               String b0 (String b1 EmptyString)) :: decode t1
            else
              match t1 with
              | EmptyString => single
              | String b2 t2 =>
                  let n2 := N_of_ascii b2 in
                  if negb (is_continuation n2) then single
                  else if (n0 <? 240)%N then
                    (((n0 - 224) * 4096 + (n1 - 128) * 64 + (n2 - 128))%N,
                     String b0 (String b1 (String b2 EmptyString)))
                    :: decode t2
                  else
                    match t2 with
                    | EmptyString => single
                    | String b3 t3 =>
                        let n3 := N_of_ascii b3 in
                        if negb (is_continuation n3) || negb (n0 <? 248)%N
                        then single
                        else
                          (((n0 - 240) * 262144 + (n1 - 128) * 4096
                            + (n2 - 128) * 64 + (n3 - 128))%N,
                           String b0 (String b1 (String b2
                             (String b3 EmptyString))))
                          :: decode t3
                    end
              end
        end
  end.

Definition codepoints (s : string) : list N := map fst (decode s).

(** the characters of a [str], each a [str] of one code point *)
Definition chars (s : string) : list string := map snd (decode s).

Definition is_surrogate (c : N) : bool := ((55296 <=? c) && (c <=? 57343))%N.

(** [s.encode('utf-8')] succeeds: no code point of [s] is a surrogate. *)
Definition utf8_encodable (s : string) : bool :=
  forallb (fun c => negb (is_surrogate c)) (codepoints s).

(** [p] is a prefix of [s] *)
Fixpoint is_prefix (p s : string) : bool :=
  match p, s with
  | EmptyString, _ => true
  | String a p', String b s' => Ascii.eqb a b && is_prefix p' s'
  | String _ _, EmptyString => false
  end.

(** [sub in s] on two strings *)
Fixpoint is_substring (sub s : string) : bool :=
  is_prefix sub s ||
  match s with
  | EmptyString => false
  | String _ t => is_substring sub t
  end.

(** [sep.join(l)] on a list of strings *)
Fixpoint join (sep : string) (l : list string) : string :=
  match l with
  | [] => ""
  | [s] => s
  | s :: rest => s ++ sep ++ join sep rest
  end.

(** The elements of a list when all of them are strings; [str.join] raises
    [TypeError] at the first one that is not. *)
Fixpoint all_str (l : list pyval) : result (list string) :=
  match l with
  | [] => Ok []
  | PStr s :: rest => bind (all_str rest) (fun ss => Ok (s :: ss))
  | _ :: _ => Raise TypeError
  end.

(** [for x in v]: the elements of a list, the characters of a string, the
    keys of a dict; nothing else that JSON yields is iterable. *)
Definition py_iter (v : pyval) : result (list pyval) :=
  match v with
  | PList l => Ok l
  | PStr s => Ok (map PStr (chars s))
  | PDict d => Ok (map PStr (dict_keys d))
  | _ => Raise TypeError
  end.

(** [sep.join(v)] on any value *)
Definition py_join (sep : string) (v : pyval) : result string :=
  bind (py_iter v) (fun l => bind (all_str l) (fun ss => Ok (join sep ss))).

(** [k in v] for a string [k] *)
Definition py_contains (v : pyval) (k : string) : result bool :=
  match v with
  | PDict d => Ok (match dict_get d k with Some _ => true | None => false end)
  | PStr s => Ok (is_substring k s)
  | PList l =>
      Ok (existsb (fun x => match x with PStr s => String.eqb s k | _ => false end) l)
  | _ => Raise TypeError
  end.

(** [v[k]] for a string [k]; the caller has checked [k in v]. *)
Definition py_getitem (v : pyval) (k : string) : result pyval :=
  match v with
  | PDict d =>
      match dict_get d k with
      | Some x => Ok x
      | None => Raise KeyError
      end
  | _ => Raise TypeError
  end.

(** *** Regular expressions

    The fragment of [re] the program uses: literals of ASCII characters
    and alternation, searched for anywhere in the subject, with or
    without [re.IGNORECASE]. The subject is matched code point by code
    point. *)

Inductive regex : Type :=
| Literal (s : string)
| Alternation (r1 r2 : regex).

(** The lower case of a code point, as the matcher takes it: exact on the
    code points whose lower case is ASCII (the capitals A to Z, the
    dotted capital I U+0130 and the Kelvin sign U+212A); the other
    capitals, which no character of an ASCII pattern matches either way,
    are left as they are. *)
Definition sre_lower_unicode (c : N) : N :=
  if ((65 <=? c) && (c <=? 90))%N then (c + 32)%N
  else if (c =? 304)%N then 105%N
  else if (c =? 8490)%N then 107%N
  else c.

(** the characters the compiler adds to a lower-case letter of the
    pattern: dotless i (U+0131) to i, long s (U+017F) to s *)
Definition ignorecase_fixes (lo : N) : list N :=
  if (lo =? 105)%N then [305%N]
  else if (lo =? 115)%N then [383%N]
  else [].

(** the character [p] of the pattern matches the code point [c] *)
Definition char_matches (ignorecase : bool) (p c : N) : bool :=
  if ignorecase then
    let lo := sre_lower_unicode p in
    (sre_lower_unicode c =? lo)%N
    || existsb (N.eqb (sre_lower_unicode c)) (ignorecase_fixes lo)
  else (p =? c)%N.

Fixpoint literal_matches (ignorecase : bool) (p s : list N) : bool :=
  match p, s with
  | [], _ => true
  | a :: p', b :: s' =>
      char_matches ignorecase a b && literal_matches ignorecase p' s'
  | _ :: _, [] => false
  end.

(** a match of [r] starts at the first code point of [s] *)
Fixpoint regex_match (ignorecase : bool) (r : regex) (s : list N) : bool :=
  match r with
  | Literal p => literal_matches ignorecase (codepoints p) s
  | Alternation r1 r2 =>
      regex_match ignorecase r1 s || regex_match ignorecase r2 s
  end.

Fixpoint regex_search (ignorecase : bool) (r : regex) (s : list N) : bool :=
  regex_match ignorecase r s ||
  match s with
  | [] => false
  | _ :: t => regex_search ignorecase r t
  end.

(** [re.search(r, v, flags)] is not None; a subject that is not a string
    raises. *)
Definition re_search (r : regex) (v : pyval) (ignorecase : bool) : result bool :=
  match v with
  | PStr s => Ok (regex_search ignorecase r (codepoints s))
  | _ => Raise TypeError
  end.

End Py.

Import Py.

Notation "x <- c1 ;; c2" := (Py.bind c1 (fun x => c2))
  (at level 61, c1 at next level, right associativity).

(* ================================================================== *)
(** ** The affiliation classifier *)

(** r'university|college|institute|lab' *)
Definition academic_pattern : regex :=
  Alternation (Literal "university")
    (Alternation (Literal "college")
       (Alternation (Literal "institute") (Literal "lab"))).

(** The loop of [filter_non_academic_authors], with the two lists it
    appends to. *)
Fixpoint filter_loop (authors : list pyval)
    (non_academic_authors company_names : list pyval)
    : result (list pyval * list pyval) :=
  match authors with
  | [] => Ok (non_academic_authors, company_names)
  | author :: rest =>
      affiliation <- py_get author "affiliation" (PStr "") ;;
      if truthy affiliation then
        found <- re_search academic_pattern affiliation true ;;
        if negb found then
          name <- py_get author "name" (PStr "Unknown") ;;
          filter_loop rest (non_academic_authors ++ [name])
                           (company_names ++ [affiliation])
        else filter_loop rest non_academic_authors company_names
      else filter_loop rest non_academic_authors company_names
  end.

Definition filter_non_academic_authors (authors : pyval)
    : result (list pyval * list pyval) :=
  l <- py_iter authors ;;
  filter_loop l [] [].

(** The loop of [extract_corresponding_email]; [None] of Python is
    [PNone]. *)
Fixpoint email_loop (authors : list pyval) : result pyval :=
  match authors with
  | [] => Ok PNone
  | author :: rest =>
      has <- py_contains author "email" ;;
      if has then py_getitem author "email" else email_loop rest
  end.

Definition extract_corresponding_email (authors : pyval) : result pyval :=
  l <- py_iter authors ;;
  email_loop l.

(* ================================================================== *)
(** ** The record parser *)

(** A row of the report: a dict with its keys in insertion order. *)
Definition record : Type := list (string * pyval).

(** The body of the loop of [parse_paper_details] for one item that is
    not skipped. *)
Definition paper_row (paper_id : string) (details : pyval) : result record :=
  title <- py_get details "title" (PStr "N/A") ;;
  pub_date <- py_get details "pubdate" (PStr "N/A") ;;
  authors <- py_get details "authors" (PList []) ;;
  found <- filter_non_academic_authors authors ;;
  let (company_authors, company_names) := found in
  corresponding_email <- extract_corresponding_email authors ;;
  joined_authors <- py_join ", " (PList company_authors) ;;
  joined_names <- py_join ", " (PList company_names) ;;
  Ok [ ("PubmedID", PStr paper_id);
       ("Title", title);
       ("Publication Date", pub_date);
       ("Non-academic Author(s)", PStr joined_authors);
       ("Company Affiliation(s)", PStr joined_names);
       ("Corresponding Author Email",
          py_or corresponding_email (PStr "N/A")) ].

Fixpoint parse_loop (items : list (string * pyval)) (papers : list record)
    : result (list record) :=
  match items with
  | [] => Ok papers
  | (paper_id, details) :: rest =>
      if String.eqb paper_id "uids" then parse_loop rest papers
      else
        row <- paper_row paper_id details ;;
        parse_loop rest (papers ++ [row])
  end.

Definition parse_paper_details (data : pyval) : result (list record) :=
  result_map <- py_get data "result" (PDict []) ;;
  items <- py_items result_map ;;
  parse_loop items [].

(* ================================================================== *)
(** ** The world: network, logger, console, file system *)

Record request : Type := {
  url : string;
  params : list (string * pyval)
}.

(** A response: its status code and its body, decoded when it is JSON. *)
Record response : Type := {
  status_code : Z;
  body : option pyval
}.

Inductive get_outcome : Type :=
| Responds (r : response)
| Fails (t : transport_error).

Inductive level : Type := DEBUG | INFO | WARNING | ERROR | CRITICAL.

Definition levelno (l : level) : Z :=
  match l with
  | DEBUG => 10 | INFO => 20 | WARNING => 30 | ERROR => 40 | CRITICAL => 50
  end.

Record log_record : Type := {
  log_level : level;
  log_msg : string;
  log_exc : option exn
}.

Record world : Type := {
  requests_made : list request;
  logger_level : level;
  logged : list log_record;
  stdout : list record;
  writable : string -> bool;
  files : list (string * string)
}.

(** The state of the process when [main] starts: [basicConfig] has set
    the level to INFO. *)
Definition initial_world (can_write : string -> bool)
    (fs : list (string * string)) : world :=
  {| requests_made := []; logger_level := INFO; logged := [];
     stdout := []; writable := can_write; files := fs |}.

(** Computations that read and change the world and may raise. *)
Definition M (A : Type) : Type := world -> result A * world.

Definition ret {A : Type} (a : A) : M A := fun w => (Ok a, w).

Definition bindM {A B : Type} (m : M A) (k : A -> M B) : M B :=
  fun w =>
    match m w with
    | (Ok a, w') => k a w'
    | (Raise e, w') => (Raise e, w')
    end.

Definition lift {A : Type} (r : result A) : M A := fun w => (r, w).

Notation "x <~ c1 ;; c2" := (bindM c1 (fun x => c2))
  (at level 61, c1 at next level, right associativity).
Notation "c1 ;;; c2" := (bindM c1 (fun _ => c2))
  (at level 61, right associativity).

(** [try: body except RequestException as e: handler e] *)
Definition try_except_RequestException {A : Type}
    (body : M A) (handler : exn -> M A) : M A :=
  fun w =>
    match body w with
    | (Ok a, w') => (Ok a, w')
    | (Raise e, w') =>
        if is_RequestException e then handler e w' else (Raise e, w')
    end.

Definition with_requests (w : world) (l : list request) : world :=
  {| requests_made := l; logger_level := logger_level w;
     logged := logged w; stdout := stdout w;
     writable := writable w; files := files w |}.

(** the world once a request has been sent *)
Definition sent (w : world) (rq : request) : world :=
  with_requests w (requests_made w ++ [rq]).

Definition with_logger_level (w : world) (l : level) : world :=
  {| requests_made := requests_made w; logger_level := l;
     logged := logged w; stdout := stdout w;
     writable := writable w; files := files w |}.

Definition with_logged (w : world) (l : list log_record) : world :=
  {| requests_made := requests_made w; logger_level := logger_level w;
     logged := l; stdout := stdout w;
     writable := writable w; files := files w |}.

Definition with_stdout (w : world) (l : list record) : world :=
  {| requests_made := requests_made w; logger_level := logger_level w;
     logged := logged w; stdout := l;
     writable := writable w; files := files w |}.

Definition with_files (w : world) (fs : list (string * string)) : world :=
  {| requests_made := requests_made w; logger_level := logger_level w;
     logged := logged w; stdout := stdout w;
     writable := writable w; files := fs |}.

(** *** Logging *)

Definition logger_setLevel (l : level) : M unit :=
  fun w => (Ok tt, with_logger_level w l).

Definition logger_log (l : level) (msg : string) (e : option exn) : M unit :=
  fun w =>
    if (levelno (logger_level w) <=? levelno l)%Z then
      (Ok tt, with_logged w
         (logged w ++ [ {| log_level := l; log_msg := msg; log_exc := e |} ]))
    else (Ok tt, w).

Definition logger_error (msg : string) (e : exn) : M unit :=
  logger_log ERROR msg (Some e).

Definition logger_info (msg : string) : M unit :=
  logger_log INFO msg None.

(** *** Console *)

Definition print (paper : record) : M unit :=
  fun w => (Ok tt, with_stdout w (stdout w ++ [paper])).

(** *** Files *)

Fixpoint file_read (fs : list (string * string)) (name : string)
    : option string :=
  match fs with
  | [] => None
  | (n, c) :: rest => if String.eqb n name then Some c else file_read rest name
  end.

Fixpoint file_set (fs : list (string * string)) (name content : string)
    : list (string * string) :=
  match fs with
  | [] => [(name, content)]
  | (n, c) :: rest =>
      if String.eqb n name then (n, content) :: rest
      else (n, c) :: file_set rest name content
  end.

(** [open(name, mode='w')]: the file is created or truncated, or the
    system refuses. *)
Definition open_w (name : string) : M unit :=
  fun w =>
    if writable w name then (Ok tt, with_files w (file_set (files w) name ""))
    else (Raise OSError, w).

(** [file.write(text)] on a file opened by [open_w] with
    [encoding='utf-8']: the text is encoded when it is written, which
    fails on a surrogate; what was written before stays. *)
Definition file_write (name text : string) : M unit :=
  fun w =>
    if utf8_encodable text then
      let old :=
        match file_read (files w) name with Some c => c | None => "" end in
      (Ok tt, with_files w (file_set (files w) name (old ++ text)))
    else (Raise UnicodeEncodeError, w).

(* ================================================================== *)
(** ** The two network calls *)

Definition PUBMED_API_URL : string :=
  "https://eutils.ncbi.nlm.nih.gov/entrez/eutils/esearch.fcgi".
Definition DETAILS_API_URL : string :=
  "https://eutils.ncbi.nlm.nih.gov/entrez/eutils/esummary.fcgi".
Definition API_KEY : string := "ba128ae5d7b346d79fb32cf43125ff111b08".

(** [response.raise_for_status()]: HTTPError on a 4xx or 5xx status. *)
Definition raise_for_status (r : response) : result unit :=
  if ((400 <=? status_code r) && (status_code r <? 600))%Z
  then Raise (RequestException (HTTPError (status_code r)))
  else Ok tt.

(** [response.json()]: a body that does not decode raises the
    JSONDecodeError of [requests.exceptions], a RequestException (as
    requests has it since version 2.27). A body is decoded JSON or text
    that is not JSON; a number longer than the interpreter's digit limit,
    which the decoder refuses with a plain ValueError, is not among the
    bodies of this model. *)
Definition response_json (r : response) : result pyval :=
  match body r with
  | Some v => Ok v
  | None => Raise (RequestException JSONDecodeError)
  end.

Section Network.

(** What the network answers to a request, given the requests made
    before it. *)
Variable net : list request -> request -> get_outcome.

(** [requests.get(url, params=params)] *)
Definition requests_get (u : string) (ps : list (string * pyval))
    : M response :=
  fun w =>
    let rq := {| url := u; params := ps |} in
    let w' := sent w rq in
    match net (requests_made w) rq with
    | Responds r => (Ok r, w')
    | Fails t => (Raise (RequestException (Transport t)), w')
    end.

Definition fetch_paper_details (paper_ids : pyval) : M (list record) :=
  ids <~ lift (py_join "," paper_ids) ;;
  let params :=
    [ ("db", PStr "pubmed"); ("id", PStr ids);
      ("retmode", PStr "json"); ("api_key", PStr API_KEY) ] in
  try_except_RequestException
    (response <~ requests_get DETAILS_API_URL params ;;
     lift (raise_for_status response) ;;;
     data <~ lift (response_json response) ;;
     lift (parse_paper_details data))
    (fun e =>
       logger_error "Error fetching paper details: " e ;;;
       ret []).

(** [fetch_pubmed_papers], with the function it calls for the details
    as an argument. *)
Definition fetch_pubmed_papers_calling
    (details_fetcher : pyval -> M (list record))
    (query : string) (retmax : Z) : M (list record) :=
  let params :=
    [ ("db", PStr "pubmed"); ("term", PStr query); ("retmax", PInt retmax);
      ("retmode", PStr "json"); ("api_key", PStr API_KEY) ] in
  try_except_RequestException
    (response <~ requests_get PUBMED_API_URL params ;;
     lift (raise_for_status response) ;;;
     data <~ lift (response_json response) ;;
     esearchresult <~ lift (py_get data "esearchresult" (PDict [])) ;;
     paper_ids <~ lift (py_get esearchresult "idlist" (PList [])) ;;
     if truthy paper_ids then details_fetcher paper_ids else ret [])
    (fun e =>
       logger_error "Error fetching papers: " e ;;;
       ret []).

Definition fetch_pubmed_papers (query : string) (retmax : Z)
    : M (list record) :=
  fetch_pubmed_papers_calling fetch_paper_details query retmax.

End Network.

(* ================================================================== *)
(** ** Writing the CSV file

    [csv.DictWriter] with the default dialect: delimiter comma, quote
    character the double quote, doubled inside a quoted field, minimal
    quoting, line terminator CR LF. *)

Module Csv.

Definition COMMA : ascii := ","%char.
Definition DQUOTE : ascii := "034"%char.
Definition CR : ascii := "013"%char.
Definition LF : ascii := "010"%char.

Definition lineterminator : string := String CR (String LF EmptyString).

Definition is_special (c : ascii) : bool :=
  Ascii.eqb c COMMA || Ascii.eqb c DQUOTE || Ascii.eqb c CR || Ascii.eqb c LF.

(** a field is quoted when it holds the delimiter, the quote character or
    a character of the line terminator *)
Fixpoint needs_quotes (s : string) : bool :=
  match s with
  | EmptyString => false
  | String c t => is_special c || needs_quotes t
  end.

Fixpoint double_quotes (s : string) : string :=
  match s with
  | EmptyString => EmptyString
  | String c t =>
      if Ascii.eqb c DQUOTE then String DQUOTE (String DQUOTE (double_quotes t))
      else String c (double_quotes t)
  end.

Definition write_field (s : string) : string :=
  if needs_quotes s
  then String DQUOTE (double_quotes s ++ String DQUOTE EmptyString)
  else s.

(** The text of one row; a row of one empty field is written as an empty
    quoted field. *)
Definition write_row (fields : list string) : string :=
  match fields with
  | [EmptyString] => String DQUOTE (String DQUOTE lineterminator)
  | _ => join (String COMMA EmptyString) (map write_field fields)
           ++ lineterminator
  end.

(** the text of a sequence of rows *)
Fixpoint write_rows (rows : list (list string)) : string :=
  match rows with
  | [] => ""
  | r :: rest => write_row r ++ write_rows rest
  end.

Section Writer.

(** [str(v)] for a value that is neither a string nor None. *)
Variable py_str : pyval -> string.

(** the text the writer takes for a field *)
Definition field_text (v : pyval) : string :=
  match v with
  | PNone => ""
  | PStr s => s
  | _ => py_str v
  end.

Definition writer_writerow (name : string) (row : list pyval) : M unit :=
  file_write name (write_row (map field_text row)).

(** [DictWriter._dict_to_list]: a key outside the field names raises,
    a missing one is written as the empty string. *)
Definition dict_to_list (fieldnames : list string) (rowdict : record)
    : result (list pyval) :=
  let wrong_fields :=
    filter (fun k => negb (existsb (String.eqb k) fieldnames))
           (dict_keys rowdict) in
  match wrong_fields with
  | [] =>
      Ok (map (fun key =>
                 match dict_get rowdict key with
                 | Some v => v
                 | None => PStr ""
                 end) fieldnames)
  | _ :: _ => Raise ValueError
  end.

Definition DictWriter_writerow (name : string) (fieldnames : list string)
    (rowdict : record) : M unit :=
  row <~ lift (dict_to_list fieldnames rowdict) ;;
  writer_writerow name row.

Definition DictWriter_writeheader (name : string) (fieldnames : list string)
    : M unit :=
  DictWriter_writerow name fieldnames
    (map (fun k => (k, PStr k)) fieldnames).

Fixpoint DictWriter_writerows (name : string) (fieldnames : list string)
    (rowdicts : list record) : M unit :=
  match rowdicts with
  | [] => ret tt
  | r :: rest =>
      DictWriter_writerow name fieldnames r ;;;
      DictWriter_writerows name fieldnames rest
  end.

End Writer.

End Csv.

(* ================================================================== *)
(** ** The reporter *)

Section Reporter.

Variable net : list request -> request -> get_outcome.
Variable py_str : pyval -> string.

Definition save_to_csv (papers : list record) (filename : string) : M unit :=
  open_w filename ;;;
  first <~ lift (match papers with
                 | [] => Raise IndexError
                 | p :: _ => Ok p
                 end) ;;
  let fieldnames := dict_keys first in
  Csv.DictWriter_writeheader py_str filename fieldnames ;;;
  Csv.DictWriter_writerows py_str filename fieldnames papers.

(** The parsed command line. *)
Record Namespace : Type := {
  query : string;
  file : option string;
  debug : bool
}.

Fixpoint print_all (papers : list record) : M unit :=
  match papers with
  | [] => ret tt
  | paper :: rest => print paper ;;; print_all rest
  end.

(** [main], from the parsed arguments on. *)
Definition main (args : Namespace) : M unit :=
  (if debug args then logger_setLevel DEBUG else ret tt) ;;;
  papers <~ fetch_pubmed_papers net (query args) 20 ;;
  match file args with
  | Some f =>
      if negb (String.eqb f "") then
        save_to_csv papers f ;;;
        logger_info ("Results saved to " ++ f)
      else print_all papers
  | None => print_all papers
  end.

End Reporter.

(* ================================================================== *)
(** ** Reading a CSV file back *)

Module CsvReader.

Import Csv.

(** Modelled from the spec: the re-reading side of the round trip, which
    the repository does not contain. It is the counterpart of the writer
    above: [csv.reader] with the default dialect over the lines of the
    file opened with [newline=''], that is the reader's automaton without
    an escape character, without strict mode and without the configurable
    limit on the size of a field. *)
Inductive state : Type :=
| START_RECORD
| START_FIELD
| IN_FIELD
| IN_QUOTED_FIELD
| QUOTE_IN_QUOTED_FIELD
| EAT_CRNL.

Record reader : Type := {
  st : state;
  field : string;
  fields : list string
}.

(** What the automaton is fed: a character of a line, or the end of a
    line. *)
Inductive input : Type :=
| Ch (c : ascii)
| EOL.

Definition parse_reset : reader :=
  {| st := START_RECORD; field := ""; fields := [] |}.

Definition set_state (r : reader) (s : state) : reader :=
  {| st := s; field := field r; fields := fields r |}.

Definition parse_save_field (r : reader) : reader :=
  {| st := st r; field := ""; fields := fields r ++ [field r] |}.

Definition parse_add_char (r : reader) (c : ascii) : reader :=
  {| st := st r; field := field r ++ String c EmptyString;
     fields := fields r |}.

Definition is_newline (c : ascii) : bool := Ascii.eqb c LF || Ascii.eqb c CR.

Definition after_line_end (i : input) : state :=
  match i with
  | EOL => START_RECORD
  | Ch _ => EAT_CRNL
  end.

Definition ends_line (i : input) : bool :=
  match i with
  | EOL => true
  | Ch c => is_newline c
  end.

(** the cases START_RECORD falls through to and START_FIELD *)
Definition start_field (r : reader) (i : input) : result reader :=
  if ends_line i then Ok (set_state (parse_save_field r) (after_line_end i))
  else
    match i with
    | EOL => Ok r
    | Ch c =>
        if Ascii.eqb c DQUOTE then Ok (set_state r IN_QUOTED_FIELD)
        else if Ascii.eqb c COMMA then
          Ok (set_state (parse_save_field r) START_FIELD)
        else Ok (set_state (parse_add_char r c) IN_FIELD)
    end.

Definition parse_process_char (r : reader) (i : input) : result reader :=
  match st r with
  | START_RECORD =>
      match i with
      | EOL => Ok r
      | Ch c =>
          if is_newline c then Ok (set_state r EAT_CRNL)
          else start_field r i
      end
  | START_FIELD => start_field r i
  | IN_FIELD =>
      if ends_line i then
        Ok (set_state (parse_save_field r) (after_line_end i))
      else
        match i with
        | EOL => Ok r
        | Ch c =>
            if Ascii.eqb c COMMA then
              Ok (set_state (parse_save_field r) START_FIELD)
            else Ok (parse_add_char r c)
        end
  | IN_QUOTED_FIELD =>
      match i with
      | EOL => Ok r
      | Ch c =>
          if Ascii.eqb c DQUOTE then Ok (set_state r QUOTE_IN_QUOTED_FIELD)
          else Ok (parse_add_char r c)
      end
  | QUOTE_IN_QUOTED_FIELD =>
      match i with
      | EOL => Ok (set_state (parse_save_field r) START_RECORD)
      | Ch c =>
          if Ascii.eqb c DQUOTE then
            Ok (set_state (parse_add_char r c) IN_QUOTED_FIELD)
          else if Ascii.eqb c COMMA then
            Ok (set_state (parse_save_field r) START_FIELD)
          else if is_newline c then
            Ok (set_state (parse_save_field r) EAT_CRNL)
          else Ok (set_state (parse_add_char r c) IN_FIELD)
      end
  | EAT_CRNL =>
      match i with
      | EOL => Ok (set_state r START_RECORD)
      | Ch c => if is_newline c then Ok r else Raise CsvError
      end
  end.

(** the characters of one line, then its end *)
Fixpoint feed_line (r : reader) (line : string) : result reader :=
  match line with
  | EmptyString => parse_process_char r EOL
  | String c t =>
      r' <- parse_process_char r (Ch c) ;;
      feed_line r' t
  end.

Definition is_start_record (s : state) : bool :=
  match s with START_RECORD => true | _ => false end.

Definition is_in_quoted_field (s : state) : bool :=
  match s with IN_QUOTED_FIELD => true | _ => false end.

(** All the rows of the reader: a row is complete when a line leaves the
    automaton at START_RECORD, and the reader starts afresh for the next
    one; at the end of the input a field under way is kept. *)
Fixpoint read_rows (r : reader) (lines : list string)
    : result (list (list string)) :=
  match lines with
  | [] =>
      if negb (String.eqb (field r) "") || is_in_quoted_field (st r)
      then Ok [fields (parse_save_field r)]
      else Ok []
  | line :: rest =>
      r' <- feed_line r line ;;
      if is_start_record (st r') then
        rows <- read_rows parse_reset rest ;;
        Ok (fields r' :: rows)
      else read_rows r' rest
  end.

(** The lines of a text file read with [newline='']: a line ends after
    LF, after CR LF, after a CR that no LF follows, and at the end of the
    text; the line keeps its ending. [cur] is the line under way. *)
Fixpoint lines_from (cur : string) (s : string) : list string :=
  match s with
  | EmptyString =>
      match cur with
      | EmptyString => []
      | _ => [cur]
      end
  | String c t =>
      if Ascii.eqb c LF then
        (cur ++ String c EmptyString)%string :: lines_from "" t
      else if Ascii.eqb c CR then
        match t with
        | String c' t' =>
            if Ascii.eqb c' LF then
              (cur ++ String c (String c' EmptyString))%string
                :: lines_from "" t'
            else (cur ++ String c EmptyString)%string :: lines_from "" t
        | EmptyString => [(cur ++ String c EmptyString)%string]
        end
      else lines_from (cur ++ String c EmptyString)%string t
  end.

Definition readlines (text : string) : list string := lines_from "" text.

(** [list(csv.reader(f))] on a file that holds [text] *)
Definition csv_reader (text : string) : result (list (list string)) :=
  read_rows parse_reset (readlines text).

(** *** The state of the automaton inside a line

    The automaton is fed whole lines, so while a line is under way the
    reader [r] is the one the line started with and [cur] holds the
    characters seen since; [feed_chars r cur] is where the automaton will
    be once they are fed. *)

Fixpoint feed_chars (r : reader) (s : string) : result reader :=
  match s with
  | EmptyString => Ok r
  | String c t =>
      r' <- parse_process_char r (Ch c) ;;
      feed_chars r' t
  end.

(** the rows read from the text [s] that follows the line under way *)
Definition rows_from (r : reader) (cur s : string)
    : result (list (list string)) :=
  read_rows r (lines_from cur s).

(** inside a quoted field that holds [buf] so far *)
Definition quoted (buf : string) (done : list string) : reader :=
  {| st := IN_QUOTED_FIELD; field := buf; fields := done |}.

(** inside an unquoted field that holds [buf] so far *)
Definition unquoted (buf : string) (done : list string) : reader :=
  {| st := IN_FIELD; field := buf; fields := done |}.

(** after the quote that may close a quoted field *)
Definition closing (buf : string) (done : list string) : reader :=
  {| st := QUOTE_IN_QUOTED_FIELD; field := buf; fields := done |}.

(** before a field *)
Definition before_field (s : state) (done : list string) : reader :=
  {| st := s; field := ""; fields := done |}.

(** reading [text] takes the automaton from [v] to [v'], whatever comes
    before and after, without completing a row *)
Definition advances (v : reader) (text : string) (v' : reader) : Prop :=
  forall r cur rest,
    feed_chars r cur = Ok v ->
    exists r' cur',
      feed_chars r' cur' = Ok v' /\
      rows_from r cur (text ++ rest) = rows_from r' cur' rest.

(** reading the line terminator at [v] completes the row [row] *)
Definition completes (v : reader) (row : list string) : Prop :=
  forall r cur rest,
    feed_chars r cur = Ok v ->
    rows_from r cur (lineterminator ++ rest) =
    (rows <- rows_from parse_reset "" rest ;; Ok (row :: rows)).

(** where the automaton is once it has read the field [f] of a row that
    has the fields [done] before it *)
Inductive field_read (done : list string) (f : string) : reader -> Prop :=
| field_read_empty (s : state) :
    f = ""%string -> s = START_RECORD \/ s = START_FIELD ->
    field_read done f (before_field s done)
| field_read_plain :
    f <> ""%string -> field_read done f (unquoted f done)
| field_read_quoted :
    field_read done f (closing f done).

End CsvReader.

(* ================================================================== *)
(** ** The vocabulary of the specification *)

Module Spec.

(** *** The shape of the responses (section 6 of the specification) *)

(** a field that is absent or holds text *)
Definition optional_text (d : list (string * pyval)) (k : string) : bool :=
  match dict_get d k with
  | None => true
  | Some (PStr _) => true
  | Some _ => false
  end.

(** AuthorRecord: name, affiliation and email, each optional text *)
Definition author_record (a : pyval) : bool :=
  match a with
  | PDict d =>
      optional_text d "name" && optional_text d "affiliation"
      && optional_text d "email"
  | _ => false
  end.

(** a details object: optional title and pubdate, optional array of
    AuthorRecords *)
Definition details_object (v : pyval) : bool :=
  match v with
  | PDict d =>
      optional_text d "title" && optional_text d "pubdate"
      && match dict_get d "authors" with
         | None => true
         | Some (PList l) => forallb author_record l
         | Some _ => false
         end
  | _ => false
  end.

(** the response of the detail endpoint: [result] maps identifiers to
    details objects, next to the reserved key *)
Definition details_response (data : pyval) : bool :=
  match data with
  | PDict d =>
      match dict_get d "result" with
      | None => true
      | Some (PDict r) =>
          forallb (fun kv => String.eqb (fst kv) "uids" || details_object (snd kv)) r
      | Some _ => false
      end
  | _ => false
  end.

(** the items of the result mapping *)
Definition result_items (data : pyval) : list (string * pyval) :=
  match data with
  | PDict d =>
      match dict_get d "result" with
      | Some (PDict r) => r
      | _ => []
      end
  | _ => []
  end.

(** the items a PaperRecord is due for: every key but the reserved one *)
Definition paper_items (data : pyval) : list (string * pyval) :=
  filter (fun kv => negb (String.eqb (fst kv) "uids")) (result_items data).

(** a field of a dict *)
Definition field_of (v : pyval) (k : string) : option pyval :=
  match v with
  | PDict d => dict_get d k
  | _ => None
  end.

(** the author list of a details object, empty when absent *)
Definition authors_of (details : pyval) : list pyval :=
  match field_of details "authors" with
  | Some (PList l) => l
  | _ => []
  end.

(** *** The classification policy (section 4.4) *)

Definition academic_keywords : list string :=
  ["university"; "college"; "institute"; "lab"].

(** a small letter of the ASCII alphabet, as the keywords are written *)
Definition small_letter (k : N) : bool := ((97 <=? k) && (k <=? 122))%N.

(** The code point [c] is the small letter [k] whatever its case: the
    small letter, its capital, or one of the letters that Unicode's case
    mappings tie to them, the dotted capital I (U+0130) and the dotless
    small i (U+0131) for i, the long s (U+017F) for s, the Kelvin sign
    (U+212A) for k. *)
Definition same_letter (k c : N) : bool :=
  ((c =? k) || (c =? k - 32)
   || ((k =? 105) && ((c =? 304) || (c =? 305)))
   || ((k =? 115) && (c =? 383))
   || ((k =? 107) && (c =? 8490)))%N.

(** [s] holds [kw] as a substring once letter case is ignored: some run
    of code points of [s] spells [kw], letter for letter, in whatever
    case *)
Definition contains_ci (kw s : string) : Prop :=
  exists before run after : list N,
    codepoints s = (before ++ run ++ after)%list /\
    Forall2 (fun k c => same_letter k c = true) (codepoints kw) run.

(** the run starts the code points [cs] *)
Fixpoint starts_ci (kw cs : list N) : bool :=
  match kw, cs with
  | [], _ => true
  | k :: kw', c :: cs' => same_letter k c && starts_ci kw' cs'
  | _ :: _, [] => false
  end.

Fixpoint holds_ci (kw cs : list N) : bool :=
  starts_ci kw cs ||
  match cs with
  | [] => false
  | _ :: cs' => holds_ci kw cs'
  end.

(** the academic-keyword match, computed *)
Definition keyword_match (s : string) : bool :=
  existsb (fun kw => holds_ci (codepoints kw) (codepoints s))
          academic_keywords.

(** non-academic: the affiliation is not empty and no keyword matches *)
Definition non_academic (a : pyval) : bool :=
  match field_of a "affiliation" with
  | Some (PStr s) => negb (String.eqb s "") && negb (keyword_match s)
  | _ => false
  end.

Definition name_or_unknown (a : pyval) : pyval :=
  match field_of a "name" with
  | Some v => v
  | None => PStr "Unknown"
  end.

Definition affiliation_or_empty (a : pyval) : pyval :=
  match field_of a "affiliation" with
  | Some v => v
  | None => PStr ""
  end.

(** *** The corresponding author (glossary) *)

Definition has_email (a : pyval) : bool :=
  match field_of a "email" with
  | Some _ => true
  | None => false
  end.

(** [e] is the email of the first author record that lists one *)
Definition first_email (authors : list pyval) (e : pyval) : Prop :=
  exists before a after,
    authors = before ++ a :: after /\
    Forall (fun x => has_email x = false) before /\
    field_of a "email" = Some e.

(** *** The PaperRecord (section 3) and the output file (section 6) *)

Definition columns : list string :=
  [ "PubmedID"; "Title"; "Publication Date"; "Non-academic Author(s)";
    "Company Affiliation(s)"; "Corresponding Author Email" ].

(** the text of a field of a record *)
Definition text_field (r : record) (k : string) (s : string) : Prop :=
  dict_get r k = Some (PStr s).

Definition is_text (v : pyval) : bool :=
  match v with
  | PStr _ => true
  | _ => false
  end.

Fixpoint same_keys (l1 l2 : list string) : bool :=
  match l1, l2 with
  | [], [] => true
  | a :: l1', b :: l2' => String.eqb a b && same_keys l1' l2'
  | _, _ => false
  end.

(** all six fields, in order, each holding text *)
Definition paper_record (r : record) : bool :=
  same_keys (dict_keys r) columns && forallb (fun kv => is_text (snd kv)) r.

(** the values of a record, in the order of its keys *)
Definition values (r : record) : list pyval := map snd r.

(** a field of a dict, or a default *)
Definition field_or (v : pyval) (k : string) (default : pyval) : pyval :=
  match field_of v k with
  | Some x => x
  | None => default
  end.

Definition text_of (v : pyval) : string :=
  match v with
  | PStr s => s
  | _ => ""
  end.

(** the email of the first author record that lists one, if any *)
Definition listed_email (authors : list pyval) : pyval :=
  match find has_email authors with
  | Some a => field_or a "email" PNone
  | None => PNone
  end.

(** the PaperRecord of an item of the result mapping (section 4.3) *)
Definition row_of (item : string * pyval) : record :=
  let details := snd item in
  let company := filter non_academic (authors_of details) in
  [ ("PubmedID", PStr (fst item));
    ("Title", field_or details "title" (PStr "N/A"));
    ("Publication Date", field_or details "pubdate" (PStr "N/A"));
    ("Non-academic Author(s)",
       PStr (join ", " (map text_of (map name_or_unknown company))));
    ("Company Affiliation(s)",
       PStr (join ", " (map text_of (map affiliation_or_empty company))));
    ("Corresponding Author Email",
       py_or (listed_email (authors_of details)) (PStr "N/A")) ].

(** the reading of "resolves to the first such author's email" *)
Definition resolves_to_first_email (details : pyval) (r : record) : Prop :=
  forall e, first_email (authors_of details) e ->
    dict_get r "Corresponding Author Email" = Some e.

(** the text of a value as a field of the file: a string as it is, None
    as the empty text, anything else as [str] gives it *)
Definition text_in_file (py_str : pyval -> string) (v : pyval) : string :=
  match v with
  | PStr s => s
  | PNone => ""
  | _ => py_str v
  end.

(** the texts of the fields of a record, in the order of its keys *)
Definition row_texts (py_str : pyval -> string) (r : record) : list string :=
  map (text_in_file py_str) (values r).

(** every text of the row can be encoded in UTF-8: none holds a lone
    surrogate *)
Definition encodable (py_str : pyval -> string) (r : record) : bool :=
  forallb utf8_encodable (row_texts py_str r).

(** *** The comma-delimited format (section 6)

    A file is a sequence of lines, each ended by CR LF. A line holds the
    fields of a row with a comma between two fields. A field stands as it
    is when it holds no comma, no double quote and no line break; and any
    field can stand between double quotes with each double quote of it
    written twice. *)

Definition line_end : string := String "013"%char (String "010"%char "").

Definition header_line : string :=
  "PubmedID,Title,Publication Date,Non-academic Author(s),Company Affiliation(s),Corresponding Author Email"
  ++ line_end.

(** no character of [f] is a comma, a double quote, CR or LF *)
Fixpoint bare (f : string) : bool :=
  match f with
  | EmptyString => true
  | String c t =>
      negb (Ascii.eqb c ","%char) && negb (Ascii.eqb c "034"%char)
      && negb (Ascii.eqb c "013"%char) && negb (Ascii.eqb c "010"%char)
      && bare t
  end.

(** [t] is [f] with each double quote written twice *)
Inductive doubled : string -> string -> Prop :=
| doubled_end : doubled "" ""
| doubled_quote (f t : string) :
    doubled f t ->
    doubled (String "034"%char f) (String "034"%char (String "034"%char t))
| doubled_other (c : ascii) (f t : string) :
    c <> "034"%char -> doubled f t -> doubled (String c f) (String c t).

(** [t] is the field [f] as a line holds it *)
Inductive field_in_line (f : string) : string -> Prop :=
| field_bare : bare f = true -> field_in_line f f
| field_quoted (t : string) :
    doubled f t ->
    field_in_line f (String "034"%char (t ++ String "034"%char "")).

(** [t] is the fields of a row with commas between them *)
Inductive fields_in_line : list string -> string -> Prop :=
| fields_last (f t : string) : field_in_line f t -> fields_in_line [f] t
| fields_next (f t : string) (fs : list string) (ts : string) :
    field_in_line f t -> fields_in_line fs ts ->
    fields_in_line (f :: fs) (t ++ String ","%char ts).

(** [text] is the lines of the rows, one line for each row, in order *)
Inductive lines_of : list (list string) -> string -> Prop :=
| lines_none : lines_of [] ""
| lines_next (row : list string) (t : string) (rows : list (list string))
    (ts : string) :
    fields_in_line row t -> lines_of rows ts ->
    lines_of (row :: rows) (t ++ line_end ++ ts).

(** *** Failing with nothing to write (section 7)

    An exception tells the caller of [save_to_csv] that there was nothing
    to write when no call with a record to write, to the same file and
    from the same world, ends with it. *)
Definition only_when_empty (py_str : pyval -> string) (filename : string)
    (w : world) (e : exn) : Prop :=
  forall papers, papers <> [] ->
    fst (save_to_csv py_str papers filename w) <> Raise e.

(** *** The search response (section 6) *)

(** the identifier list of a search response: [esearchresult.idlist],
    empty when either field is absent *)
Definition idlist (data : pyval) : option (list pyval) :=
  match data with
  | PDict d =>
      match dict_get d "esearchresult" with
      | None => Some []
      | Some (PDict e) =>
          match dict_get e "idlist" with
          | None => Some []
          | Some (PList l) => Some l
          | Some _ => None
          end
      | Some _ => None
      end
  | _ => None
  end.

(** *** Failures of a network call (section 7) *)

Definition error_status (status : Z) : bool :=
  ((400 <=? status) && (status <? 600))%Z.

(** no response, an error status, or a body that is not JSON *)
Definition call_fails (o : get_outcome) : bool :=
  match o with
  | Fails _ => true
  | Responds r =>
      error_status (status_code r)
      || match body r with None => true | Some _ => false end
  end.

(** the exception such a failure raises inside the call *)
Definition failure_of (o : get_outcome) : exn :=
  match o with
  | Fails t => RequestException (Transport t)
  | Responds r =>
      if error_status (status_code r)
      then RequestException (HTTPError (status_code r))
      else RequestException JSONDecodeError
  end.

Definition search_request (query : string) (retmax : Z) : request :=
  {| url := PUBMED_API_URL;
     params := [ ("db", PStr "pubmed"); ("term", PStr query);
                 ("retmax", PInt retmax); ("retmode", PStr "json");
                 ("api_key", PStr API_KEY) ] |}.

Definition details_request (ids : string) : request :=
  {| url := DETAILS_API_URL;
     params := [ ("db", PStr "pubmed"); ("id", PStr ids);
                 ("retmode", PStr "json"); ("api_key", PStr API_KEY) ] |}.

(** *** What the loops can take *)

Definition is_dict (v : pyval) : bool :=
  match v with
  | PDict _ => true
  | _ => false
  end.

(** an author the classifier can take: a dict whose affiliation is absent,
    falsy, or text *)
Definition classifiable (a : pyval) : bool :=
  match a with
  | PDict d =>
      match dict_get d "affiliation" with
      | None => true
      | Some v => negb (truthy v) || is_text v
      end
  | _ => false
  end.

(** the exception the classifier raises on an author it cannot take *)
Definition classifier_error (a : pyval) : exn :=
  match a with
  | PDict _ => TypeError
  | _ => AttributeError
  end.

(** the world in which [main] makes its search call *)
Definition started (args : Namespace) (w : world) : world :=
  if debug args then with_logger_level w DEBUG else w.

(** *** What a computation leaves alone *)

(** [w'] has the console, the files and the logger level of [w] *)
Definition same_outputs (w w' : world) : Prop :=
  stdout w' = stdout w /\ files w' = files w /\
  writable w' = writable w /\ logger_level w' = logger_level w.

(** [w'] differs from [w] in the file [name] at most *)
Definition only_file_changed (name : string) (w w' : world) : Prop :=
  requests_made w' = requests_made w /\ stdout w' = stdout w /\
  logged w' = logged w /\ logger_level w' = logger_level w /\
  writable w' = writable w /\
  forall other, other <> name ->
    file_read (files w') other = file_read (files w) other.

(** every run of [m] takes a world to one related to it by [R] *)
Definition keeps (R : world -> world -> Prop) {A : Type} (m : M A) : Prop :=
  forall w, R w (snd (m w)).

(** two worlds that differ in the logger level at most, both loggers
    letting INFO through *)
Definition agree_but_level (w1 w2 : world) : Prop :=
  requests_made w1 = requests_made w2 /\ logged w1 = logged w2 /\
  stdout w1 = stdout w2 /\ writable w1 = writable w2 /\
  files w1 = files w2 /\
  (levelno (logger_level w1) <= 20)%Z /\ (levelno (logger_level w2) <= 20)%Z.

(** two runs of [m] from such worlds end alike *)
Definition level_blind {A : Type} (m : M A) : Prop :=
  forall w1 w2, agree_but_level w1 w2 ->
    fst (m w1) = fst (m w2) /\ agree_but_level (snd (m w1)) (snd (m w2)).

(** *** Exceptions the call sites let through *)

(** a result that is not a raised RequestException *)
Definition passes_handler {A : Type} (r : result A) : Prop :=
  match r with
  | Ok _ => True
  | Raise e => is_RequestException e = false
  end.

(** the record the logger keeps of a failed call *)
Definition failure_record (msg : string) (o : get_outcome) : log_record :=
  {| log_level := ERROR; log_msg := msg; log_exc := Some (failure_of o) |}.

End Spec.

Import Spec.

(* ================================================================== *)
(** ** Sample inputs *)

Module Sample.

Definition jane : pyval :=
  PDict [ ("name", PStr "Jane Doe"); ("affiliation", PStr "Pfizer Inc.");
          ("email", PStr "jane@pfizer.com") ].

Definition john : pyval :=
  PDict [ ("name", PStr "John Smith");
          ("affiliation", PStr "Harvard University") ].

Definition anonymous : pyval :=
  PDict [ ("affiliation", PStr "Acme Corp") ].

Definition unaffiliated : pyval :=
  PDict [ ("name", PStr "No One"); ("email", PStr "") ].

Definition authors : list pyval := [john; jane; anonymous; unaffiliated].

(** an affiliation printed with a long s (U+017F, the bytes C5 BF), which
    the pattern takes for an s when it ignores case *)
Definition long_s : string := String "197"%char (String "191"%char "").

Definition old_print : pyval :=
  PDict [ ("name", PStr "Old Print");
          ("affiliation", PStr ("Univer" ++ long_s ++ "ity Hospital")) ].

(** an affiliation in capitals with a dotted capital I (U+0130, the bytes
    C4 B0), which the pattern takes for an i *)
Definition dotted_I : string := String "196"%char (String "176"%char "").

Definition capitals : pyval :=
  PDict [ ("name", PStr "All Caps");
          ("affiliation", PStr ("UN" ++ dotted_I ++ "VERSITY CLINIC")) ].

Definition authors_in_print : list pyval :=
  [old_print; jane; capitals; anonymous].

(** the detail response of the scenario of section 8 *)
Definition details_data : pyval :=
  PDict [ ("result",
     PDict [ ("uids", PList [PStr "111"; PStr "222"]);
             ("111", PDict [ ("title", PStr "Study A"); ("pubdate", PStr "2023");
                             ("authors", PList [jane]) ]);
             ("222", PDict [ ("title", PStr "Study B"); ("pubdate", PStr "2022");
                             ("authors", PList [john]) ]) ]) ].

(** a paper whose only listed email is the empty string *)
Definition blank_email_data : pyval :=
  PDict [ ("result",
     PDict [ ("333", PDict [ ("title", PStr "Study C");
                             ("authors", PList [john; unaffiliated; jane]) ]) ]) ].

Definition search_data : pyval :=
  PDict [ ("esearchresult", PDict [ ("idlist", PList [PStr "111"; PStr "222"]) ]) ].

Definition empty_search_data : pyval :=
  PDict [ ("esearchresult", PDict [ ("idlist", PList []) ]) ].

(** a network whose every call answers 500 with a body that is not JSON *)
Definition net_500 (_ : list request) (_ : request) : get_outcome :=
  Responds {| status_code := 500; body := None |}.

(** a network that is down *)
Definition net_down (_ : list request) (_ : request) : get_outcome :=
  Fails ConnectionError.

(** a network that answers every call with a JSON array *)
Definition net_array (_ : list request) (_ : request) : get_outcome :=
  Responds {| status_code := 200; body := Some (PList []) |}.

(** a network that finds nothing *)
Definition net_nothing (_ : list request) (_ : request) : get_outcome :=
  Responds {| status_code := 200; body := Some empty_search_data |}.

(** the network of the scenario of section 8 *)
Definition net_scenario (_ : list request) (rq : request) : get_outcome :=
  if String.eqb (url rq) PUBMED_API_URL
  then Responds {| status_code := 200; body := Some search_data |}
  else Responds {| status_code := 200; body := Some details_data |}.

(** a stand-in for [str] on values that are not text; the sample rows
    hold text only *)
Definition plain_str (_ : pyval) : string := "?".

Definition world0 : world := initial_world (fun _ => true) [].

Definition papers : list record :=
  [ [ ("PubmedID", PStr "111"); ("Title", PStr "Study A, part 1");
      ("Publication Date", PStr "2023");
      ("Non-academic Author(s)", PStr "Jane Doe");
      ("Company Affiliation(s)", PStr "Pfizer Inc.");
      ("Corresponding Author Email", PStr "jane@pfizer.com") ] ].

(** the lone surrogate U+D800, which JSON can carry as an escape and which
    UTF-8 cannot encode; the three bytes ED A0 80 stand for it *)
Definition lone_surrogate : string :=
  String "237"%char (String "160"%char (String "128"%char "")).

(** a detail response whose second title is a lone surrogate *)
Definition surrogate_data : pyval :=
  PDict [ ("result",
     PDict [ ("uids", PList [PStr "111"; PStr "444"]);
             ("111", PDict [ ("title", PStr "Study A"); ("pubdate", PStr "2023");
                             ("authors", PList [jane]) ]);
             ("444", PDict [ ("title", PStr lone_surrogate);
                             ("pubdate", PStr "2024");
                             ("authors", PList [jane]) ]) ]) ].

(** two PaperRecords, the second with that title *)
Definition surrogate_papers : list record :=
  [ [ ("PubmedID", PStr "111"); ("Title", PStr "Study A, part 1");
      ("Publication Date", PStr "2023");
      ("Non-academic Author(s)", PStr "Jane Doe");
      ("Company Affiliation(s)", PStr "Pfizer Inc.");
      ("Corresponding Author Email", PStr "jane@pfizer.com") ];
    [ ("PubmedID", PStr "444"); ("Title", PStr lone_surrogate);
      ("Publication Date", PStr "2024");
      ("Non-academic Author(s)", PStr "Jane Doe");
      ("Company Affiliation(s)", PStr "Pfizer Inc.");
      ("Corresponding Author Email", PStr "jane@pfizer.com") ] ].

(** a world in which no file can be opened *)
Definition world_read_only : world := initial_world (fun _ => false) [].

(** a world in which [out.csv] holds an earlier report *)
Definition world_with_report : world :=
  initial_world (fun _ => true) [("out.csv", header_line)].

Definition args_console : Namespace :=
  {| query := "cancer immunotherapy"; file := None; debug := false |}.

Definition args_file : Namespace :=
  {| query := "cancer immunotherapy"; file := Some "out.csv"; debug := false |}.

(** a detail response whose second item is not an object *)
Definition broken_item_data : pyval :=
  PDict [ ("result",
     PDict [ ("111", PDict [ ("title", PStr "Study A");
                             ("authors", PList [jane]) ]);
             ("222", PStr "withdrawn") ]) ].

(** a non-academic author whose name is null *)
Definition nameless : pyval :=
  PDict [ ("name", PNone); ("affiliation", PStr "Acme Corp") ].

Definition null_name_data : pyval :=
  PDict [ ("result",
     PDict [ ("111", PDict [ ("title", PStr "Study A");
                             ("authors", PList [john; nameless]) ]) ]) ].

(** a network that finds two papers and then loses the connection *)
Definition net_details_down (_ : list request) (rq : request) : get_outcome :=
  if String.eqb (url rq) PUBMED_API_URL
  then Responds {| status_code := 200; body := Some search_data |}
  else Fails Timeout.

(** a search response whose identifiers are numbers *)
Definition numeric_search_data : pyval :=
  PDict [ ("esearchresult", PDict [ ("idlist", PList [PInt 111; PInt 222]) ]) ].

Definition net_numeric_ids (_ : list request) (_ : request) : get_outcome :=
  Responds {| status_code := 200; body := Some numeric_search_data |}.

End Sample.

(* ================================================================== *)
(** ** Text *)

Section TextFacts.

Lemma append_nil_r (s : string) : (s ++ "")%string = s.
Proof.
  induction s as [|c s IH]; simpl; [reflexivity | now rewrite IH].
Qed.

Lemma append_assoc (a b c : string) :
  ((a ++ b) ++ c)%string = (a ++ (b ++ c))%string.
Proof.
  induction a as [|x a IH]; simpl; [reflexivity | now rewrite IH].
Qed.

Lemma is_prefix_spec (p s : string) :
  is_prefix p s = true <-> exists post, s = (p ++ post)%string.
Proof.
  revert s; induction p as [|a p IH]; intros s; simpl.
  - split; [intros _; now exists s | reflexivity].
  - destruct s as [|b s].
    + split; [discriminate | intros [post H]; discriminate].
    + rewrite andb_true_iff, Ascii.eqb_eq, IH. split.
      * intros [-> [post ->]]. now exists post.
      * intros [post H]. injection H as -> ->. split; [reflexivity | now exists post].
Qed.

Lemma is_substring_spec (sub s : string) :
  is_substring sub s = true <->
  exists pre post, s = (pre ++ sub ++ post)%string.
Proof.
  induction s as [|c s IH].
  - cbn [is_substring]. rewrite orb_false_r, is_prefix_spec. split.
    + intros [post H]. now exists ""%string, post.
    + intros [pre [post H]]. destruct pre as [|x pre]; [|discriminate].
      now exists post.
  - cbn [is_substring]. rewrite orb_true_iff, is_prefix_spec, IH. split.
    + intros [[post H] | [pre [post H]]].
      * now exists ""%string, post.
      * exists (String c pre), post. simpl. now rewrite H.
    + intros [pre [post H]]. destruct pre as [|x pre].
      * left. now exists post.
      * right. simpl in H. injection H as _ H. now exists pre, post.
Qed.

(** On a small letter of the pattern the matcher's test is the case
    relation of the specification. *)
Lemma char_matches_same_letter (k c : N) :
  small_letter k = true -> char_matches true k c = same_letter k c.
Proof.
  unfold small_letter. intros H. apply andb_true_iff in H.
  destruct H as [H1 H2]. apply N.leb_le in H1. apply N.leb_le in H2.
  assert (Hk : sre_lower_unicode k = k).
  { unfold sre_lower_unicode.
    destruct (N.leb_spec 65 k), (N.leb_spec k 90); cbn [andb]; try lia.
    destruct (N.eqb_spec k 304); [lia |].
    destruct (N.eqb_spec k 8490); [lia | reflexivity]. }
  unfold char_matches. rewrite Hk.
  unfold sre_lower_unicode, ignorecase_fixes, same_letter.
  destruct (N.leb_spec 65 c), (N.leb_spec c 90), (N.eqb_spec c 304),
    (N.eqb_spec c 8490), (N.eqb_spec k 105), (N.eqb_spec k 115);
    try lia; cbn [andb orb existsb];
  repeat (lazymatch goal with
          | |- context [(?a <=? ?b)%N] => destruct (N.leb_spec a b)
          | |- context [(?a =? ?b)%N] => destruct (N.eqb_spec a b)
          end; try lia; cbn [andb orb existsb]).
  all: try reflexivity; lia.
Qed.

Lemma literal_matches_starts (kw cs : list N) :
  forallb small_letter kw = true ->
  literal_matches true kw cs = starts_ci kw cs.
Proof.
  revert cs. induction kw as [|k kw IH]; intros [|c cs] H;
    cbn [literal_matches starts_ci]; try reflexivity.
  cbn [forallb] in H. apply andb_true_iff in H. destruct H as [Hk Hkw].
  now rewrite (@char_matches_same_letter k c Hk), (IH cs Hkw).
Qed.

Lemma regex_search_alternation (ic : bool) (r1 r2 : regex) (cs : list N) :
  regex_search ic (Alternation r1 r2) cs =
  regex_search ic r1 cs || regex_search ic r2 cs.
Proof.
  induction cs as [|c cs IH]; cbn [regex_search regex_match].
  - now rewrite !orb_false_r.
  - rewrite IH.
    destruct (regex_match ic r1 (c :: cs)), (regex_match ic r2 (c :: cs)),
      (regex_search ic r1 cs), (regex_search ic r2 cs); reflexivity.
Qed.

Lemma regex_search_literal (p : string) (cs : list N) :
  forallb small_letter (codepoints p) = true ->
  regex_search true (Literal p) cs = holds_ci (codepoints p) cs.
Proof.
  intros H. induction cs as [|c cs IH];
    cbn [regex_search regex_match holds_ci].
  - now rewrite literal_matches_starts.
  - now rewrite literal_matches_starts, IH.
Qed.

(** The pattern of the program finds a match exactly when the subject
    holds one of the four keywords, whatever the case of its letters. *)
Lemma academic_pattern_keywords (s : string) :
  regex_search true academic_pattern (codepoints s) = keyword_match s.
Proof.
  unfold academic_pattern, keyword_match, academic_keywords.
  rewrite !regex_search_alternation.
  rewrite !regex_search_literal by reflexivity.
  cbn [existsb]. now rewrite orb_false_r.
Qed.

Lemma starts_ci_spec (kw cs : list N) :
  starts_ci kw cs = true <->
  exists run after : list N,
    cs = (run ++ after)%list /\
    Forall2 (fun k c => same_letter k c = true) kw run.
Proof.
  revert cs. induction kw as [|k kw IH]; intros cs; cbn [starts_ci].
  - split; [| reflexivity]. intros _. exists [], cs. split; auto.
  - destruct cs as [|c cs].
    + split; [discriminate |]. intros [run [after [E F]]].
      inversion F; subst. discriminate.
    + rewrite andb_true_iff, IH. split.
      * intros [Hc [run [after [E F]]]]. exists (c :: run), after.
        split; [now rewrite E | now constructor].
      * intros [run [after [E F]]]. inversion F as [|k' c' kw' run' Hc F'];
          subst. cbn [app] in E. injection E as -> ->.
        split; [exact Hc | now exists run', after].
Qed.

Lemma holds_ci_spec (kw cs : list N) :
  holds_ci kw cs = true <->
  exists before run after : list N,
    cs = (before ++ run ++ after)%list /\
    Forall2 (fun k c => same_letter k c = true) kw run.
Proof.
  induction cs as [|c cs IH]; cbn [holds_ci].
  - rewrite orb_false_r, starts_ci_spec. split.
    + intros [run [after [E F]]]. now exists [], run, after.
    + intros [before [run [after [E F]]]].
      destruct before as [|x before]; [| discriminate]. now exists run, after.
  - rewrite orb_true_iff, starts_ci_spec, IH. split.
    + intros [[run [after [E F]]] | [before [run [after [E F]]]]].
      * now exists [], run, after.
      * exists (c :: before), run, after. split; [now rewrite E | exact F].
    + intros [before [run [after [E F]]]]. destruct before as [|x before].
      * left. now exists run, after.
      * right. cbn [app] in E. injection E as _ E. now exists before, run, after.
Qed.

Lemma keyword_match_spec (s : string) :
  keyword_match s = true <->
  exists kw, In kw academic_keywords /\ contains_ci kw s.
Proof.
  unfold keyword_match, contains_ci. rewrite existsb_exists.
  split; intros [kw [Hin H]]; exists kw; split; trivial;
    now apply holds_ci_spec.
Qed.

Lemma keyword_match_false (s : string) :
  keyword_match s = false <->
  forall kw, In kw academic_keywords -> ~ contains_ci kw s.
Proof.
  split.
  - intros H kw Hin Hc.
    assert (keyword_match s = true) by (apply keyword_match_spec; eauto).
    congruence.
  - intros H. destruct (keyword_match s) eqn:E; [|reflexivity].
    apply keyword_match_spec in E. destruct E as [kw [Hin Hc]].
    now destruct (H kw Hin).
Qed.

(** *** Decoding and the bytes below 128

    A byte below 128 is a character of its own wherever it stands, so the
    code points before it and those after it are decoded apart. *)

Lemma decode_app_ascii (c : ascii) (b : string) :
  (N_of_ascii c <? 128)%N = true ->
  forall a,
    decode (a ++ String c b) = (decode a ++ decode (String c b))%list.
Proof.
  intros Hc.
  assert (Hcont : is_continuation (N_of_ascii c) = false).
  { unfold is_continuation. apply N.ltb_lt in Hc.
    apply andb_false_iff. left. apply N.leb_gt. lia. }
  remember (String c b) as rest eqn:Hrest.
  assert (H : forall n a, (String.length a <= n)%nat ->
            decode (a ++ rest) = (decode a ++ decode rest)%list).
  { induction n as [|n IH]; intros a Hn.
    - destruct a; [reflexivity | cbn in Hn; lia].
    - destruct a as [|b0 t0]; [reflexivity |].
      cbn [String.length] in Hn.
      change (String b0 t0 ++ rest)%string
        with (String b0 (t0 ++ rest)%string).
      cbn [decode]. rewrite (IH t0) by lia.
      destruct (N_of_ascii b0 <? 192)%N; [reflexivity |].
      destruct t0 as [|b1 t1]; cbn [append].
      { subst rest. cbv beta iota. now rewrite Hcont. }
      cbn [String.length] in Hn.
      destruct (is_continuation (N_of_ascii b1)); cbn [negb]; [| reflexivity].
      destruct (N_of_ascii b0 <? 224)%N;
        [cbn [app]; now rewrite (IH t1) by lia |].
      destruct t1 as [|b2 t2]; cbn [append].
      { subst rest. cbv beta iota. now rewrite Hcont. }
      cbn [String.length] in Hn.
      destruct (is_continuation (N_of_ascii b2)); cbn [negb]; [| reflexivity].
      destruct (N_of_ascii b0 <? 240)%N;
        [cbn [app]; now rewrite (IH t2) by lia |].
      destruct t2 as [|b3 t3]; cbn [append].
      { subst rest. cbv beta iota. now rewrite Hcont. }
      cbn [String.length] in Hn.
      destruct (negb (is_continuation (N_of_ascii b3))
                || negb (N_of_ascii b0 <? 248)%N); [reflexivity |].
      cbn [app]. now rewrite (IH t3) by lia. }
  intros a. exact (H (String.length a) a (le_n _)).
Qed.

Lemma codepoints_app_ascii (a : string) (c : ascii) (b : string) :
  (N_of_ascii c <? 128)%N = true ->
  codepoints (a ++ String c b)
  = (codepoints a ++ N_of_ascii c :: codepoints b)%list.
Proof.
  intros Hc. unfold codepoints.
  rewrite (@decode_app_ascii c b Hc a), map_app.
  f_equal. cbn [decode].
  assert (H : (N_of_ascii c <? 192)%N = true).
  { apply N.ltb_lt in Hc. apply N.ltb_lt. lia. }
  now rewrite H.
Qed.

Lemma utf8_encodable_app_ascii (a : string) (c : ascii) (b : string) :
  (N_of_ascii c <? 128)%N = true ->
  utf8_encodable (a ++ String c b) = utf8_encodable a && utf8_encodable b.
Proof.
  intros Hc. unfold utf8_encodable.
  rewrite (@codepoints_app_ascii a c b Hc), forallb_app. cbn [forallb].
  assert (H : is_surrogate (N_of_ascii c) = false).
  { unfold is_surrogate. apply N.ltb_lt in Hc.
    apply andb_false_iff. left. apply N.leb_gt. lia. }
  now rewrite H.
Qed.

Lemma utf8_encodable_ascii_head (c : ascii) (s : string) :
  (N_of_ascii c <? 128)%N = true ->
  utf8_encodable (String c s) = utf8_encodable s.
Proof.
  intros Hc. exact (@utf8_encodable_app_ascii "" c s Hc).
Qed.

(** Doubling the quotes of a text adds no surrogate and removes none. *)
Lemma utf8_encodable_double_quotes (s a : string) :
  utf8_encodable (a ++ Csv.double_quotes s) = utf8_encodable (a ++ s).
Proof.
  revert a. induction s as [|c t IH]; intros a; cbn [Csv.double_quotes];
    [reflexivity |].
  destruct (Ascii.eqb c Csv.DQUOTE) eqn:E.
  - apply Ascii.eqb_eq in E. subst c.
    rewrite !utf8_encodable_app_ascii by reflexivity.
    rewrite utf8_encodable_ascii_head by reflexivity.
    f_equal. exact (IH "").
  - assert (H : forall x : string,
              (a ++ String c x)%string = ((a ++ String c "") ++ x)%string)
      by (intros x; now rewrite append_assoc).
    rewrite (H (Csv.double_quotes t)), (H t). apply IH.
Qed.

Lemma write_field_encodable (s : string) :
  utf8_encodable (Csv.write_field s) = utf8_encodable s.
Proof.
  unfold Csv.write_field. destruct (Csv.needs_quotes s); [| reflexivity].
  rewrite utf8_encodable_ascii_head by reflexivity.
  rewrite utf8_encodable_app_ascii by reflexivity.
  rewrite andb_true_r. exact (utf8_encodable_double_quotes s "").
Qed.

Lemma join_encodable (fields : list string) :
  forallb utf8_encodable fields = true ->
  utf8_encodable (join (String Csv.COMMA "") (map Csv.write_field fields))
  = true.
Proof.
  induction fields as [|f rest IH]; intros H; [reflexivity |].
  cbn [forallb] in H. apply andb_true_iff in H. destruct H as [Hf Hrest].
  destruct rest as [|g rest].
  - cbn [map join]. now rewrite write_field_encodable.
  - change (join (String Csv.COMMA "")
              (map Csv.write_field (f :: g :: rest)))
      with (Csv.write_field f ++
            String Csv.COMMA
              (join (String Csv.COMMA "") (map Csv.write_field (g :: rest))))%string.
    rewrite utf8_encodable_app_ascii by reflexivity.
    now rewrite write_field_encodable, Hf, (IH Hrest).
Qed.

(** A row of texts that can be encoded is written as a line that can. *)
Lemma write_row_encodable (fields : list string) :
  forallb utf8_encodable fields = true ->
  utf8_encodable (Csv.write_row fields) = true.
Proof.
  intros H.
  assert (G : utf8_encodable
                (join (String Csv.COMMA "") (map Csv.write_field fields)
                 ++ Csv.lineterminator) = true).
  { unfold Csv.lineterminator.
    rewrite utf8_encodable_app_ascii by reflexivity.
    now rewrite (join_encodable fields H). }
  unfold Csv.write_row.
  destruct fields as [|[|c s] [|s' row]]; exact G.
Qed.

(** *** The writer keeps to the format *)

Lemma needs_quotes_bare (f : string) :
  Csv.needs_quotes f = false -> bare f = true.
Proof.
  induction f as [|c t IH]; [reflexivity |].
  cbn [Csv.needs_quotes bare]. unfold Csv.is_special.
  unfold Csv.COMMA, Csv.DQUOTE, Csv.CR, Csv.LF.
  intros H. apply orb_false_iff in H. destruct H as [H Ht].
  apply orb_false_iff in H. destruct H as [H H4].
  apply orb_false_iff in H. destruct H as [H H3].
  apply orb_false_iff in H. destruct H as [H1 H2].
  now rewrite H1, H2, H3, H4, (IH Ht).
Qed.

Lemma double_quotes_doubled (f : string) : doubled f (Csv.double_quotes f).
Proof.
  induction f as [|c t IH]; cbn [Csv.double_quotes]; [constructor |].
  destruct (Ascii.eqb c Csv.DQUOTE) eqn:E.
  - apply Ascii.eqb_eq in E. subst c. now constructor.
  - apply Ascii.eqb_neq in E. now constructor.
Qed.

Lemma write_field_in_line (f : string) : field_in_line f (Csv.write_field f).
Proof.
  unfold Csv.write_field. destruct (Csv.needs_quotes f) eqn:E.
  - apply field_quoted, double_quotes_doubled.
  - apply field_bare, needs_quotes_bare, E.
Qed.

Lemma join_in_line (fields : list string) :
  fields <> [] ->
  fields_in_line fields
    (join (String Csv.COMMA "") (map Csv.write_field fields)).
Proof.
  induction fields as [|f rest IH]; intros H; [now destruct H |].
  destruct rest as [|g rest].
  - cbn [map join]. apply fields_last, write_field_in_line.
  - change (join (String Csv.COMMA "")
              (map Csv.write_field (f :: g :: rest)))
      with (Csv.write_field f ++
            String ","%char
              (join (String Csv.COMMA "") (map Csv.write_field (g :: rest))))%string.
    apply fields_next; [apply write_field_in_line | apply IH; discriminate].
Qed.

(** The line of a row that has a field is its fields, then CR LF. *)
Lemma write_row_in_line (fields : list string) :
  fields <> [] ->
  exists t, fields_in_line fields t /\
    Csv.write_row fields = (t ++ line_end)%string.
Proof.
  intros H. destruct fields as [|[|c s] [|s' row]];
    try (eexists; split; [apply join_in_line; discriminate | reflexivity]).
  - now destruct H.
  - exists (String "034"%char (String "034"%char "")). split; [| reflexivity].
    apply fields_last. apply (field_quoted doubled_end).
Qed.

Lemma write_rows_lines (rows : list (list string)) :
  Forall (fun row => row <> []) rows -> lines_of rows (Csv.write_rows rows).
Proof.
  induction 1 as [|row rows Hrow Hrows IH]; cbn [Csv.write_rows];
    [constructor |].
  destruct (write_row_in_line Hrow) as [t [Ht ->]].
  rewrite append_assoc. now constructor.
Qed.

End TextFacts.

(* ================================================================== *)
(** ** The affiliation classifier: properties *)

Section Classifier.

Lemma author_record_inv (a : pyval) :
  author_record a = true ->
  exists d, a = PDict d /\
    optional_text d "name" = true /\
    optional_text d "affiliation" = true /\
    optional_text d "email" = true.
Proof.
  destruct a; try discriminate. simpl.
  rewrite !andb_true_iff. intros [[H1 H2] H3]. eauto.
Qed.

Lemma optional_text_inv (d : list (string * pyval)) (k : string) :
  optional_text d k = true ->
  dict_get d k = None \/ exists s, dict_get d k = Some (PStr s).
Proof.
  unfold optional_text. destruct (dict_get d k) as [[]|]; try discriminate; eauto.
Qed.

(** One turn of the loop on an AuthorRecord. *)
Lemma filter_loop_step (a : pyval) (rest names affs : list pyval) :
  author_record a = true ->
  filter_loop (a :: rest) names affs =
  if non_academic a
  then filter_loop rest (names ++ [name_or_unknown a])
                        (affs ++ [affiliation_or_empty a])
  else filter_loop rest names affs.
Proof.
  intros Ha. destruct (author_record_inv a Ha) as [d [-> [_ [Haff _]]]].
  unfold non_academic, name_or_unknown, affiliation_or_empty, field_of.
  cbn [filter_loop py_get bind].
  destruct (optional_text_inv _ _ Haff) as [E | [s E]]; rewrite E.
  - reflexivity.
  - cbn [truthy]. destruct (String.eqb s "") eqn:Es; cbn [negb andb].
    + reflexivity.
    + cbn [re_search bind]. rewrite academic_pattern_keywords.
      destruct (keyword_match s); reflexivity.
Qed.

Lemma filter_loop_spec (authors names affs : list pyval) :
  forallb author_record authors = true ->
  filter_loop authors names affs =
  Ok (names ++ map name_or_unknown (filter non_academic authors),
      affs ++ map affiliation_or_empty (filter non_academic authors)).
Proof.
  revert names affs. induction authors as [|a rest IH]; intros names affs H.
  - simpl. now rewrite !app_nil_r.
  - cbn [forallb] in H. apply andb_true_iff in H. destruct H as [Ha Hrest].
    rewrite filter_loop_step by exact Ha. cbn [filter].
    destruct (non_academic a).
    + rewrite IH by exact Hrest. cbn [map]. now rewrite <- !app_assoc.
    + now apply IH.
Qed.

(** What the policy says of an AuthorRecord. *)
Lemma non_academic_spec (a : pyval) :
  non_academic a = true <->
  exists s, field_of a "affiliation" = Some (PStr s) /\ s <> "" /\
    forall kw, In kw academic_keywords -> ~ contains_ci kw s.
Proof.
  unfold non_academic. split.
  - destruct (field_of a "affiliation") as [[]|]; try discriminate.
    rewrite andb_true_iff, !negb_true_iff, String.eqb_neq, keyword_match_false.
    intros [H1 H2]. eauto.
  - intros [s [-> [H1 H2]]].
    rewrite andb_true_iff, !negb_true_iff, String.eqb_neq, keyword_match_false.
    now split.
Qed.

(** C1. On every list of author records [filter_non_academic_authors]
    returns two lists of the same length, the names and the affiliations
    of exactly the authors, in order, whose affiliation is not empty and
    holds none of "university", "college", "institute", "lab" whatever the
    letter case; an author with an empty or absent affiliation is in
    neither; a missing name is listed as "Unknown"; and the pattern of the
    program finds no match in any affiliation returned. *)
Theorem filter_non_academic_authors_policy (authors : list pyval) :
  forallb author_record authors = true ->
  exists names affiliations,
    filter_non_academic_authors (PList authors) = Ok (names, affiliations) /\
    length names = length affiliations /\
    names = map name_or_unknown (filter non_academic authors) /\
    affiliations = map affiliation_or_empty (filter non_academic authors) /\
    (forall a, In a authors ->
       (non_academic a = true <->
        exists s, field_of a "affiliation" = Some (PStr s) /\ s <> "" /\
          forall kw, In kw academic_keywords -> ~ contains_ci kw s) /\
       (field_of a "affiliation" = None \/
        field_of a "affiliation" = Some (PStr "") -> non_academic a = false) /\
       (field_of a "name" = None -> name_or_unknown a = PStr "Unknown")) /\
    Forall (fun v => exists s, v = PStr s /\ s <> "" /\
              regex_search true academic_pattern (codepoints s) = false /\
              forall kw, In kw academic_keywords -> ~ contains_ci kw s)
           affiliations.
Proof.
  intros H.
  exists (map name_or_unknown (filter non_academic authors)),
         (map affiliation_or_empty (filter non_academic authors)).
  split; [| split; [| split; [| split; [| split]]]]; try reflexivity.
  - unfold filter_non_academic_authors. cbn [py_iter bind].
    now rewrite filter_loop_spec.
  - now rewrite !length_map.
  - intros a _. split; [apply non_academic_spec | split].
    + unfold non_academic. intros [-> | ->]; reflexivity.
    + unfold name_or_unknown. now intros ->.
  - apply Forall_map, Forall_forall. intros a Ha.
    apply filter_In in Ha. destruct Ha as [_ Ha].
    destruct (proj1 (non_academic_spec a) Ha) as [s [E [Hne Hkw]]].
    exists s. unfold affiliation_or_empty. rewrite E.
    split; [reflexivity | split; [exact Hne | split; [| exact Hkw]]].
    rewrite academic_pattern_keywords. now apply keyword_match_false.
Qed.

Lemma filter_non_academic_authors_policy_witness :
  forallb author_record Sample.authors_in_print = true /\
  exists names affiliations,
    filter_non_academic_authors (PList Sample.authors_in_print)
      = Ok (names, affiliations) /\
    names = [PStr "Jane Doe"; PStr "Unknown"] /\
    affiliations = [PStr "Pfizer Inc."; PStr "Acme Corp"].
Proof.
  split; [reflexivity |].
  destruct (filter_non_academic_authors_policy Sample.authors_in_print eq_refl)
    as [names [affs [H1 [_ [H2 [H3 _]]]]]].
  exists names, affs. split; [exact H1 | split; [exact H2 | exact H3]].
Defined.

End Classifier.

(* ================================================================== *)
(** ** The record parser: properties *)

Section Parser.

Lemma Forall2_map_right {A B : Type} (P : A -> B -> Prop) (f : A -> B)
    (l : list A) :
  (forall x, In x l -> P x (f x)) -> Forall2 P l (map f l).
Proof.
  induction l as [|a l IH]; intros H; simpl; constructor.
  - apply H. now left.
  - apply IH. intros x Hx. apply H. now right.
Qed.

Lemma author_record_has_email (a : pyval) :
  author_record a = true -> py_contains a "email" = Ok (has_email a).
Proof.
  intros H. destruct (author_record_inv a H) as [d [-> _]]. reflexivity.
Qed.

Lemma email_loop_spec (authors : list pyval) :
  forallb author_record authors = true ->
  email_loop authors = Ok (listed_email authors).
Proof.
  unfold listed_email. induction authors as [|a rest IH]; intros H.
  - reflexivity.
  - cbn [forallb] in H. apply andb_true_iff in H. destruct H as [Ha Hrest].
    cbn [email_loop find]. rewrite (author_record_has_email a Ha).
    cbn [bind]. destruct (has_email a) eqn:E.
    + destruct (author_record_inv a Ha) as [d [-> _]].
      unfold has_email, field_of in E. unfold field_or, field_of.
      cbn [py_getitem]. now destruct (dict_get d "email").
    + now apply IH.
Qed.

(** [listed_email] is the email of the first author that lists one. *)
Lemma listed_email_first (authors : list pyval) (e : pyval) :
  first_email authors e -> listed_email authors = e.
Proof.
  intros [before [a [after [-> [Hb He]]]]]. unfold listed_email.
  assert (Ha : has_email a = true) by (unfold has_email; now rewrite He).
  induction Hb as [|x before Hx Hb IH]; cbn [app find].
  - rewrite Ha. unfold field_or. now rewrite He.
  - now rewrite Hx.
Qed.

Lemma listed_email_none (authors : list pyval) :
  (forall a, In a authors -> has_email a = false) ->
  listed_email authors = PNone.
Proof.
  intros H. unfold listed_email.
  destruct (find has_email authors) as [a|] eqn:E; [|reflexivity].
  apply find_some in E. destruct E as [Hin Ha].
  rewrite (H a Hin) in Ha. discriminate.
Qed.

(** Under the schema the listed email is text or nothing. *)
Lemma listed_email_text (authors : list pyval) :
  forallb author_record authors = true ->
  listed_email authors = PNone \/ exists s, listed_email authors = PStr s.
Proof.
  intros H. unfold listed_email.
  destruct (find has_email authors) as [a|] eqn:E; [|now left].
  apply find_some in E. destruct E as [Hin _].
  rewrite forallb_forall in H.
  destruct (author_record_inv a (H a Hin)) as [d [-> [_ [_ He]]]].
  unfold field_or, field_of.
  destruct (optional_text_inv _ _ He) as [-> | [s ->]]; eauto.
Qed.

Lemma non_academic_texts (authors : list pyval) :
  forallb author_record authors = true ->
  all_str (map name_or_unknown (filter non_academic authors))
    = Ok (map text_of (map name_or_unknown (filter non_academic authors))) /\
  all_str (map affiliation_or_empty (filter non_academic authors))
    = Ok (map text_of (map affiliation_or_empty (filter non_academic authors))).
Proof.
  induction authors as [|a rest IH]; intros H; [now split |].
  cbn [forallb] in H. apply andb_true_iff in H. destruct H as [Ha Hrest].
  destruct (IH Hrest) as [IH1 IH2]. cbn [filter].
  destruct (non_academic a) eqn:E; [| now split].
  destruct (author_record_inv a Ha) as [d [-> [Hn [Haff _]]]].
  cbn [map]. unfold name_or_unknown at 1 3, affiliation_or_empty at 1 3, field_of.
  split.
  - destruct (optional_text_inv _ _ Hn) as [-> | [s ->]];
      cbn [all_str]; rewrite IH1; reflexivity.
  - destruct (optional_text_inv _ _ Haff) as [-> | [s ->]];
      cbn [all_str]; rewrite IH2; reflexivity.
Qed.

Lemma details_object_inv (details : pyval) :
  details_object details = true ->
  exists d, details = PDict d /\
    optional_text d "title" = true /\ optional_text d "pubdate" = true /\
    py_get details "authors" (PList []) = Ok (PList (authors_of details)) /\
    forallb author_record (authors_of details) = true.
Proof.
  destruct details; try discriminate. cbn [details_object].
  rewrite !andb_true_iff. intros [[Ht Hp] Ha]. exists d.
  unfold authors_of, field_of. cbn [py_get].
  destruct (dict_get d "authors") as [[]|]; try discriminate; auto.
Qed.

(** The body of the loop on a details object of the schema. *)
Lemma paper_row_spec (paper_id : string) (details : pyval) :
  details_object details = true ->
  paper_row paper_id details = Ok (row_of (paper_id, details)).
Proof.
  intros H. destruct (details_object_inv details H)
    as [d [Hd [_ [_ [Hauthors Hrec]]]]].
  unfold paper_row. rewrite Hauthors. subst details.
  cbn [py_get bind]. unfold filter_non_academic_authors.
  cbn [py_iter bind]. rewrite (filter_loop_spec _ [] [] Hrec). cbn [bind app].
  unfold extract_corresponding_email. cbn [py_iter bind].
  rewrite (email_loop_spec _ Hrec). cbn [bind].
  unfold py_join. cbn [py_iter bind].
  destruct (non_academic_texts _ Hrec) as [-> ->]. cbn [bind].
  reflexivity.
Qed.

Lemma parse_loop_spec (items : list (string * pyval)) (papers : list record) :
  forallb (fun kv => String.eqb (fst kv) "uids" || details_object (snd kv))
          items = true ->
  parse_loop items papers =
  Ok (papers ++
      map row_of
          (filter (fun kv => negb (String.eqb (fst kv) "uids")) items)).
Proof.
  revert papers. induction items as [|[k v] rest IH]; intros papers H.
  - simpl. now rewrite app_nil_r.
  - cbn [forallb fst snd] in H. apply andb_true_iff in H.
    destruct H as [Hkv Hrest]. cbn [parse_loop filter fst].
    destruct (String.eqb k "uids"); cbn [negb].
    + now apply IH.
    + cbn [orb] in Hkv. rewrite (paper_row_spec k v Hkv). cbn [bind].
      rewrite IH by exact Hrest. cbn [map]. now rewrite <- app_assoc.
Qed.

(** On a response of the schema the parser returns the PaperRecord of
    every item but the reserved one, in the order of the mapping. *)
Lemma parse_paper_details_spec (data : pyval) :
  details_response data = true ->
  parse_paper_details data = Ok (map row_of (paper_items data)).
Proof.
  destruct data; try discriminate. cbn [details_response].
  unfold parse_paper_details, paper_items, result_items. cbn [py_get bind].
  destruct (dict_get d "result") as [[]|]; try discriminate.
  - intros H. cbn [py_items bind]. now rewrite parse_loop_spec.
  - intros _. reflexivity.
Qed.

End Parser.

Section ParserClaims.

Lemma paper_items_schema (data : pyval) (kv : string * pyval) :
  details_response data = true -> In kv (paper_items data) ->
  details_object (snd kv) = true.
Proof.
  unfold paper_items, result_items. destruct data; try discriminate.
  cbn [details_response]. destruct (dict_get d "result") as [[]|];
    try discriminate; try (intros _ []).
  intros H Hin. apply filter_In in Hin. destruct Hin as [Hin Hk].
  rewrite forallb_forall in H. specialize (H kv Hin).
  apply negb_true_iff in Hk. now rewrite Hk in H.
Qed.

Lemma field_or_text (d : list (string * pyval)) (k default : string) :
  optional_text d k = true ->
  exists s, field_or (PDict d) k (PStr default) = PStr s.
Proof.
  intros H. unfold field_or, field_of.
  destruct (optional_text_inv _ _ H) as [-> | [s ->]]; eauto.
Qed.

Lemma email_or_default_text (authors : list pyval) :
  forallb author_record authors = true ->
  exists s, py_or (listed_email authors) (PStr "N/A") = PStr s.
Proof.
  intros H. unfold py_or.
  destruct (listed_email_text authors H) as [-> | [s ->]]; cbn [truthy]; eauto.
  destruct (negb (String.eqb s "")); eauto.
Qed.

Lemma row_of_paper_record (kv : string * pyval) :
  details_object (snd kv) = true -> paper_record (row_of kv) = true.
Proof.
  intros H. destruct (details_object_inv _ H) as [d [Hd [Ht [Hp [_ Hrec]]]]].
  unfold paper_record, row_of. rewrite Hd.
  destruct (field_or_text d "title" "N/A" Ht) as [t ->].
  destruct (field_or_text d "pubdate" "N/A" Hp) as [p ->].
  rewrite Hd in Hrec.
  destruct (email_or_default_text _ Hrec) as [e ->].
  reflexivity.
Qed.

(** C7. On every raw metadata response [parse_paper_details] returns one
    PaperRecord per key of the result mapping other than "uids", in the
    order of the mapping; every record has the six fields, each holding
    text: the title and the publication date are "N/A" when absent, the
    two author fields are empty when no author is non-academic, the email
    is "N/A" when no author lists one. *)
Theorem parse_paper_details_records (data : pyval) :
  details_response data = true ->
  exists papers,
    parse_paper_details data = Ok papers /\
    length papers = length (paper_items data) /\
    map (fun r => dict_get r "PubmedID") papers
      = map (fun kv => Some (PStr (fst kv))) (paper_items data) /\
    Forall (fun r => paper_record r = true) papers /\
    Forall2
      (fun kv r =>
         (field_of (snd kv) "title" = None -> text_field r "Title" "N/A") /\
         (field_of (snd kv) "pubdate" = None ->
            text_field r "Publication Date" "N/A") /\
         (filter non_academic (authors_of (snd kv)) = [] ->
            text_field r "Non-academic Author(s)" "" /\
            text_field r "Company Affiliation(s)" "") /\
         ((forall a, In a (authors_of (snd kv)) -> has_email a = false) ->
            text_field r "Corresponding Author Email" "N/A"))
      (paper_items data) papers.
Proof.
  intros H. exists (map row_of (paper_items data)).
  split; [now apply parse_paper_details_spec |].
  split; [now rewrite length_map |].
  split; [now rewrite map_map |].
  split.
  - apply Forall_map, Forall_forall. intros kv Hin.
    apply row_of_paper_record. now apply (paper_items_schema data).
  - apply Forall2_map_right. intros [k v] _. unfold text_field, row_of.
    cbn [fst snd dict_get String.eqb Ascii.eqb Bool.eqb].
    split; [| split; [| split]].
    + unfold field_or. now intros ->.
    + unfold field_or. now intros ->.
    + intros Hc. rewrite Hc. now split.
    + intros He. now rewrite (listed_email_none _ He).
Qed.

Lemma parse_paper_details_records_witness :
  details_response Sample.details_data = true /\
  exists papers,
    parse_paper_details Sample.details_data = Ok papers /\
    length papers = 2%nat /\
    Forall (fun r => paper_record r = true) papers.
Proof.
  split; [reflexivity |].
  destruct (parse_paper_details_records Sample.details_data eq_refl)
    as [papers [H1 [H2 [_ [H3 _]]]]].
  exists papers. split; [exact H1 | split; [exact H2 | exact H3]].
Defined.

(** C2, as the program has it. A paper none of whose author records has
    an email field gets "N/A" as its Corresponding Author Email; a paper
    with such a record gets the email of the first one, in the order of
    the list, when that email is not the empty string. *)
Theorem corresponding_email_resolution (data : pyval) :
  details_response data = true ->
  exists papers,
    parse_paper_details data = Ok papers /\
    Forall2
      (fun kv r =>
         ((forall a, In a (authors_of (snd kv)) -> has_email a = false) ->
            text_field r "Corresponding Author Email" "N/A") /\
         (forall s, first_email (authors_of (snd kv)) (PStr s) -> s <> "" ->
            text_field r "Corresponding Author Email" s))
      (paper_items data) papers.
Proof.
  intros H. exists (map row_of (paper_items data)).
  split; [now apply parse_paper_details_spec |].
  apply Forall2_map_right. intros [k v] _. unfold text_field, row_of.
  cbn [fst snd dict_get String.eqb Ascii.eqb Bool.eqb]. split.
  - intros He. now rewrite (listed_email_none _ He).
  - intros s He Hs. rewrite (listed_email_first He). unfold py_or.
    cbn [truthy]. apply String.eqb_neq in Hs. now rewrite Hs.
Qed.

Lemma corresponding_email_resolution_witness :
  details_response Sample.details_data = true /\
  exists r1 r2,
    parse_paper_details Sample.details_data = Ok [r1; r2] /\
    text_field r1 "Corresponding Author Email" "jane@pfizer.com" /\
    text_field r2 "Corresponding Author Email" "N/A".
Proof.
  split; [reflexivity |].
  destruct (corresponding_email_resolution Sample.details_data eq_refl)
    as [papers [H1 H2]].
  assert (E : papers = map row_of (paper_items Sample.details_data))
    by (vm_compute in H1; injection H1 as <-; reflexivity).
  subst papers. cbn [paper_items result_items Sample.details_data dict_get
    String.eqb Ascii.eqb Bool.eqb filter fst negb map] in H2.
  inversion H2 as [|x1 y1 l1 l1' [_ Ha] Hrest]; subst.
  inversion Hrest as [|x2 y2 l2 l2' [Hb _] _]; subst.
  eexists; eexists. split; [reflexivity | split].
  - apply Ha; [| discriminate].
    exists [], Sample.jane, []. repeat split. constructor.
  - apply Hb. intros a [<- | []]. reflexivity.
Defined.

(** C2 as the specification words it fails: the first author record with
    an email field lists the empty string, and the record's email is
    "N/A", not that email. *)
Lemma corresponding_email_counterexample :
  let details :=
    PDict [ ("title", PStr "Study C");
            ("authors",
               PList [Sample.john; Sample.unaffiliated; Sample.jane]) ] in
  let r :=
    [ ("PubmedID", PStr "333"); ("Title", PStr "Study C");
      ("Publication Date", PStr "N/A"); ("Non-academic Author(s)", PStr "Jane Doe");
      ("Company Affiliation(s)", PStr "Pfizer Inc.");
      ("Corresponding Author Email", PStr "N/A") ] in
  parse_paper_details Sample.blank_email_data = Ok [r] /\
  first_email (authors_of details) (PStr "") /\
  ~ resolves_to_first_email details r.
Proof.
  cbv zeta.
  assert (F : first_email
                [Sample.john; Sample.unaffiliated; Sample.jane] (PStr "")).
  { exists [Sample.john], Sample.unaffiliated, [Sample.jane].
    repeat split. constructor; [reflexivity | constructor]. }
  split; [reflexivity | split; [exact F |]].
  intros H. specialize (H (PStr "") F). discriminate.
Qed.

(** C10. When the first author record that has an email field maps it to
    the empty string, [extract_corresponding_email] returns that empty
    string and the PaperRecord's Corresponding Author Email is "N/A", not
    the empty string; [parse_paper_details] turns every falsy email into
    "N/A". *)
Theorem blank_email_becomes_default (data : pyval) :
  details_response data = true ->
  exists papers,
    parse_paper_details data = Ok papers /\
    Forall2
      (fun kv r =>
         first_email (authors_of (snd kv)) (PStr "") ->
         extract_corresponding_email (PList (authors_of (snd kv)))
           = Ok (PStr "") /\
         text_field r "Corresponding Author Email" "N/A" /\
         ~ text_field r "Corresponding Author Email" "")
      (paper_items data) papers /\
    (forall v, truthy v = false -> py_or v (PStr "N/A") = PStr "N/A").
Proof.
  intros H. exists (map row_of (paper_items data)).
  split; [now apply parse_paper_details_spec |]. split.
  - apply Forall2_map_right. intros [k v] Hin He.
    pose proof (paper_items_schema data (k, v) H Hin) as Hs.
    destruct (details_object_inv _ Hs) as [d [_ [_ [_ [_ Hrec]]]]].
    cbn [snd] in *. unfold text_field, row_of.
    cbn [fst snd dict_get String.eqb Ascii.eqb Bool.eqb].
    rewrite (listed_email_first He). split; [| split].
    + unfold extract_corresponding_email. cbn [py_iter bind].
      rewrite (email_loop_spec _ Hrec). now rewrite (listed_email_first He).
    + reflexivity.
    + discriminate.
  - intros v Hv. unfold py_or. now rewrite Hv.
Qed.

Lemma blank_email_becomes_default_witness :
  details_response Sample.blank_email_data = true /\
  exists r,
    parse_paper_details Sample.blank_email_data = Ok [r] /\
    text_field r "Corresponding Author Email" "N/A".
Proof.
  split; [reflexivity |].
  destruct (blank_email_becomes_default Sample.blank_email_data eq_refl)
    as [papers [H1 [H2 _]]].
  assert (E : papers = map row_of (paper_items Sample.blank_email_data))
    by (vm_compute in H1; injection H1 as <-; reflexivity).
  subst papers. cbn [paper_items result_items Sample.blank_email_data dict_get
    String.eqb Ascii.eqb Bool.eqb filter fst negb map] in H2.
  inversion H2 as [|x1 y1 l1 l1' Ha _]; subst.
  eexists. split; [reflexivity |].
  apply Ha. exists [Sample.john], Sample.unaffiliated, [Sample.jane].
  repeat split. constructor; [reflexivity | constructor].
Defined.

End ParserClaims.

(* ================================================================== *)
(** ** The network calls: properties *)

Section NetworkClaims.

Variable net : list request -> request -> get_outcome.

(** The three steps between sending a request and using its data. *)
Lemma received_data (u : string) (ps : list (string * pyval)) (w : world)
    (r : response) (data : pyval) {A : Type} (k : pyval -> M A) :
  net (requests_made w) {| url := u; params := ps |} = Responds r ->
  error_status (status_code r) = false ->
  body r = Some data ->
  (response <~ requests_get net u ps ;;
   lift (raise_for_status response) ;;;
   data' <~ lift (response_json response) ;;
   k data') w
  = k data (sent w {| url := u; params := ps |}).
Proof.
  intros Hnet Hst Hbody. unfold bindM, requests_get, lift. rewrite Hnet.
  unfold raise_for_status, response_json. unfold error_status in Hst.
  now rewrite Hst, Hbody.
Qed.

Lemma failed_call (u : string) (ps : list (string * pyval)) (w : world)
    {A : Type} (k : pyval -> M A) :
  call_fails (net (requests_made w) {| url := u; params := ps |}) = true ->
  (response <~ requests_get net u ps ;;
   lift (raise_for_status response) ;;;
   data' <~ lift (response_json response) ;;
   k data') w
  = (Raise (failure_of (net (requests_made w) {| url := u; params := ps |})),
     sent w {| url := u; params := ps |}).
Proof.
  unfold bindM, requests_get, lift.
  destruct (net (requests_made w) {| url := u; params := ps |}) as [r|t];
    [| reflexivity].
  unfold call_fails, failure_of, raise_for_status, response_json, error_status.
  destruct ((400 <=? status_code r)%Z && (status_code r <? 600)%Z);
    [reflexivity |].
  cbn [orb]. destruct (body r); [discriminate | reflexivity].
Qed.

Lemma failure_is_RequestException (o : get_outcome) :
  is_RequestException (failure_of o) = true.
Proof.
  destruct o as [r|t]; cbn [failure_of]; [| reflexivity].
  destruct (error_status (status_code r)); reflexivity.
Qed.

Lemma logger_error_requests (msg : string) (e : exn) (w : world) :
  fst (logger_error msg e w) = Ok tt /\
  requests_made (snd (logger_error msg e w)) = requests_made w /\
  stdout (snd (logger_error msg e w)) = stdout w /\
  files (snd (logger_error msg e w)) = files w /\
  writable (snd (logger_error msg e w)) = writable w.
Proof.
  unfold logger_error, logger_log.
  destruct (levelno (logger_level w) <=? levelno ERROR)%Z; repeat split.
Qed.

(** What a failed search call leaves behind. *)
Lemma fetch_pubmed_papers_failure
    (details_fetcher : pyval -> M (list record))
    (query : string) (retmax : Z) (w : world) :
  call_fails (net (requests_made w) (search_request query retmax)) = true ->
  fetch_pubmed_papers_calling net details_fetcher query retmax w =
  (Ok [],
   snd (logger_error "Error fetching papers: "
          (failure_of (net (requests_made w) (search_request query retmax)))
          (sent w (search_request query retmax)))).
Proof.
  intros H. unfold fetch_pubmed_papers_calling, try_except_RequestException.
  rewrite (failed_call _ _ _ _ H). fold (search_request query retmax).
  rewrite failure_is_RequestException. unfold bindM, ret.
  destruct (logger_error_requests "Error fetching papers: "
              (failure_of (net (requests_made w) (search_request query retmax)))
              (sent w (search_request query retmax))) as [E _].
  destruct (logger_error _ _ _) as [res w']. cbn [fst snd] in *. now rewrite E.
Qed.

Lemma fetch_paper_details_failure (paper_ids : pyval) (ids : string)
    (w : world) :
  py_join "," paper_ids = Ok ids ->
  call_fails (net (requests_made w) (details_request ids)) = true ->
  fetch_paper_details net paper_ids w =
  (Ok [],
   snd (logger_error "Error fetching paper details: "
          (failure_of (net (requests_made w) (details_request ids)))
          (sent w (details_request ids)))).
Proof.
  intros Hj H. unfold fetch_paper_details. unfold bindM at 1, lift at 1.
  rewrite Hj. unfold try_except_RequestException.
  rewrite (failed_call _ _ _ _ H). fold (details_request ids).
  rewrite failure_is_RequestException. unfold bindM, ret.
  destruct (logger_error_requests "Error fetching paper details: "
              (failure_of (net (requests_made w) (details_request ids)))
              (sent w (details_request ids))) as [E _].
  destruct (logger_error _ _ _) as [res w']. cbn [fst snd] in *. now rewrite E.
Qed.

(** C4, as the program has it. For either network call, a failure to get
    a response, a 4xx or 5xx status and a body that is not JSON are caught
    at the call site: the call returns the empty list, after the one
    request it sent and nothing else but the error it logged. *)
Theorem request_failures_give_empty_list (w : world) :
  (forall query retmax,
     call_fails (net (requests_made w) (search_request query retmax)) = true ->
     exists w',
       fetch_pubmed_papers net query retmax w = (Ok [], w') /\
       requests_made w' = requests_made w ++ [search_request query retmax] /\
       stdout w' = stdout w /\ files w' = files w) /\
  (forall paper_ids ids,
     py_join "," paper_ids = Ok ids ->
     call_fails (net (requests_made w) (details_request ids)) = true ->
     exists w',
       fetch_paper_details net paper_ids w = (Ok [], w') /\
       requests_made w' = requests_made w ++ [details_request ids] /\
       stdout w' = stdout w /\ files w' = files w).
Proof.
  split.
  - intros query retmax H. unfold fetch_pubmed_papers.
    rewrite (fetch_pubmed_papers_failure _ _ _ _ H).
    eexists. split; [reflexivity |].
    destruct (logger_error_requests "Error fetching papers: "
                (failure_of (net (requests_made w) (search_request query retmax)))
                (sent w (search_request query retmax)))
      as [_ [E1 [E2 [E3 _]]]].
    rewrite E1, E2, E3. repeat split.
  - intros paper_ids ids Hj H.
    rewrite (fetch_paper_details_failure _ _ Hj H).
    eexists. split; [reflexivity |].
    destruct (logger_error_requests "Error fetching paper details: "
                (failure_of (net (requests_made w) (details_request ids)))
                (sent w (details_request ids)))
      as [_ [E1 [E2 [E3 _]]]].
    rewrite E1, E2, E3. repeat split.
Qed.

(** C6. When the search response yields an empty identifier list,
    [fetch_pubmed_papers] returns the empty list after its one request,
    whatever function stands for [fetch_paper_details]: the detail
    fetcher is not called. *)
Theorem empty_idlist_skips_details
    (details_fetcher : pyval -> M (list record))
    (query : string) (retmax : Z) (w : world) (r : response) (data : pyval) :
  net (requests_made w) (search_request query retmax) = Responds r ->
  error_status (status_code r) = false ->
  body r = Some data ->
  idlist data = Some [] ->
  fetch_pubmed_papers_calling net details_fetcher query retmax w
    = (Ok [], sent w (search_request query retmax)) /\
  fetch_pubmed_papers net query retmax w
    = (Ok [], sent w (search_request query retmax)) /\
  Forall (fun rq => url rq <> DETAILS_API_URL)
         [search_request query retmax].
Proof.
  intros Hnet Hst Hbody Hids.
  assert (G : forall f, fetch_pubmed_papers_calling net f query retmax w
                = (Ok [], sent w (search_request query retmax))).
  { intros f. unfold fetch_pubmed_papers_calling, try_except_RequestException.
    rewrite (received_data w _ Hnet Hst Hbody).
    fold (search_request query retmax).
    destruct data; try discriminate. cbn [idlist] in Hids.
    unfold bindM, lift, ret. cbn [py_get].
    destruct (dict_get d "esearchresult") as [[]|]; try discriminate;
      cbn [py_get].
    - destruct (dict_get d0 "idlist") as [[| | | | |[|]|]|]; try discriminate;
        reflexivity.
    - reflexivity. }
  split; [apply G | split; [apply G |]].
  constructor; [discriminate | constructor].
Qed.

End NetworkClaims.

Lemma request_failures_give_empty_list_witness :
  call_fails (Sample.net_500 [] (search_request "cancer" 20)) = true /\
  call_fails (Sample.net_down [] (details_request "111,222")) = true /\
  fst (fetch_pubmed_papers Sample.net_500 "cancer" 20 Sample.world0) = Ok [] /\
  fst (fetch_paper_details Sample.net_down
         (PList [PStr "111"; PStr "222"]) Sample.world0) = Ok [].
Proof.
  split; [reflexivity | split; [reflexivity | split]].
  - destruct (proj1 (request_failures_give_empty_list Sample.net_500
                       Sample.world0) "cancer" 20%Z eq_refl) as [w' [E _]].
    now rewrite E.
  - destruct (proj2 (request_failures_give_empty_list Sample.net_down
                       Sample.world0)
                (PList [PStr "111"; PStr "222"]) "111,222" eq_refl eq_refl)
      as [w' [E _]].
    now rewrite E.
Defined.

(** C4 as the specification words it fails: a response that is JSON of
    another shape, here an array, raises AttributeError out of both
    calls. *)
Lemma unexpected_shape_counterexample :
  fst (fetch_pubmed_papers Sample.net_array "cancer" 20 Sample.world0)
    = Raise AttributeError /\
  fst (fetch_paper_details Sample.net_array (PList [PStr "111"]) Sample.world0)
    = Raise AttributeError.
Proof.
  split; reflexivity.
Qed.

Lemma empty_idlist_skips_details_witness :
  idlist Sample.empty_search_data = Some [] /\
  fetch_pubmed_papers Sample.net_nothing "cancer" 20 Sample.world0
    = (Ok [], sent Sample.world0 (search_request "cancer" 20)).
Proof.
  split; [reflexivity |].
  exact (proj1 (proj2 (empty_idlist_skips_details Sample.net_nothing
           (fetch_paper_details Sample.net_nothing) "cancer" 20 Sample.world0
           eq_refl eq_refl eq_refl eq_refl))).
Defined.

(* ================================================================== *)
(** ** The reporter: properties *)

Section ReporterClaims.

Variable net : list request -> request -> get_outcome.
Variable py_str : pyval -> string.

Lemma file_read_set (fs : list (string * string)) (name content : string) :
  file_read (file_set fs name content) name = Some content.
Proof.
  induction fs as [|[n c] fs IH]; cbn [file_set file_read].
  - now rewrite String.eqb_refl.
  - destruct (String.eqb n name) eqn:E; cbn [file_read]; now rewrite E.
Qed.

Lemma save_to_csv_empty (filename : string) (w : world) :
  save_to_csv py_str [] filename w =
  if writable w filename
  then (Raise IndexError, with_files w (file_set (files w) filename ""))
  else (Raise OSError, w).
Proof.
  unfold save_to_csv, bindM, open_w, lift.
  now destruct (writable w filename).
Qed.

(** What a write to the file does with text that can be encoded. *)
Lemma file_write_encodable (name text old : string) (w : world) :
  utf8_encodable text = true ->
  file_read (files w) name = Some old ->
  file_write name text w
  = (Ok tt, with_files w (file_set (files w) name (old ++ text))).
Proof.
  intros Htext Hold. unfold file_write. now rewrite Htext, Hold.
Qed.

Lemma bindM_not_raising {A B : Type} (m : M A) (k : A -> M B) (e : exn) :
  (forall w, fst (m w) <> Raise e) ->
  (forall a w, fst (k a w) <> Raise e) ->
  forall w, fst (bindM m k w) <> Raise e.
Proof.
  intros Hm Hk w. unfold bindM. specialize (Hm w).
  destruct (m w) as [[a|e'] w1]; cbn [fst] in *; [apply Hk |].
  intros H. apply Hm. injection H as ->. reflexivity.
Qed.

(** Writing a row raises for a key outside the columns and for text that
    cannot be encoded, and otherwise not. *)
Lemma DictWriter_writerow_not_IndexError (name : string)
    (fieldnames : list string) (r : record) (w : world) :
  fst (Csv.DictWriter_writerow py_str name fieldnames r w) <> Raise IndexError.
Proof.
  unfold Csv.DictWriter_writerow, bindM, lift, Csv.dict_to_list.
  destruct (filter _ (dict_keys r)); [| discriminate].
  unfold Csv.writer_writerow, file_write.
  destruct (utf8_encodable _); discriminate.
Qed.

Lemma DictWriter_writerows_not_IndexError (name : string)
    (fieldnames : list string) (rows : list record) (w : world) :
  fst (Csv.DictWriter_writerows py_str name fieldnames rows w)
  <> Raise IndexError.
Proof.
  revert w. induction rows as [|r rest IH]; cbn [Csv.DictWriter_writerows].
  - discriminate.
  - apply bindM_not_raising.
    + apply DictWriter_writerow_not_IndexError.
    + intros _. exact IH.
Qed.

(** IndexError is raised for the empty list only. *)
Lemma save_to_csv_not_IndexError (papers : list record) (filename : string)
    (w : world) :
  papers <> [] ->
  fst (save_to_csv py_str papers filename w) <> Raise IndexError.
Proof.
  intros Hne. destruct papers as [|first rest]; [now destruct Hne |].
  revert w. unfold save_to_csv. apply bindM_not_raising.
  - intros w. unfold open_w. destruct (writable w filename); discriminate.
  - intros _. apply bindM_not_raising; [discriminate | intros p].
    apply bindM_not_raising.
    + apply DictWriter_writerow_not_IndexError.
    + intros _. apply DictWriter_writerows_not_IndexError.
Qed.

Lemma save_to_csv_not_opened (papers : list record) (filename : string)
    (w : world) :
  writable w filename = false ->
  save_to_csv py_str papers filename w = (Raise OSError, w).
Proof.
  intros Hw. unfold save_to_csv, bindM at 1, open_w. now rewrite Hw.
Qed.


(** Every record the parser builds has the six columns as its keys. *)
Lemma paper_row_keys (paper_id : string) (details : pyval) (r : record) :
  paper_row paper_id details = Ok r -> dict_keys r = columns.
Proof.
  unfold paper_row. intros H.
  repeat match type of H with
         | bind ?c _ = Ok _ =>
             destruct c as [?|?]; cbn [bind] in H; [| discriminate H]
         | (let (_, _) := ?p in _) = Ok _ => destruct p
         end.
  injection H as <-. reflexivity.
Qed.

Lemma parse_loop_keys (items : list (string * pyval))
    (acc papers : list record) :
  Forall (fun r => dict_keys r = columns) acc ->
  parse_loop items acc = Ok papers ->
  Forall (fun r => dict_keys r = columns) papers.
Proof.
  revert acc. induction items as [|[k v] rest IH]; intros acc Hacc H.
  - cbn [parse_loop] in H. now injection H as <-.
  - cbn [parse_loop] in H. destruct (String.eqb k "uids").
    + now apply (IH acc).
    + destruct (paper_row k v) as [r|] eqn:E; cbn [bind] in H;
        [| discriminate H].
      apply (IH (acc ++ [r])); [| exact H].
      apply Forall_app. split; [exact Hacc |].
      constructor; [now apply (paper_row_keys k v) | constructor].
Qed.

Lemma parse_paper_details_keys (data : pyval) (papers : list record) :
  parse_paper_details data = Ok papers ->
  Forall (fun r => dict_keys r = columns) papers.
Proof.
  unfold parse_paper_details. intros H.
  destruct (py_get data "result" (PDict [])) as [m|]; cbn [bind] in H;
    [| discriminate H].
  destruct (py_items m) as [items|]; cbn [bind] in H; [| discriminate H].
  eapply parse_loop_keys; [constructor | exact H].
Qed.

(** A record with the six columns as keys gives its values, in order. *)
Lemma dict_to_list_columns (r : record) :
  dict_keys r = columns -> Csv.dict_to_list columns r = Ok (values r).
Proof.
  unfold dict_keys, columns, values.
  destruct r as [|[k1 v1] [|[k2 v2] [|[k3 v3] [|[k4 v4] [|[k5 v5]
    [|[k6 v6] [|? ?]]]]]]]; try discriminate.
  cbn [map fst]. intros H. injection H as -> -> -> -> -> ->. reflexivity.
Qed.

(** The writer takes for a value the text the format gives it. *)
Lemma field_text_in_file (v : pyval) :
  Csv.field_text py_str v = text_in_file py_str v.
Proof.
  now destruct v.
Qed.

Lemma writer_row_texts (r : record) :
  map (Csv.field_text py_str) (values r) = row_texts py_str r.
Proof.
  unfold row_texts. apply map_ext. exact field_text_in_file.
Qed.

Lemma row_texts_length (r : record) :
  dict_keys r = columns -> length (row_texts py_str r) = 6%nat.
Proof.
  intros H. unfold row_texts, values. rewrite !length_map.
  rewrite <- (length_map fst). fold (dict_keys r). now rewrite H.
Qed.

Lemma DictWriter_writerows_columns (filename : string)
    (papers : list record) (w : world) (old : string) :
  Forall (fun r => dict_keys r = columns) papers ->
  Forall (fun r => encodable py_str r = true) papers ->
  file_read (files w) filename = Some old ->
  exists w',
    Csv.DictWriter_writerows py_str filename columns papers w = (Ok tt, w') /\
    file_read (files w') filename
      = Some (old ++ Csv.write_rows (map (row_texts py_str) papers))%string.
Proof.
  intros H. revert w old.
  induction H as [|r rest Hr Hrest IH]; intros w old Henc Hold.
  - exists w. split; [reflexivity |]. cbn [map Csv.write_rows].
    now rewrite append_nil_r.
  - pose proof (Forall_inv Henc) as Hrow.
    pose proof (Forall_inv_tail Henc) as Hrows.
    cbn [Csv.DictWriter_writerows]. unfold bindM at 1.
    unfold Csv.DictWriter_writerow, bindM, lift.
    rewrite (dict_to_list_columns r Hr).
    unfold Csv.writer_writerow. rewrite writer_row_texts.
    rewrite (@file_write_encodable filename
               (Csv.write_row (row_texts py_str r)) old w
               (write_row_encodable _ Hrow) Hold).
    destruct (IH (with_files w (file_set (files w) filename
                    (old ++ Csv.write_row (row_texts py_str r))%string))
                 (old ++ Csv.write_row (row_texts py_str r))%string Hrows)
      as [w' [E1 E2]].
    { cbn [files with_files]. apply file_read_set. }
    exists w'. split; [exact E1 |].
    rewrite E2. cbn [map Csv.write_rows]. now rewrite append_assoc.
Qed.

(** What [save_to_csv] writes for records with the six columns. *)
Lemma save_to_csv_columns (papers : list record) (filename : string)
    (w : world) :
  papers <> [] ->
  Forall (fun r => dict_keys r = columns) papers ->
  Forall (fun r => encodable py_str r = true) papers ->
  writable w filename = true ->
  exists w',
    save_to_csv py_str papers filename w = (Ok tt, w') /\
    file_read (files w') filename
      = Some (Csv.write_rows (columns :: map (row_texts py_str) papers)).
Proof.
  intros Hne Hkeys Henc Hw.
  destruct papers as [|first rest]; [now destruct Hne |].
  unfold save_to_csv, bindM at 1, open_w. rewrite Hw.
  unfold bindM at 1, lift. unfold bindM at 1.
  pose proof (Forall_inv Hkeys) as Hfirst. rewrite Hfirst.
  unfold Csv.DictWriter_writeheader, Csv.DictWriter_writerow, bindM, lift.
  cbn [Csv.dict_to_list columns map dict_keys fst filter existsb String.eqb
       Ascii.eqb Bool.eqb negb orb dict_get].
  unfold Csv.writer_writerow.
  match goal with
  | |- context [file_write filename ?T ?W] =>
      rewrite (@file_write_encodable filename T ""%string W eq_refl)
        by (cbn [files with_files]; apply file_read_set)
  end.
  cbn [files with_files].
  match goal with
  | |- context [Csv.DictWriter_writerows _ _ _ _ ?W] =>
      destruct (@DictWriter_writerows_columns filename (first :: rest) W
                  (Csv.write_row columns) Hkeys Henc) as [w' [E1 E2]]
  end.
  { cbn [files with_files]. apply file_read_set. }
  exists w'. split; [exact E1 |]. rewrite E2. reflexivity.
Qed.

(** The same, in the words of the format: the header line, then a line
    for each record. *)
Lemma save_to_csv_report (papers : list record) (filename : string)
    (w : world) :
  papers <> [] ->
  Forall (fun r => dict_keys r = columns) papers ->
  Forall (fun r => encodable py_str r = true) papers ->
  writable w filename = true ->
  exists w' body,
    save_to_csv py_str papers filename w = (Ok tt, w') /\
    file_read (files w') filename = Some (header_line ++ body)%string /\
    lines_of (map (row_texts py_str) papers) body.
Proof.
  intros Hne Hkeys Henc Hw.
  destruct (@save_to_csv_columns papers filename w Hne Hkeys Henc Hw)
    as [w' [E1 E2]].
  exists w', (Csv.write_rows (map (row_texts py_str) papers)).
  split; [exact E1 | split; [exact E2 |]].
  apply write_rows_lines, Forall_map. revert Hkeys. apply Forall_impl.
  intros r Hr E. pose proof (row_texts_length r Hr) as L.
  rewrite E in L. discriminate L.
Qed.

(** C8, as the program has it. For every non-empty record list the parser
    produced whose texts UTF-8 can encode, file mode writes the header
    line PubmedID, Title, Publication Date, Non-academic Author(s),
    Company Affiliation(s), Corresponding Author Email, which are the keys
    of the first record in their order, and after it one line per record,
    in order, each holding the fields of its record. *)
Theorem save_to_csv_header_and_rows (data : pyval) (papers : list record)
    (filename : string) (w : world) :
  parse_paper_details data = Ok papers ->
  papers <> [] ->
  Forall (fun r => encodable py_str r = true) papers ->
  writable w filename = true ->
  exists w' body,
    save_to_csv py_str papers filename w = (Ok tt, w') /\
    file_read (files w') filename
      = Some ("PubmedID,Title,Publication Date,Non-academic Author(s),Company Affiliation(s),Corresponding Author Email"
              ++ line_end ++ body)%string /\
    lines_of (map (row_texts py_str) papers) body /\
    dict_keys (hd [] papers)
      = [ "PubmedID"; "Title"; "Publication Date";
          "Non-academic Author(s)"; "Company Affiliation(s)";
          "Corresponding Author Email" ] /\
    length (map (row_texts py_str) papers) = length papers.
Proof.
  intros Hparse Hne Henc Hw.
  pose proof (parse_paper_details_keys data Hparse) as Hkeys.
  destruct (@save_to_csv_report papers filename w Hne Hkeys Henc Hw)
    as [w' [body [E1 [E2 E3]]]].
  exists w', body.
  split; [exact E1 | split; [| split; [exact E3 | split]]].
  - rewrite E2. unfold header_line. now rewrite append_assoc.
  - destruct papers as [|first rest]; [now destruct Hne |].
    exact (Forall_inv Hkeys).
  - apply length_map.
Qed.

Lemma print_all_nothing (w : world) : print_all [] w = (Ok tt, w).
Proof. reflexivity. Qed.

(** C3, as the program has it. When the search call answers with a 4xx or
    5xx status the record list is empty; [main] then ends without an
    exception and prints nothing when no file destination is given, and
    with a file destination [save_to_csv] raises on the empty list and
    the exception leaves [main]. *)
Theorem main_after_failed_search (args : Namespace) (w : world)
    (r : response) :
  net (requests_made w) (search_request (query args) 20) = Responds r ->
  error_status (status_code r) = true ->
  (exists w1, fetch_pubmed_papers net (query args) 20 w = (Ok [], w1)) /\
  (file args = None \/ file args = Some ""%string ->
     exists w', main net py_str args w = (Ok tt, w') /\ stdout w' = stdout w) /\
  (forall f, file args = Some f -> f <> ""%string ->
     exists e w', main net py_str args w = (Raise e, w') /\
       (writable w f = true -> e = IndexError)).
Proof.
  intros Hnet Hst.
  assert (Hfail : forall w0, requests_made w0 = requests_made w ->
            call_fails (net (requests_made w0)
                          (search_request (query args) 20)) = true).
  { intros w0 ->. rewrite Hnet. cbn [call_fails]. now rewrite Hst. }
  split; [| split].
  - eexists. unfold fetch_pubmed_papers.
    now rewrite (fetch_pubmed_papers_failure _ _ _ _ _ (Hfail w eq_refl)).
  - intros Hfile. unfold main, bindM.
    set (w0 := if debug args then with_logger_level w DEBUG else w).
    assert (E0 : (if debug args then logger_setLevel DEBUG else ret tt) w
                 = (Ok tt, w0)) by (unfold w0; now destruct (debug args)).
    assert (R0 : requests_made w0 = requests_made w)
      by (unfold w0; now destruct (debug args)).
    assert (S0 : stdout w0 = stdout w)
      by (unfold w0; now destruct (debug args)).
    rewrite E0. unfold fetch_pubmed_papers.
    rewrite (fetch_pubmed_papers_failure _ _ _ _ _ (Hfail w0 R0)).
    destruct (logger_error_requests "Error fetching papers: "
                (failure_of (net (requests_made w0)
                               (search_request (query args) 20)))
                (sent w0 (search_request (query args) 20)))
      as [_ [_ [E2 _]]].
    eexists. split.
    + destruct Hfile as [-> | ->]; cbn [String.eqb negb]; reflexivity.
    + rewrite E2. exact S0.
  - intros f Hfile Hf. unfold main, bindM.
    set (w0 := if debug args then with_logger_level w DEBUG else w).
    assert (E0 : (if debug args then logger_setLevel DEBUG else ret tt) w
                 = (Ok tt, w0)) by (unfold w0; now destruct (debug args)).
    assert (R0 : requests_made w0 = requests_made w)
      by (unfold w0; now destruct (debug args)).
    assert (W0 : writable w0 = writable w)
      by (unfold w0; now destruct (debug args)).
    rewrite E0. unfold fetch_pubmed_papers.
    rewrite (fetch_pubmed_papers_failure _ _ _ _ _ (Hfail w0 R0)).
    destruct (logger_error_requests "Error fetching papers: "
                (failure_of (net (requests_made w0)
                               (search_request (query args) 20)))
                (sent w0 (search_request (query args) 20)))
      as [_ [_ [_ [_ E4]]]].
    rewrite Hfile. apply String.eqb_neq in Hf. rewrite Hf. cbn [negb].
    rewrite save_to_csv_empty. rewrite E4. cbn [writable sent with_requests].
    rewrite W0. destruct (writable w f).
    + exists IndexError. eexists. split; [reflexivity | reflexivity].
    + exists OSError. eexists. split; [reflexivity | discriminate].
Qed.

End ReporterClaims.



Lemma save_to_csv_header_and_rows_witness :
  (exists papers,
     parse_paper_details Sample.details_data = Ok papers /\ papers <> []) /\
  exists w',
    save_to_csv Sample.plain_str
      (map row_of (paper_items Sample.details_data)) "out.csv" Sample.world0
      = (Ok tt, w') /\
    file_read (files w') "out.csv"
      = Some ("PubmedID,Title,Publication Date,Non-academic Author(s),Company Affiliation(s),Corresponding Author Email"
              ++ line_end ++
              "111,Study A,2023,Jane Doe,Pfizer Inc.,jane@pfizer.com"
              ++ line_end ++
              "222,Study B,2022,,,N/A" ++ line_end)%string.
Proof.
  split.
  - eexists. split; [reflexivity | discriminate].
  - destruct (@save_to_csv_header_and_rows Sample.plain_str
                Sample.details_data
                (map row_of (paper_items Sample.details_data))
                "out.csv" Sample.world0 eq_refl)
      as [w' [body [E1 _]]];
      [discriminate | repeat constructor | reflexivity |].
    exists w'. split; [exact E1 |].
    assert (E : snd (save_to_csv Sample.plain_str
                       (map row_of (paper_items Sample.details_data))
                       "out.csv" Sample.world0) = w')
      by now rewrite E1.
    rewrite <- E. reflexivity.
Defined.

(** C8 as the specification words it fails. The parser takes a title that
    is a lone surrogate as it takes any other; the file, opened for UTF-8,
    refuses it: [save_to_csv] ends with UnicodeEncodeError, and of the two
    records the file holds the first only. *)
Lemma save_to_csv_surrogate_counterexample :
  exists papers,
    parse_paper_details Sample.surrogate_data = Ok papers /\
    length papers = 2%nat /\
    writable Sample.world0 "out.csv" = true /\
    fst (save_to_csv Sample.plain_str papers "out.csv" Sample.world0)
      = Raise UnicodeEncodeError /\
    file_read
      (files (snd (save_to_csv Sample.plain_str papers "out.csv"
                     Sample.world0))) "out.csv"
      = Some (header_line ++
              "111,Study A,2023,Jane Doe,Pfizer Inc.,jane@pfizer.com"
              ++ line_end)%string.
Proof.
  exists (map row_of (paper_items Sample.surrogate_data)).
  repeat split; vm_compute; reflexivity.
Qed.

Lemma main_after_failed_search_witness :
  error_status 500 = true /\
  (exists w', main Sample.net_500 Sample.plain_str Sample.args_console
                Sample.world0 = (Ok tt, w') /\ stdout w' = []).
Proof.
  split; [reflexivity |].
  exact (proj1 (proj2 (main_after_failed_search Sample.net_500
           Sample.plain_str Sample.args_console Sample.world0
           eq_refl eq_refl)) (or_introl eq_refl)).
Defined.

(** C3 as the specification words it fails: with a file destination and a
    search call that answers 500, IndexError leaves [main]. *)
Lemma main_file_mode_counterexample :
  Sample.net_500 [] (search_request "cancer immunotherapy" 20)
    = Responds {| status_code := 500; body := None |} /\
  fst (main Sample.net_500 Sample.plain_str Sample.args_file Sample.world0)
    = Raise IndexError.
Proof.
  split; reflexivity.
Qed.

(* ================================================================== *)
(** ** Reading back what the writer wrote *)

Module RoundTrip.

Import Csv CsvReader.

Local Unset Implicit Arguments.

Lemma feed_chars_app (r : reader) (a b : string) :
  feed_chars r (a ++ b) = (r' <- feed_chars r a ;; feed_chars r' b).
Proof.
  revert r. induction a as [|c a IH]; intros r; cbn [append feed_chars bind].
  - reflexivity.
  - destruct (parse_process_char r (Ch c)); cbn [bind]; [apply IH | reflexivity].
Qed.

Lemma feed_line_chars (r : reader) (line : string) :
  feed_line r line = (r' <- feed_chars r line ;; parse_process_char r' EOL).
Proof.
  revert r. induction line as [|c t IH]; intros r; cbn [feed_line feed_chars bind].
  - reflexivity.
  - destruct (parse_process_char r (Ch c)); cbn [bind]; [apply IH | reflexivity].
Qed.

(** One more character of the line under way. *)
Lemma feed_chars_snoc (r v v' : reader) (cur : string) (c : ascii) :
  feed_chars r cur = Ok v ->
  parse_process_char v (Ch c) = Ok v' ->
  feed_chars r (cur ++ String c "") = Ok v'.
Proof.
  intros H1 H2. rewrite feed_chars_app, H1. cbn [bind feed_chars].
  now rewrite H2.
Qed.

(** *** Lines *)

Lemma lines_from_plain (cur : string) (c : ascii) (t : string) :
  is_newline c = false ->
  lines_from cur (String c t) = lines_from (cur ++ String c "") t.
Proof.
  unfold is_newline. intros H. apply orb_false_iff in H. destruct H as [H1 H2].
  cbn [lines_from]. now rewrite H1, H2.
Qed.

Lemma lines_from_LF (cur t : string) :
  lines_from cur (String LF t) = (cur ++ String LF "")%string :: lines_from "" t.
Proof. reflexivity. Qed.

Lemma lines_from_CR_LF (cur t : string) :
  lines_from cur (String CR (String LF t)) =
  lines_from (cur ++ String CR "") (String LF t).
Proof.
  cbn [lines_from]. cbn [Ascii.eqb CR LF Bool.eqb andb].
  now rewrite append_assoc.
Qed.

Lemma lines_from_CR (cur t : string) :
  match t with
  | String c _ => Ascii.eqb c LF = false
  | EmptyString => True
  end ->
  lines_from cur (String CR t) =
  (cur ++ String CR "")%string :: lines_from "" t.
Proof.
  destruct t as [|c t]; intros H.
  - reflexivity.
  - cbn [lines_from]. change (Ascii.eqb CR LF) with false. cbv iota.
    change (Ascii.eqb CR CR) with true. cbv iota. now rewrite H.
Qed.

(** *** Advancing inside a row *)

Lemma advances_nil (v : reader) : advances v "" v.
Proof.
  intros r cur rest H. now exists r, cur.
Qed.

Lemma advances_app (v1 v2 v3 : reader) (a b : string) :
  advances v1 a v2 -> advances v2 b v3 -> advances v1 (a ++ b) v3.
Proof.
  intros Ha Hb r cur rest H.
  destruct (Ha r cur (b ++ rest)%string H) as [r1 [cur1 [H1 E1]]].
  destruct (Hb r1 cur1 rest H1) as [r2 [cur2 [H2 E2]]].
  exists r2, cur2. split; [exact H2 |].
  now rewrite append_assoc, E1, E2.
Qed.

(** a character that ends no line *)
Lemma advances_char (v v' : reader) (c : ascii) :
  is_newline c = false ->
  parse_process_char v (Ch c) = Ok v' ->
  advances v (String c "") v'.
Proof.
  intros Hc Hstep r cur rest H. exists r, (cur ++ String c "")%string.
  split; [now apply (feed_chars_snoc r v v' cur c) |].
  unfold rows_from. cbn [append]. now rewrite lines_from_plain.
Qed.

Lemma advances_cons (v1 v2 v3 : reader) (c : ascii) (t : string) :
  advances v1 (String c "") v2 -> advances v2 t v3 ->
  advances v1 (String c t) v3.
Proof.
  intros H1 H2. change (String c t) with (String c "" ++ t)%string.
  now apply (advances_app v1 v2 v3).
Qed.

(** *** Inside a quoted field *)

(** A line that ends inside a quoted field leaves the automaton there. *)
Lemma read_rows_quoted_line (r : reader) (cur : string) (c : ascii)
    (buf : string) (done : list string) (rest : list string) :
  feed_chars r cur = Ok (quoted buf done) ->
  Ascii.eqb c DQUOTE = false ->
  read_rows r ((cur ++ String c "")%string :: rest) =
  read_rows (quoted (buf ++ String c "") done) rest.
Proof.
  intros H Hc. cbn [read_rows]. rewrite feed_line_chars.
  rewrite (feed_chars_snoc r (quoted buf done)
             (quoted (buf ++ String c "") done) cur c H).
  - reflexivity.
  - unfold quoted, parse_process_char. cbn [st]. now rewrite Hc.
Qed.

Lemma advances_quoted_char (c : ascii) (buf : string) (done : list string) :
  Ascii.eqb c DQUOTE = false ->
  advances (quoted buf done) (String c "") (quoted (buf ++ String c "") done).
Proof.
  intros Hc.
  assert (Hstep : parse_process_char (quoted buf done) (Ch c)
                  = Ok (quoted (buf ++ String c "") done)).
  { unfold quoted, parse_process_char. cbn [st]. now rewrite Hc. }
  destruct (is_newline c) eqn:Hnl; [| now apply advances_char].
  intros r cur rest H. unfold rows_from. cbn [append].
  unfold is_newline in Hnl. apply orb_true_iff in Hnl.
  destruct Hnl as [E | E]; apply Ascii.eqb_eq in E; subst c.
  - exists (quoted (buf ++ String LF "") done), ""%string.
    split; [reflexivity |].
    rewrite lines_from_LF. now apply read_rows_quoted_line.
  - destruct rest as [|c' t].
    + exists (quoted (buf ++ String CR "") done), ""%string.
      split; [reflexivity |].
      rewrite lines_from_CR by exact I. now apply read_rows_quoted_line.
    + destruct (Ascii.eqb c' LF) eqn:E.
      * apply Ascii.eqb_eq in E. subst c'.
        exists r, (cur ++ String CR "")%string.
        split; [now apply (feed_chars_snoc r (quoted buf done) _ cur CR) |].
        now rewrite lines_from_CR_LF.
      * exists (quoted (buf ++ String CR "") done), ""%string.
        split; [reflexivity |].
        rewrite lines_from_CR by exact E. now apply read_rows_quoted_line.
Qed.

(** a doubled quote inside a quoted field is one quote of the field *)
Lemma advances_doubled_quote (buf : string) (done : list string) :
  advances (quoted buf done) (String DQUOTE (String DQUOTE ""))
           (quoted (buf ++ String DQUOTE "") done).
Proof.
  apply (advances_cons _ (closing buf done));
    apply advances_char; reflexivity.
Qed.

Lemma advances_quoted_body (body buf : string) (done : list string) :
  advances (quoted buf done) (double_quotes body) (quoted (buf ++ body) done).
Proof.
  revert buf. induction body as [|c t IH]; intros buf.
  - cbn [double_quotes]. rewrite append_nil_r. apply advances_nil.
  - cbn [double_quotes].
    replace (buf ++ String c t)%string with ((buf ++ String c "") ++ t)%string
      by now rewrite append_assoc.
    destruct (Ascii.eqb c DQUOTE) eqn:E.
    + apply Ascii.eqb_eq in E. subst c.
      change (String DQUOTE (String DQUOTE (double_quotes t)))
        with (String DQUOTE (String DQUOTE "") ++ double_quotes t)%string.
      exact (advances_app _ _ _ _ _ (advances_doubled_quote buf done) (IH _)).
    + exact (advances_cons _ _ _ _ _ (advances_quoted_char c buf done E) (IH _)).
Qed.

(** *** Outside quotes *)

Lemma is_special_false (c : ascii) :
  is_special c = false ->
  Ascii.eqb c COMMA = false /\ Ascii.eqb c DQUOTE = false /\
  is_newline c = false.
Proof.
  unfold is_special, is_newline. rewrite !orb_false_iff.
  intros [[[H1 H2] H3] H4]. now rewrite H3, H4.
Qed.

Lemma advances_plain_body (body buf : string) (done : list string) :
  needs_quotes body = false ->
  advances (unquoted buf done) body (unquoted (buf ++ body) done).
Proof.
  revert buf. induction body as [|c t IH]; intros buf H.
  - rewrite append_nil_r. apply advances_nil.
  - cbn [needs_quotes] in H. apply orb_false_iff in H. destruct H as [Hc Ht].
    destruct (is_special_false c Hc) as [H1 [H2 H3]].
    replace (buf ++ String c t)%string with ((buf ++ String c "") ++ t)%string
      by now rewrite append_assoc.
    refine (advances_cons _ _ _ _ _ _ (IH _ Ht)).
    apply advances_char; [exact H3 |].
    unfold unquoted, parse_process_char. cbn [st ends_line].
    now rewrite H3, H1.
Qed.

(** *** Fields and separators *)

Lemma advances_opening_quote (s : state) (done : list string) :
  s = START_RECORD \/ s = START_FIELD ->
  advances (before_field s done) (String DQUOTE "") (quoted "" done).
Proof.
  intros [-> | ->]; apply advances_char; reflexivity.
Qed.

Lemma advances_closing_quote (buf : string) (done : list string) :
  advances (quoted buf done) (String DQUOTE "") (closing buf done).
Proof.
  apply advances_char; reflexivity.
Qed.

Lemma advances_first_char (s : state) (done : list string) (c : ascii) :
  s = START_RECORD \/ s = START_FIELD ->
  is_special c = false ->
  advances (before_field s done) (String c "") (unquoted (String c "") done).
Proof.
  intros Hs Hc. destruct (is_special_false c Hc) as [H1 [H2 H3]].
  apply advances_char; [exact H3 |].
  unfold before_field, parse_process_char, start_field. cbn [st ends_line].
  destruct Hs as [-> | ->]; now rewrite H3, H2, H1.
Qed.

(** The automaton reads the text of a field as that field. *)
Lemma read_field (f : string) (s : state) (done : list string) :
  s = START_RECORD \/ s = START_FIELD ->
  exists v,
    field_read done f v /\
    advances (before_field s done) (write_field f) v /\
    (st v = START_RECORD -> f = ""%string /\ s = START_RECORD).
Proof.
  intros Hs. unfold write_field. destruct (needs_quotes f) eqn:E.
  - exists (closing f done). split; [constructor | split; [| discriminate]].
    refine (advances_cons _ _ _ _ _ (advances_opening_quote s done Hs) _).
    exact (advances_app _ _ _ _ _ (advances_quoted_body f "" done)
             (advances_closing_quote f done)).
  - destruct f as [|c t].
    + exists (before_field s done).
      split; [now constructor | split; [apply advances_nil |]].
      cbn [st before_field]. intros ->. now split.
    + exists (unquoted (String c t) done).
      split; [constructor; discriminate | split; [| discriminate]].
      cbn [needs_quotes] in E. apply orb_false_iff in E. destruct E as [Hc Ht].
      exact (advances_cons _ _ _ _ _ (advances_first_char s done c Hs Hc)
               (advances_plain_body t (String c "") done Ht)).
Qed.

Lemma advances_comma (done : list string) (f : string) (v : reader) :
  field_read done f v ->
  advances v (String COMMA "") (before_field START_FIELD (done ++ [f])).
Proof.
  intros [s -> [-> | ->] | Hf |]; apply advances_char; reflexivity.
Qed.

(** *** The end of a row *)

Lemma completes_intro (v v1 v2 v3 : reader) :
  parse_process_char v (Ch CR) = Ok v1 ->
  parse_process_char v1 (Ch LF) = Ok v2 ->
  parse_process_char v2 EOL = Ok v3 ->
  st v3 = START_RECORD ->
  completes v (fields v3).
Proof.
  intros H1 H2 H3 H4 r cur rest H. unfold rows_from, lineterminator.
  cbn [append]. rewrite lines_from_CR_LF, lines_from_LF. cbn [read_rows].
  rewrite feed_line_chars, !feed_chars_app, H. cbn [bind feed_chars].
  rewrite H1. cbn [bind]. rewrite H2. cbn [bind]. rewrite H3. cbn [bind].
  now rewrite H4.
Qed.

Lemma completes_field (done : list string) (f : string) (v : reader) :
  field_read done f v -> st v <> START_RECORD -> completes v (done ++ [f]).
Proof.
  intros [s -> [-> | ->] | Hf |] Hv.
  - now destruct Hv.
  - exact (completes_intro (before_field START_FIELD done) _ _ _
             eq_refl eq_refl eq_refl eq_refl).
  - exact (completes_intro (unquoted f done) _ _ _
             eq_refl eq_refl eq_refl eq_refl).
  - exact (completes_intro (closing f done) _ _ _
             eq_refl eq_refl eq_refl eq_refl).
Qed.

Lemma completes_empty_row : completes parse_reset [].
Proof.
  exact (completes_intro parse_reset _ _ _ eq_refl eq_refl eq_refl eq_refl).
Qed.

(** *** Rows *)

Lemma read_fields (fs : list string) :
  fs <> [] ->
  forall (s : state) (done : list string),
  s = START_FIELD \/ (s = START_RECORD /\ fs <> [""%string]) ->
  forall r cur rest,
  feed_chars r cur = Ok (before_field s done) ->
  rows_from r cur
    (join (String COMMA "") (map write_field fs) ++ lineterminator ++ rest)
  = (rows <- rows_from parse_reset "" rest ;; Ok ((done ++ fs) :: rows)).
Proof.
  induction fs as [|f fs IH]; intros Hne s done Hs r cur rest H;
    [now destruct Hne |].
  assert (Hs' : s = START_RECORD \/ s = START_FIELD)
    by (destruct Hs as [-> | [-> _]]; auto).
  destruct (read_field f s done Hs') as [v [Hread [Hadv Hopen]]].
  destruct fs as [|f' fs'].
  - cbn [map join].
    destruct (Hadv r cur (lineterminator ++ rest)%string H)
      as [r' [cur' [H' ->]]].
    apply (completes_field done f v Hread); [| exact H'].
    intros Hv. destruct (Hopen Hv) as [-> ->].
    destruct Hs as [Hs | [_ Hs]]; [discriminate | now destruct Hs].
  - change (join (String COMMA "") (map write_field (f :: f' :: fs')))
      with (write_field f ++ String COMMA ""
            ++ join (String COMMA "") (map write_field (f' :: fs')))%string.
    rewrite !append_assoc.
    destruct (Hadv r cur
                (String COMMA "" ++
                 join (String COMMA "") (map write_field (f' :: fs'))
                 ++ lineterminator ++ rest)%string H)
      as [r1 [cur1 [H1 ->]]].
    destruct (advances_comma done f v Hread r1 cur1
                (join (String COMMA "") (map write_field (f' :: fs'))
                 ++ lineterminator ++ rest)%string H1)
      as [r2 [cur2 [H2 ->]]].
    rewrite (IH ltac:(discriminate) START_FIELD (done ++ [f])
               (or_introl eq_refl) r2 cur2 rest H2).
    now rewrite <- app_assoc.
Qed.

(** The reader, at the start of a record, reads the text of a row as that
    row and is at the start of a record again. *)
Lemma read_row (row : list string) (rest : string) :
  rows_from parse_reset "" (write_row row ++ rest)
  = (rows <- rows_from parse_reset "" rest ;; Ok (row :: rows)).
Proof.
  destruct row as [|f fs].
  - exact (completes_empty_row parse_reset "" rest eq_refl).
  - destruct (list_eq_dec string_dec (f :: fs) [""%string]) as [E | E].
    + injection E as -> ->. unfold write_row.
      change (String DQUOTE (String DQUOTE lineterminator) ++ rest)%string
        with (String DQUOTE ""
              ++ String DQUOTE "" ++ lineterminator ++ rest)%string.
      destruct (advances_opening_quote START_RECORD [] (or_introl eq_refl)
                  parse_reset "" (String DQUOTE "" ++ lineterminator ++ rest)
                  eq_refl)%string as [r1 [cur1 [H1 ->]]].
      destruct (advances_closing_quote "" [] r1 cur1
                  (lineterminator ++ rest)%string H1) as [r2 [cur2 [H2 ->]]].
      exact (completes_field [] "" (closing "" []) (field_read_quoted [] "")
               ltac:(discriminate) r2 cur2 rest H2).
    + replace (write_row (f :: fs))
        with (join (String COMMA "") (map write_field (f :: fs))
              ++ lineterminator)%string.
      * rewrite append_assoc.
        exact (read_fields (f :: fs) ltac:(discriminate) START_RECORD []
                 (or_intror (conj eq_refl E)) parse_reset "" rest eq_refl).
      * unfold write_row. destruct f as [|c f]; [| reflexivity].
        destruct fs; [now destruct E | reflexivity].
Qed.

(** Reading back what the writer wrote gives the rows written. *)
Lemma csv_reader_write_rows (rows : list (list string)) :
  csv_reader (write_rows rows) = Ok rows.
Proof.
  unfold csv_reader, readlines. fold (rows_from parse_reset "" (write_rows rows)).
  induction rows as [|row rows IH].
  - reflexivity.
  - cbn [write_rows]. rewrite read_row, IH. reflexivity.
Qed.

End RoundTrip.

Section RoundTripClaim.

Variable py_str : pyval -> string.

Lemma same_keys_eq (l1 l2 : list string) :
  same_keys l1 l2 = true -> l1 = l2.
Proof.
  revert l2. induction l1 as [|a l1 IH]; intros [|b l2] H; try discriminate.
  - reflexivity.
  - cbn [same_keys] in H. apply andb_true_iff in H. destruct H as [H1 H2].
    apply String.eqb_eq in H1. subst b. now rewrite (IH l2 H2).
Qed.

(** The texts written for a record that holds text are its values. *)
Lemma row_texts_values (r : record) :
  forallb (fun kv => is_text (snd kv)) r = true ->
  map PStr (row_texts py_str r) = values r.
Proof.
  unfold row_texts, values. induction r as [|[k v] r IH]; intros H.
  - reflexivity.
  - cbn [forallb snd] in H. apply andb_true_iff in H. destruct H as [Hv Hr].
    cbn [map snd]. rewrite (IH Hr). destruct v; try discriminate. reflexivity.
Qed.

(** C9, as the program has it. Every non-empty list of N PaperRecords
    whose texts UTF-8 can encode is written by file mode and read back,
    by a reader of the same format, as the header row followed by N rows
    whose fields are the values of the records, in order. *)
Theorem csv_round_trip (papers : list record) (filename : string)
    (w : world) :
  papers <> [] ->
  Forall (fun r => paper_record r = true) papers ->
  Forall (fun r => encodable py_str r = true) papers ->
  writable w filename = true ->
  exists w' text rows,
    save_to_csv py_str papers filename w = (Ok tt, w') /\
    file_read (files w') filename = Some text /\
    CsvReader.csv_reader text = Ok (columns :: rows) /\
    length rows = length papers /\
    map (map PStr) rows = map values papers.
Proof.
  intros Hne Hrec Henc Hw.
  assert (Hkeys : Forall (fun r => dict_keys r = columns) papers).
  { apply Forall_forall. intros r Hin.
    pose proof (proj1 (Forall_forall _ _) Hrec r Hin) as Hr.
    unfold paper_record in Hr. apply andb_true_iff in Hr.
    now apply same_keys_eq. }
  destruct (@save_to_csv_columns py_str papers filename w Hne Hkeys Henc Hw)
    as [w' [E1 E2]].
  exists w', (Csv.write_rows (columns :: map (row_texts py_str) papers)),
         (map (row_texts py_str) papers).
  split; [exact E1 | split; [exact E2 | split; [| split]]].
  - apply RoundTrip.csv_reader_write_rows.
  - apply length_map.
  - rewrite map_map. apply map_ext_in. intros r Hin.
    pose proof (proj1 (Forall_forall _ _) Hrec r Hin) as Hr.
    unfold paper_record in Hr. apply andb_true_iff in Hr.
    now apply row_texts_values.
Qed.

End RoundTripClaim.

Lemma csv_round_trip_witness :
  Sample.papers <> [] /\
  Forall (fun r => paper_record r = true) Sample.papers /\
  Forall (fun r => encodable Sample.plain_str r = true) Sample.papers /\
  exists w' text,
    save_to_csv Sample.plain_str Sample.papers "out.csv" Sample.world0
      = (Ok tt, w') /\
    file_read (files w') "out.csv" = Some text /\
    CsvReader.csv_reader text
      = Ok [ columns;
             [ "111"; "Study A, part 1"; "2023"; "Jane Doe"; "Pfizer Inc.";
               "jane@pfizer.com" ] ].
Proof.
  assert (Hne : Sample.papers <> []) by discriminate.
  assert (Hrec : Forall (fun r => paper_record r = true) Sample.papers)
    by (repeat constructor).
  assert (Henc : Forall (fun r => encodable Sample.plain_str r = true)
                   Sample.papers)
    by (repeat constructor).
  split; [exact Hne | split; [exact Hrec | split; [exact Henc |]]].
  destruct (@csv_round_trip Sample.plain_str Sample.papers "out.csv"
              Sample.world0 Hne Hrec Henc eq_refl)
    as [w' [text [rows [E1 [E2 [E3 [_ E5]]]]]]].
  exists w', text. split; [exact E1 | split; [exact E2 |]].
  rewrite E3. f_equal. f_equal.
  destruct rows as [|row [|? ?]]; try discriminate E5.
  cbn [map Sample.papers values snd] in E5. injection E5 as E5.
  destruct row as [|a [|b [|c [|d [|e [|f [|? ?]]]]]]]; try discriminate E5.
  cbn [map] in E5. now injection E5 as -> -> -> -> -> ->.
Defined.

(** C9 as the specification words it fails. Of two PaperRecords, the
    second with a title that is a lone surrogate, the file keeps the
    first only, for the write of the second raises UnicodeEncodeError:
    reading the file back gives one row, not two. *)
Lemma csv_round_trip_counterexample :
  Forall (fun r => paper_record r = true) Sample.surrogate_papers /\
  length Sample.surrogate_papers = 2%nat /\
  fst (save_to_csv Sample.plain_str Sample.surrogate_papers "out.csv"
         Sample.world0) = Raise UnicodeEncodeError /\
  exists text,
    file_read
      (files (snd (save_to_csv Sample.plain_str Sample.surrogate_papers
                     "out.csv" Sample.world0))) "out.csv" = Some text /\
    CsvReader.csv_reader text
      = Ok [ columns;
             [ "111"; "Study A, part 1"; "2023"; "Jane Doe"; "Pfizer Inc.";
               "jane@pfizer.com" ] ].
Proof.
  split; [repeat constructor | split; [reflexivity | split]].
  - vm_compute. reflexivity.
  - eexists. split; vm_compute; reflexivity.
Qed.

(* ================================================================== *)
(** ** More about the network calls *)

Section Handlers.

Lemma passes_bind {A B : Type} (r : result A) (k : A -> result B) :
  passes_handler r -> (forall a, passes_handler (k a)) ->
  passes_handler (bind r k).
Proof.
  destruct r as [a|e]; cbn [bind passes_handler]; auto.
Qed.

Lemma py_get_passes (v : pyval) (k : string) (d : pyval) :
  passes_handler (py_get v k d).
Proof. destruct v; cbn; auto. Qed.

Lemma py_items_passes (v : pyval) : passes_handler (py_items v).
Proof. destruct v; cbn; auto. Qed.

Lemma py_iter_passes (v : pyval) : passes_handler (py_iter v).
Proof. destruct v; cbn; auto. Qed.

Lemma all_str_passes (l : list pyval) : passes_handler (all_str l).
Proof.
  induction l as [|v l IH]; cbn [all_str passes_handler]; auto.
  destruct v; cbn [passes_handler is_RequestException]; auto.
  apply passes_bind; [exact IH | intros; exact I].
Qed.

Lemma py_join_passes (sep : string) (v : pyval) :
  passes_handler (py_join sep v).
Proof.
  unfold py_join. apply passes_bind; [apply py_iter_passes | intros l].
  apply passes_bind; [apply all_str_passes | intros; exact I].
Qed.

Lemma py_contains_passes (v : pyval) (k : string) :
  passes_handler (py_contains v k).
Proof. destruct v; cbn; auto. Qed.

Lemma py_getitem_passes (v : pyval) (k : string) :
  passes_handler (py_getitem v k).
Proof.
  destruct v; cbn [py_getitem passes_handler is_RequestException]; auto.
  destruct (dict_get d k); cbn; auto.
Qed.

Lemma re_search_passes (r : regex) (v : pyval) (ic : bool) :
  passes_handler (re_search r v ic).
Proof. destruct v; cbn; auto. Qed.

Lemma filter_loop_passes (authors names affs : list pyval) :
  passes_handler (filter_loop authors names affs).
Proof.
  revert names affs. induction authors as [|a rest IH]; intros names affs.
  - exact I.
  - cbn [filter_loop]. apply passes_bind; [apply py_get_passes | intros aff].
    destruct (truthy aff); [| apply IH].
    apply passes_bind; [apply re_search_passes | intros found].
    destruct (negb found); [| apply IH].
    apply passes_bind; [apply py_get_passes | intros name; apply IH].
Qed.

Lemma email_loop_passes (authors : list pyval) :
  passes_handler (email_loop authors).
Proof.
  induction authors as [|a rest IH]; [exact I |].
  cbn [email_loop]. apply passes_bind; [apply py_contains_passes | intros has].
  destruct has; [apply py_getitem_passes | exact IH].
Qed.

Lemma paper_row_passes (paper_id : string) (details : pyval) :
  passes_handler (paper_row paper_id details).
Proof.
  unfold paper_row.
  apply passes_bind; [apply py_get_passes | intros title].
  apply passes_bind; [apply py_get_passes | intros pub_date].
  apply passes_bind; [apply py_get_passes | intros authors].
  apply passes_bind.
  { unfold filter_non_academic_authors.
    apply passes_bind; [apply py_iter_passes | intros l].
    apply filter_loop_passes. }
  intros [company_authors company_names].
  apply passes_bind.
  { unfold extract_corresponding_email.
    apply passes_bind; [apply py_iter_passes | intros l].
    apply email_loop_passes. }
  intros email.
  apply passes_bind; [apply py_join_passes | intros ja].
  apply passes_bind; [apply py_join_passes | intros jn]. exact I.
Qed.

Lemma parse_loop_passes (items : list (string * pyval))
    (papers : list record) :
  passes_handler (parse_loop items papers).
Proof.
  revert papers. induction items as [|[k v] rest IH]; intros papers.
  - exact I.
  - cbn [parse_loop]. destruct (String.eqb k "uids"); [apply IH |].
    apply passes_bind; [apply paper_row_passes | intros row; apply IH].
Qed.

(** Nothing the parser raises is a RequestException. *)
Lemma parse_paper_details_passes (data : pyval) :
  passes_handler (parse_paper_details data).
Proof.
  unfold parse_paper_details.
  apply passes_bind; [apply py_get_passes | intros m].
  apply passes_bind; [apply py_items_passes | intros items].
  apply parse_loop_passes.
Qed.

(** What the handler lets through is the outcome of the whole [try]. *)
Lemma try_except_passes {A : Type} (body : M A) (handler : exn -> M A)
    (w : world) :
  passes_handler (fst (body w)) ->
  try_except_RequestException body handler w = body w.
Proof.
  unfold try_except_RequestException.
  destruct (body w) as [[a|e] w']; cbn [fst passes_handler]; [reflexivity |].
  now intros ->.
Qed.

End Handlers.

Section MoreNetwork.

Variable net : list request -> request -> get_outcome.

Lemma handler_result (msg : string) (e : exn) (w : world) :
  fst ((logger_error msg e ;;; ret (@nil record)) w) = Ok [].
Proof.
  unfold bindM, ret. destruct (logger_error_requests msg e w) as [E _].
  destruct (logger_error msg e w) as [res w']. cbn [fst] in E. now rewrite E.
Qed.

Lemma try_except_never_RequestException (body : M (list record))
    (msg : string) (w : world) :
  passes_handler
    (fst (try_except_RequestException body
            (fun e => logger_error msg e ;;; ret []) w)).
Proof.
  unfold try_except_RequestException.
  destruct (body w) as [[a|e] w']; [exact I |].
  destruct (is_RequestException e) eqn:E; [| exact E].
  now rewrite handler_result.
Qed.

Lemma fetch_paper_details_passes (paper_ids : pyval) (w : world) :
  passes_handler (fst (fetch_paper_details net paper_ids w)).
Proof.
  unfold fetch_paper_details, bindM at 1, lift at 1.
  pose proof (py_join_passes "," paper_ids) as H.
  destruct (py_join "," paper_ids) as [ids|e]; [| exact H].
  apply try_except_never_RequestException.
Qed.

(** X1. Whatever the network answers and whatever the arguments are,
    neither [fetch_paper_details] nor [fetch_pubmed_papers] (with any
    function in the place of the detail fetcher) raises a
    RequestException: each returns a list or raises an exception of
    another class. *)
Theorem no_RequestException_escapes
    (details_fetcher : pyval -> M (list record))
    (paper_ids : pyval) (query : string) (retmax : Z) (w : world) :
  passes_handler (fst (fetch_paper_details net paper_ids w)) /\
  passes_handler
    (fst (fetch_pubmed_papers_calling net details_fetcher query retmax w)) /\
  passes_handler (fst (fetch_pubmed_papers net query retmax w)).
Proof.
  split; [apply fetch_paper_details_passes |].
  split; apply try_except_never_RequestException.
Qed.

(** The detail call that gets its data returns what the parser makes of
    it. *)
Lemma fetch_paper_details_received (paper_ids : pyval) (ids : string)
    (w : world) (r : response) (data : pyval) :
  py_join "," paper_ids = Ok ids ->
  net (requests_made w) (details_request ids) = Responds r ->
  error_status (status_code r) = false ->
  body r = Some data ->
  fetch_paper_details net paper_ids w
  = (parse_paper_details data, sent w (details_request ids)).
Proof.
  intros Hj Hnet Hst Hbody. unfold fetch_paper_details.
  unfold bindM at 1, lift at 1. rewrite Hj.
  match goal with
  | |- try_except_RequestException ?b ?h ?w0 = _ =>
      assert (E : b w0 = (parse_paper_details data,
                          sent w (details_request ids)))
  end.
  { now rewrite (@received_data net DETAILS_API_URL _ w r data _
                   (fun d => lift (parse_paper_details d)) Hnet Hst Hbody). }
  rewrite try_except_passes; [exact E |].
  rewrite E. apply parse_paper_details_passes.
Qed.

(** X2. When the detail request is answered with JSON and no error
    status, [fetch_paper_details] sends that one request, with the
    identifiers joined by commas, and its outcome is the outcome of
    [parse_paper_details] on the data: the parser's list, or the
    parser's exception, which is not caught. *)
Theorem fetch_paper_details_returns_parse (paper_ids : pyval) (ids : string)
    (w : world) (r : response) (data : pyval) :
  py_join "," paper_ids = Ok ids ->
  net (requests_made w) (details_request ids) = Responds r ->
  error_status (status_code r) = false ->
  body r = Some data ->
  fetch_paper_details net paper_ids w
  = (parse_paper_details data, sent w (details_request ids)).
Proof.
  apply fetch_paper_details_received.
Qed.

(** A search that finds identifiers hands them to the detail fetcher. *)
Lemma search_hands_over (details_fetcher : pyval -> M (list record))
    (query : string) (retmax : Z) (w : world) (r : response) (data : pyval)
    (ids : list pyval) :
  net (requests_made w) (search_request query retmax) = Responds r ->
  error_status (status_code r) = false ->
  body r = Some data ->
  idlist data = Some ids ->
  ids <> [] ->
  passes_handler
    (fst (details_fetcher (PList ids) (sent w (search_request query retmax)))) ->
  fetch_pubmed_papers_calling net details_fetcher query retmax w
  = details_fetcher (PList ids) (sent w (search_request query retmax)).
Proof.
  intros Hnet Hst Hbody Hids Hne Hpass. unfold fetch_pubmed_papers_calling.
  match goal with
  | |- try_except_RequestException ?b ?h ?w0 = _ =>
      assert (E : b w0 = details_fetcher (PList ids)
                           (sent w (search_request query retmax)))
  end.
  { rewrite (@received_data net PUBMED_API_URL _ w r data _ _
               Hnet Hst Hbody).
    fold (search_request query retmax).
    destruct data; try discriminate. cbn [idlist] in Hids.
    unfold bindM, lift. cbn [py_get].
    destruct (dict_get d "esearchresult") as [[]|]; try discriminate;
      [| now injection Hids as <-].
    cbn [py_get].
    destruct (dict_get d0 "idlist") as [[]|]; try discriminate;
      [| now injection Hids as <-].
    injection Hids as ->. destruct ids; [now destruct Hne | reflexivity]. }
  rewrite try_except_passes; [exact E | now rewrite E].
Qed.

(** X3. When the search finds identifiers and both requests are answered
    with JSON and no error status, [fetch_pubmed_papers] makes exactly the
    two requests, the search and then the details of the identifiers
    joined by commas in the order of the list, and its outcome is that of
    [parse_paper_details] on the second response. *)
Theorem fetch_pubmed_papers_two_requests (query : string) (retmax : Z)
    (w : world) (r1 r2 : response) (data1 data2 : pyval)
    (ids : list pyval) (texts : list string) :
  net (requests_made w) (search_request query retmax) = Responds r1 ->
  error_status (status_code r1) = false ->
  body r1 = Some data1 ->
  idlist data1 = Some ids ->
  ids <> [] ->
  all_str ids = Ok texts ->
  net (requests_made w ++ [search_request query retmax])
      (details_request (join "," texts)) = Responds r2 ->
  error_status (status_code r2) = false ->
  body r2 = Some data2 ->
  exists w',
    fetch_pubmed_papers net query retmax w = (parse_paper_details data2, w') /\
    requests_made w' =
      requests_made w
        ++ [search_request query retmax; details_request (join "," texts)] /\
    stdout w' = stdout w /\ files w' = files w /\ logged w' = logged w.
Proof.
  intros Hnet1 Hst1 Hbody1 Hids Hne Htexts Hnet2 Hst2 Hbody2.
  unfold fetch_pubmed_papers.
  rewrite (@search_hands_over (fetch_paper_details net) query retmax w r1
             data1 ids Hnet1 Hst1 Hbody1 Hids Hne)
    by apply fetch_paper_details_passes.
  assert (Hj : py_join "," (PList ids) = Ok (join "," texts))
    by (unfold py_join; cbn [py_iter bind]; now rewrite Htexts).
  rewrite (@fetch_paper_details_received (PList ids) (join "," texts)
             (sent w (search_request query retmax)) r2 data2
             Hj Hnet2 Hst2 Hbody2).
  eexists. split; [reflexivity |]. cbn [sent with_requests requests_made
    stdout files logged]. rewrite <- app_assoc. repeat split.
Qed.

(** X4. When the search finds identifiers and the detail request then
    fails (no response, an error status, a body that is not JSON),
    [fetch_pubmed_papers] returns the empty list after the two requests,
    without a third. *)
Theorem details_failure_gives_empty_list (query : string) (retmax : Z)
    (w : world) (r1 : response) (data1 : pyval)
    (ids : list pyval) (texts : list string) :
  net (requests_made w) (search_request query retmax) = Responds r1 ->
  error_status (status_code r1) = false ->
  body r1 = Some data1 ->
  idlist data1 = Some ids ->
  ids <> [] ->
  all_str ids = Ok texts ->
  call_fails (net (requests_made w ++ [search_request query retmax])
                  (details_request (join "," texts))) = true ->
  exists w',
    fetch_pubmed_papers net query retmax w = (Ok [], w') /\
    requests_made w' =
      requests_made w
        ++ [search_request query retmax; details_request (join "," texts)] /\
    stdout w' = stdout w /\ files w' = files w.
Proof.
  intros Hnet1 Hst1 Hbody1 Hids Hne Htexts Hfail.
  unfold fetch_pubmed_papers.
  rewrite (@search_hands_over (fetch_paper_details net) query retmax w r1
             data1 ids Hnet1 Hst1 Hbody1 Hids Hne)
    by apply fetch_paper_details_passes.
  assert (Hj : py_join "," (PList ids) = Ok (join "," texts))
    by (unfold py_join; cbn [py_iter bind]; now rewrite Htexts).
  rewrite (@fetch_paper_details_failure net (PList ids) (join "," texts)
             (sent w (search_request query retmax)) Hj Hfail).
  eexists. split; [reflexivity |].
  match goal with
  | |- context [logger_error ?m ?e ?w0] =>
      destruct (logger_error_requests m e w0) as [_ [E1 [E2 [E3 _]]]]
  end.
  rewrite E1, E2, E3. cbn [sent with_requests requests_made stdout files].
  rewrite <- app_assoc. repeat split.
Qed.

Lemma all_str_non_text (l : list pyval) :
  Exists (fun v => is_text v = false) l -> all_str l = Raise TypeError.
Proof.
  induction 1 as [v l Hv | v l _ IH].
  - destruct v; try discriminate; reflexivity.
  - cbn [all_str]. destruct v; try reflexivity. now rewrite IH.
Qed.

(** X5. When the search finds identifiers one of which is not a string,
    joining them raises TypeError before the detail request is built:
    the exception leaves [fetch_pubmed_papers] uncaught, and the search
    request is the only one made. *)
Theorem non_text_identifier_raises (query : string) (retmax : Z)
    (w : world) (r1 : response) (data1 : pyval) (ids : list pyval) :
  net (requests_made w) (search_request query retmax) = Responds r1 ->
  error_status (status_code r1) = false ->
  body r1 = Some data1 ->
  idlist data1 = Some ids ->
  Exists (fun v => is_text v = false) ids ->
  fetch_pubmed_papers net query retmax w
  = (Raise TypeError, sent w (search_request query retmax)).
Proof.
  intros Hnet1 Hst1 Hbody1 Hids Hbad.
  assert (Hne : ids <> []) by (intros ->; inversion Hbad).
  unfold fetch_pubmed_papers.
  rewrite (@search_hands_over (fetch_paper_details net) query retmax w r1
             data1 ids Hnet1 Hst1 Hbody1 Hids Hne)
    by apply fetch_paper_details_passes.
  unfold fetch_paper_details, bindM at 1, lift at 1, py_join.
  cbn [py_iter bind]. now rewrite (all_str_non_text Hbad).
Qed.

(** X6. With the logger at ERROR or below, a failed search call adds one
    record to the log, at level ERROR, with the message of the search
    call and the exception caught; a failed detail call does the same
    with its own message. *)
Theorem failed_call_logs_one_error (w : world) :
  (levelno (logger_level w) <= 40)%Z ->
  (forall query retmax,
     call_fails (net (requests_made w) (search_request query retmax)) = true ->
     logged (snd (fetch_pubmed_papers net query retmax w))
     = logged w ++
       [failure_record "Error fetching papers: "
          (net (requests_made w) (search_request query retmax))]) /\
  (forall paper_ids ids,
     py_join "," paper_ids = Ok ids ->
     call_fails (net (requests_made w) (details_request ids)) = true ->
     logged (snd (fetch_paper_details net paper_ids w))
     = logged w ++
       [failure_record "Error fetching paper details: "
          (net (requests_made w) (details_request ids))]).
Proof.
  intros Hlevel. apply Z.leb_le in Hlevel. split.
  - intros query retmax H. unfold fetch_pubmed_papers.
    rewrite (@fetch_pubmed_papers_failure net (fetch_paper_details net)
               query retmax w H). cbn [snd].
    unfold logger_error, logger_log. cbn [logger_level sent with_requests
      levelno]. now rewrite Hlevel.
  - intros paper_ids ids Hj H.
    rewrite (@fetch_paper_details_failure net paper_ids ids w Hj H).
    cbn [snd].
    unfold logger_error, logger_log. cbn [logger_level sent with_requests
      levelno]. now rewrite Hlevel.
Qed.

End MoreNetwork.

Lemma fetch_paper_details_returns_parse_witness :
  py_join "," (PList [PStr "111"; PStr "222"]) = Ok "111,222"%string /\
  fetch_paper_details Sample.net_scenario (PList [PStr "111"; PStr "222"])
    Sample.world0
  = (parse_paper_details Sample.details_data,
     sent Sample.world0 (details_request "111,222")).
Proof.
  split; [reflexivity |].
  exact (@fetch_paper_details_returns_parse Sample.net_scenario
           (PList [PStr "111"; PStr "222"]) "111,222" Sample.world0
           {| status_code := 200; body := Some Sample.details_data |}
           Sample.details_data eq_refl eq_refl eq_refl eq_refl).
Defined.

Lemma fetch_pubmed_papers_two_requests_witness :
  idlist Sample.search_data = Some [PStr "111"; PStr "222"] /\
  exists w',
    fetch_pubmed_papers Sample.net_scenario "cancer immunotherapy" 20
      Sample.world0
    = (parse_paper_details Sample.details_data, w') /\
    requests_made w' =
      [search_request "cancer immunotherapy" 20; details_request "111,222"].
Proof.
  split; [reflexivity |].
  destruct (@fetch_pubmed_papers_two_requests Sample.net_scenario
              "cancer immunotherapy" 20 Sample.world0
              {| status_code := 200; body := Some Sample.search_data |}
              {| status_code := 200; body := Some Sample.details_data |}
              Sample.search_data Sample.details_data
              [PStr "111"; PStr "222"] ["111"; "222"]%string
              eq_refl eq_refl eq_refl eq_refl ltac:(discriminate)
              eq_refl eq_refl eq_refl eq_refl)
    as [w' [E1 [E2 _]]].
  exists w'. split; [exact E1 | exact E2].
Defined.

Lemma details_failure_gives_empty_list_witness :
  call_fails (Sample.net_details_down
                [search_request "cancer immunotherapy" 20]
                (details_request "111,222")) = true /\
  exists w',
    fetch_pubmed_papers Sample.net_details_down "cancer immunotherapy" 20
      Sample.world0 = (Ok [], w') /\
    requests_made w' =
      [search_request "cancer immunotherapy" 20; details_request "111,222"].
Proof.
  split; [reflexivity |].
  destruct (@details_failure_gives_empty_list Sample.net_details_down
              "cancer immunotherapy" 20 Sample.world0
              {| status_code := 200; body := Some Sample.search_data |}
              Sample.search_data
              [PStr "111"; PStr "222"] ["111"; "222"]%string
              eq_refl eq_refl eq_refl eq_refl ltac:(discriminate)
              eq_refl eq_refl)
    as [w' [E1 [E2 _]]].
  exists w'. split; [exact E1 | exact E2].
Defined.

Lemma non_text_identifier_raises_witness :
  idlist Sample.numeric_search_data = Some [PInt 111; PInt 222] /\
  fetch_pubmed_papers Sample.net_numeric_ids "cancer" 20 Sample.world0
  = (Raise TypeError, sent Sample.world0 (search_request "cancer" 20)).
Proof.
  split; [reflexivity |].
  exact (@non_text_identifier_raises Sample.net_numeric_ids "cancer" 20
           Sample.world0
           {| status_code := 200; body := Some Sample.numeric_search_data |}
           Sample.numeric_search_data [PInt 111; PInt 222]
           eq_refl eq_refl eq_refl eq_refl
           (Exists_cons_hd (fun v => is_text v = false) (PInt 111)
              [PInt 222] eq_refl)).
Defined.

Lemma failed_call_logs_one_error_witness :
  (levelno (logger_level Sample.world0) <= 40)%Z /\
  logged (snd (fetch_pubmed_papers Sample.net_500 "cancer" 20 Sample.world0))
  = [ {| log_level := ERROR; log_msg := "Error fetching papers: ";
         log_exc := Some (RequestException (HTTPError 500)) |} ].
Proof.
  assert (H : (levelno (logger_level Sample.world0) <= 40)%Z)
    by (intro E; discriminate E).
  split; [exact H |].
  exact (proj1 (@failed_call_logs_one_error Sample.net_500 Sample.world0 H)
           "cancer"%string 20%Z eq_refl).
Defined.

(* ================================================================== *)
(** ** More about the classifier and the parser *)

Section MoreParsing.

Lemma classifiable_step (a : pyval) (rest names affs : list pyval) :
  classifiable a = true ->
  filter_loop (a :: rest) names affs =
  if non_academic a
  then filter_loop rest (names ++ [name_or_unknown a])
                        (affs ++ [affiliation_or_empty a])
  else filter_loop rest names affs.
Proof.
  destruct a; try discriminate. cbn [classifiable].
  unfold non_academic, name_or_unknown, affiliation_or_empty, field_of.
  cbn [filter_loop py_get bind].
  destruct (dict_get d "affiliation") as [v|]; [| reflexivity].
  intros H. apply orb_true_iff in H. destruct H as [H | H].
  - apply negb_true_iff in H. rewrite H.
    destruct v; try reflexivity. cbn [truthy] in H. now rewrite H.
  - destruct v; try discriminate. cbn [truthy].
    destruct (String.eqb s "") eqn:Es; cbn [negb andb]; [reflexivity |].
    cbn [re_search bind]. rewrite academic_pattern_keywords.
    destruct (keyword_match s); reflexivity.
Qed.

Lemma unclassifiable_step (a : pyval) (rest names affs : list pyval) :
  classifiable a = false ->
  filter_loop (a :: rest) names affs = Raise (classifier_error a).
Proof.
  destruct a; try reflexivity. cbn [classifiable classifier_error].
  cbn [filter_loop py_get bind].
  destruct (dict_get d "affiliation") as [v|]; [| discriminate].
  intros H. apply orb_false_iff in H. destruct H as [H1 H2].
  apply negb_false_iff in H1. rewrite H1.
  destruct v; try discriminate; reflexivity.
Qed.

Lemma filter_loop_classifiable (authors names affs : list pyval) :
  forallb classifiable authors = true ->
  filter_loop authors names affs =
  Ok (names ++ map name_or_unknown (filter non_academic authors),
      affs ++ map affiliation_or_empty (filter non_academic authors)).
Proof.
  revert names affs. induction authors as [|a rest IH]; intros names affs H.
  - simpl. now rewrite !app_nil_r.
  - cbn [forallb] in H. apply andb_true_iff in H. destruct H as [Ha Hrest].
    rewrite classifiable_step by exact Ha. cbn [filter].
    destruct (non_academic a).
    + rewrite IH by exact Hrest. cbn [map]. now rewrite <- !app_assoc.
    + now apply IH.
Qed.

Lemma filter_loop_app (before rest names affs : list pyval) :
  forallb classifiable before = true ->
  filter_loop (before ++ rest) names affs =
  filter_loop rest
    (names ++ map name_or_unknown (filter non_academic before))
    (affs ++ map affiliation_or_empty (filter non_academic before)).
Proof.
  revert names affs. induction before as [|a before IH]; intros names affs H.
  - simpl. now rewrite !app_nil_r.
  - cbn [forallb] in H. apply andb_true_iff in H. destruct H as [Ha Hrest].
    cbn [app]. rewrite classifiable_step by exact Ha. cbn [filter].
    destruct (non_academic a).
    + rewrite IH by exact Hrest. cbn [map]. now rewrite <- !app_assoc.
    + now apply IH.
Qed.

(** X7. [filter_non_academic_authors] returns exactly when every author is
    a dict whose affiliation is absent, falsy or text, and then its two
    lists are the names and affiliations of the non-academic authors,
    whatever the names and emails hold; at the first author that is not
    so it raises, AttributeError for an author that is not a dict and
    TypeError for an affiliation that is neither falsy nor text, and
    returns no partial lists. *)
Theorem filter_non_academic_authors_domain (authors : list pyval) :
  (forallb classifiable authors = true ->
   filter_non_academic_authors (PList authors) =
   Ok (map name_or_unknown (filter non_academic authors),
       map affiliation_or_empty (filter non_academic authors))) /\
  (forall before a after,
     authors = before ++ a :: after ->
     forallb classifiable before = true ->
     classifiable a = false ->
     filter_non_academic_authors (PList authors)
     = Raise (classifier_error a)).
Proof.
  unfold filter_non_academic_authors. cbn [py_iter bind]. split.
  - intros H. now rewrite filter_loop_classifiable.
  - intros before a after -> Hb Ha.
    rewrite filter_loop_app by exact Hb. now apply unclassifiable_step.
Qed.

Lemma filter_non_academic_authors_domain_witness :
  forallb classifiable Sample.authors_in_print = true /\
  filter_non_academic_authors (PList Sample.authors_in_print)
  = Ok ([PStr "Jane Doe"; PStr "Unknown"],
        [PStr "Pfizer Inc."; PStr "Acme Corp"]).
Proof.
  split; [reflexivity |].
  exact (proj1 (filter_non_academic_authors_domain Sample.authors_in_print)
           eq_refl).
Defined.

Lemma dict_has_email (a : pyval) :
  is_dict a = true -> py_contains a "email" = Ok (has_email a).
Proof.
  destruct a; try discriminate. reflexivity.
Qed.

(** X8. [extract_corresponding_email] stops at the first author that has
    an email field: when the authors before it are dicts without one, the
    result is that author's email whatever follows in the list, even
    values that are not author records. *)
Theorem extract_corresponding_email_stops_at_first
    (before : list pyval) (a : pyval) (e : pyval) (after : list pyval) :
  forallb is_dict before = true ->
  Forall (fun x => has_email x = false) before ->
  field_of a "email" = Some e ->
  extract_corresponding_email (PList (before ++ a :: after)) = Ok e.
Proof.
  intros Hd Hno He. unfold extract_corresponding_email. cbn [py_iter bind].
  induction Hno as [|x before Hx Hno IH]; cbn [app email_loop].
  - destruct a; try discriminate. cbn [py_contains field_of] in *.
    rewrite He. cbn [bind py_getitem]. now rewrite He.
  - cbn [forallb] in Hd. apply andb_true_iff in Hd. destruct Hd as [Hxd Hd].
    rewrite (dict_has_email x Hxd), Hx. cbn [bind]. now apply IH.
Qed.

Lemma extract_corresponding_email_stops_at_first_witness :
  forallb is_dict [Sample.john] = true /\
  extract_corresponding_email
    (PList ([Sample.john] ++ Sample.jane :: [PInt 7; PNone]))
  = Ok (PStr "jane@pfizer.com").
Proof.
  split; [reflexivity |].
  exact (@extract_corresponding_email_stops_at_first [Sample.john]
           Sample.jane (PStr "jane@pfizer.com") [PInt 7; PNone]
           eq_refl
           (Forall_cons Sample.john
              (eq_refl : has_email Sample.john = false) (Forall_nil _))
           eq_refl).
Defined.

End MoreParsing.

Section ParseFailures.

Lemma parse_loop_app (before rest : list (string * pyval))
    (papers : list record) :
  forallb (fun kv => String.eqb (fst kv) "uids" || details_object (snd kv))
          before = true ->
  parse_loop (before ++ rest) papers =
  parse_loop rest
    (papers ++ map row_of
       (filter (fun kv => negb (String.eqb (fst kv) "uids")) before)).
Proof.
  revert papers. induction before as [|[k v] before IH]; intros papers H.
  - simpl. now rewrite app_nil_r.
  - cbn [forallb fst snd] in H. apply andb_true_iff in H.
    destruct H as [Hkv Hrest]. cbn [app parse_loop filter fst].
    destruct (String.eqb k "uids"); cbn [negb].
    + now apply IH.
    + cbn [orb] in Hkv. rewrite (paper_row_spec k v Hkv). cbn [bind].
      rewrite IH by exact Hrest. cbn [map]. now rewrite <- app_assoc.
Qed.

(** The parse fails where the first row fails. *)
Lemma parse_fails_at (data : pyval) (before after : list (string * pyval))
    (k : string) (v : pyval) (e : exn) :
  result_items data = before ++ (k, v) :: after ->
  forallb (fun kv => String.eqb (fst kv) "uids" || details_object (snd kv))
          before = true ->
  String.eqb k "uids" = false ->
  paper_row k v = Raise e ->
  parse_paper_details data = Raise e.
Proof.
  intros Hitems Hbefore Hk Hrow. unfold result_items in Hitems.
  destruct data; try (now destruct before).
  destruct (dict_get d "result") as [[]|] eqn:E; try (now destruct before).
  unfold parse_paper_details. cbn [py_get bind]. rewrite E.
  cbn [py_items bind]. subst d0. rewrite parse_loop_app by exact Hbefore.
  cbn [parse_loop]. now rewrite Hk, Hrow.
Qed.

(** X9. One item of the result mapping that is not an object makes
    [parse_paper_details] raise AttributeError: the records of the items
    before it are not returned. *)
Theorem malformed_item_fails_parse (data : pyval)
    (before after : list (string * pyval)) (k : string) (v : pyval) :
  result_items data = before ++ (k, v) :: after ->
  forallb (fun kv => String.eqb (fst kv) "uids" || details_object (snd kv))
          before = true ->
  String.eqb k "uids" = false ->
  is_dict v = false ->
  parse_paper_details data = Raise AttributeError.
Proof.
  intros Hitems Hbefore Hk Hv.
  apply (@parse_fails_at data before after k v AttributeError Hitems Hbefore Hk).
  destruct v; try reflexivity. discriminate.
Qed.

Lemma malformed_item_fails_parse_witness :
  result_items Sample.broken_item_data
    = [ ("111", PDict [ ("title", PStr "Study A");
                        ("authors", PList [Sample.jane]) ]) ]
      ++ ("222", PStr "withdrawn") :: [] /\
  parse_paper_details Sample.broken_item_data = Raise AttributeError.
Proof.
  split; [reflexivity |].
  exact (@malformed_item_fails_parse Sample.broken_item_data
           [ ("111"%string, PDict [ ("title"%string, PStr "Study A");
                                    ("authors"%string, PList [Sample.jane]) ]) ]
           [] "222" (PStr "withdrawn") eq_refl eq_refl eq_refl eq_refl).
Defined.

Lemma classifiable_is_dict (authors : list pyval) :
  forallb classifiable authors = true -> forallb is_dict authors = true.
Proof.
  induction authors as [|a rest IH]; [reflexivity |].
  cbn [forallb]. rewrite !andb_true_iff. intros [Ha Hrest].
  split; [now destruct a | now apply IH].
Qed.

Lemma email_loop_dicts (authors : list pyval) :
  forallb is_dict authors = true ->
  email_loop authors = Ok (listed_email authors).
Proof.
  unfold listed_email. induction authors as [|a rest IH]; intros H.
  - reflexivity.
  - cbn [forallb] in H. apply andb_true_iff in H. destruct H as [Ha Hrest].
    cbn [email_loop find]. rewrite (dict_has_email a Ha). cbn [bind].
    destruct (has_email a) eqn:E; [| now apply IH].
    destruct a; try discriminate.
    unfold has_email, field_of in E. unfold field_or, field_of.
    cbn [py_getitem]. now destruct (dict_get d "email").
Qed.

(** X10. A non-academic author whose name is not text (a null, a number)
    makes [parse_paper_details] raise TypeError when the names are
    joined, although the classifier took the author list: no record is
    returned for any paper. *)
Theorem non_text_name_fails_parse (data : pyval)
    (before after : list (string * pyval)) (k : string)
    (d : list (string * pyval)) (authors : list pyval) :
  result_items data = before ++ (k, PDict d) :: after ->
  forallb (fun kv => String.eqb (fst kv) "uids" || details_object (snd kv))
          before = true ->
  String.eqb k "uids" = false ->
  dict_get d "authors" = Some (PList authors) ->
  forallb classifiable authors = true ->
  Exists (fun a => non_academic a = true /\
                   is_text (name_or_unknown a) = false) authors ->
  parse_paper_details data = Raise TypeError.
Proof.
  intros Hitems Hbefore Hk Hauthors Hcl Hbad.
  apply (@parse_fails_at data before after k (PDict d) TypeError
           Hitems Hbefore Hk).
  unfold paper_row. cbn [py_get bind]. rewrite Hauthors.
  unfold filter_non_academic_authors. cbn [py_iter bind].
  rewrite (filter_loop_classifiable _ [] [] Hcl). cbn [bind app].
  unfold extract_corresponding_email. cbn [py_iter bind].
  rewrite (email_loop_dicts _ (classifiable_is_dict _ Hcl)). cbn [bind].
  unfold py_join. cbn [py_iter bind].
  rewrite all_str_non_text; [reflexivity |].
  apply Exists_exists in Hbad. destruct Hbad as [a [Hin [Hna Hname]]].
  apply Exists_exists. exists (name_or_unknown a). split; [| exact Hname].
  apply in_map, filter_In. now split.
Qed.

Lemma non_text_name_fails_parse_witness :
  forallb classifiable [Sample.john; Sample.nameless] = true /\
  non_academic Sample.nameless = true /\
  parse_paper_details Sample.null_name_data = Raise TypeError.
Proof.
  split; [reflexivity | split; [reflexivity |]].
  apply (@non_text_name_fails_parse Sample.null_name_data [] [] "111"
           [ ("title"%string, PStr "Study A");
             ("authors"%string, PList [Sample.john; Sample.nameless]) ]
           [Sample.john; Sample.nameless]
           eq_refl eq_refl eq_refl eq_refl eq_refl).
  apply Exists_cons_tl, Exists_cons_hd. split; reflexivity.
Defined.

End ParseFailures.

(* ================================================================== *)
(** ** What the functions leave alone *)

Section Footprints.

Variable net : list request -> request -> get_outcome.
Variable py_str : pyval -> string.

Section Keeping.

Variable R : world -> world -> Prop.
Hypothesis R_refl : forall w, R w w.
Hypothesis R_trans : forall w1 w2 w3, R w1 w2 -> R w2 w3 -> R w1 w3.

Lemma keeps_ret {A : Type} (a : A) : keeps R (ret a).
Proof. intros w. apply R_refl. Qed.

Lemma keeps_lift {A : Type} (r : result A) : keeps R (lift r).
Proof. intros w. apply R_refl. Qed.

Lemma keeps_bind {A B : Type} (m : M A) (k : A -> M B) :
  keeps R m -> (forall a, keeps R (k a)) -> keeps R (bindM m k).
Proof.
  intros Hm Hk w. unfold bindM. specialize (Hm w).
  destruct (m w) as [[a|e] w1]; cbn [snd] in *; [| exact Hm].
  exact (R_trans Hm (Hk a w1)).
Qed.

Lemma keeps_try {A : Type} (body : M A) (handler : exn -> M A) :
  keeps R body -> (forall e, keeps R (handler e)) ->
  keeps R (try_except_RequestException body handler).
Proof.
  intros Hb Hh w. unfold try_except_RequestException. specialize (Hb w).
  destruct (body w) as [[a|e] w1]; cbn [snd] in *; [exact Hb |].
  destruct (is_RequestException e); [| exact Hb].
  exact (R_trans Hb (Hh e w1)).
Qed.

End Keeping.

Lemma same_outputs_refl (w : world) : same_outputs w w.
Proof. repeat split. Qed.

Lemma same_outputs_trans (w1 w2 w3 : world) :
  same_outputs w1 w2 -> same_outputs w2 w3 -> same_outputs w1 w3.
Proof.
  intros [A1 [A2 [A3 A4]]] [B1 [B2 [B3 B4]]].
  repeat split; congruence.
Qed.

Lemma requests_get_outputs (u : string) (ps : list (string * pyval)) :
  keeps same_outputs (requests_get net u ps).
Proof.
  intros w. unfold requests_get. destruct (net _ _); repeat split.
Qed.

Lemma logger_log_outputs (l : level) (msg : string) (e : option exn) :
  keeps same_outputs (logger_log l msg e).
Proof.
  intros w. unfold logger_log.
  destruct (levelno (logger_level w) <=? levelno l)%Z; repeat split.
Qed.

Lemma handler_outputs (msg : string) (e : exn) :
  keeps same_outputs (logger_error msg e ;;; ret (@nil record)).
Proof.
  apply (@keeps_bind same_outputs same_outputs_trans); [apply logger_log_outputs |].
  intros _. apply (@keeps_ret same_outputs same_outputs_refl).
Qed.

Lemma fetch_paper_details_outputs (paper_ids : pyval) :
  keeps same_outputs (fetch_paper_details net paper_ids).
Proof.
  unfold fetch_paper_details.
  apply (@keeps_bind same_outputs same_outputs_trans);
    [apply (@keeps_lift same_outputs same_outputs_refl) | intros ids].
  apply (@keeps_try same_outputs same_outputs_trans); [| intros e; apply handler_outputs].
  apply (@keeps_bind same_outputs same_outputs_trans);
    [apply requests_get_outputs | intros r].
  apply (@keeps_bind same_outputs same_outputs_trans);
    [apply (@keeps_lift same_outputs same_outputs_refl) | intros _].
  apply (@keeps_bind same_outputs same_outputs_trans);
    [apply (@keeps_lift same_outputs same_outputs_refl) | intros data].
  apply (@keeps_lift same_outputs same_outputs_refl).
Qed.

Lemma fetch_pubmed_papers_outputs (query : string) (retmax : Z) :
  keeps same_outputs (fetch_pubmed_papers net query retmax).
Proof.
  unfold fetch_pubmed_papers, fetch_pubmed_papers_calling.
  apply (@keeps_try same_outputs same_outputs_trans);
    [| intros e; apply handler_outputs].
  apply (@keeps_bind same_outputs same_outputs_trans);
    [apply requests_get_outputs | intros r].
  apply (@keeps_bind same_outputs same_outputs_trans);
    [apply (@keeps_lift same_outputs same_outputs_refl) | intros _].
  apply (@keeps_bind same_outputs same_outputs_trans);
    [apply (@keeps_lift same_outputs same_outputs_refl) | intros data].
  apply (@keeps_bind same_outputs same_outputs_trans);
    [apply (@keeps_lift same_outputs same_outputs_refl) | intros es].
  apply (@keeps_bind same_outputs same_outputs_trans);
    [apply (@keeps_lift same_outputs same_outputs_refl) | intros ids].
  destruct (truthy ids);
    [apply fetch_paper_details_outputs
    | apply (@keeps_ret same_outputs same_outputs_refl)].
Qed.

(** X11. Whatever the network answers, [fetch_pubmed_papers] and
    [fetch_paper_details] print nothing, write no file and leave the
    logger level as it was: all they change is the list of requests made
    and the log. *)
Theorem fetch_leaves_outputs_alone (paper_ids : pyval) (query : string)
    (retmax : Z) (w : world) :
  same_outputs w (snd (fetch_paper_details net paper_ids w)) /\
  same_outputs w (snd (fetch_pubmed_papers net query retmax w)).
Proof.
  split; [apply fetch_paper_details_outputs | apply fetch_pubmed_papers_outputs].
Qed.

Lemma try_except_requests (body : M (list record)) (msg : string)
    (w : world) :
  requests_made
    (snd (try_except_RequestException body
            (fun e => logger_error msg e ;;; ret []) w))
  = requests_made (snd (body w)).
Proof.
  unfold try_except_RequestException.
  destruct (body w) as [[a|e] w1]; cbn [snd]; [reflexivity |].
  destruct (is_RequestException e); [| reflexivity].
  unfold bindM, ret.
  destruct (logger_error_requests msg e w1) as [_ [E _]].
  destruct (logger_error msg e w1) as [[[]|e'] w2]; exact E.
Qed.

Lemma fetch_paper_details_requests (paper_ids : pyval) (w : world) :
  requests_made (snd (fetch_paper_details net paper_ids w)) = requests_made w
  \/ exists ids,
       requests_made (snd (fetch_paper_details net paper_ids w))
       = requests_made w ++ [details_request ids].
Proof.
  destruct (py_join "," paper_ids) as [ids|e] eqn:E.
  2: { left. unfold fetch_paper_details. unfold bindM at 1. unfold lift at 1.
       now rewrite E. }
  right. exists ids.
  unfold fetch_paper_details. unfold bindM at 1. unfold lift at 1.
  rewrite E. rewrite try_except_requests.
  unfold bindM, requests_get, lift.
  destruct (net (requests_made w) _) as [r|t]; [| reflexivity].
  destruct (raise_for_status r); [| reflexivity].
  destruct (response_json r); reflexivity.
Qed.


Lemma file_read_set_other (fs : list (string * string))
    (name other content : string) :
  other <> name ->
  file_read (file_set fs name content) other = file_read fs other.
Proof.
  intros Hne. induction fs as [|[n c] fs IH]; cbn [file_set file_read].
  - apply String.eqb_neq in Hne. rewrite String.eqb_sym in Hne.
    now rewrite Hne.
  - destruct (String.eqb n name) eqn:E; cbn [file_read].
    + apply String.eqb_eq in E. subst n.
      apply String.eqb_neq in Hne. rewrite String.eqb_sym in Hne.
      now rewrite Hne.
    + now rewrite IH.
Qed.

Lemma only_file_changed_refl (name : string) (w : world) :
  only_file_changed name w w.
Proof. repeat split. Qed.

Lemma only_file_changed_trans (name : string) (w1 w2 w3 : world) :
  only_file_changed name w1 w2 -> only_file_changed name w2 w3 ->
  only_file_changed name w1 w3.
Proof.
  intros [A1 [A2 [A3 [A4 [A5 A6]]]]] [B1 [B2 [B3 [B4 [B5 B6]]]]].
  repeat split; try congruence.
  intros other Hne. now rewrite (B6 other Hne), (A6 other Hne).
Qed.

Lemma open_w_only_file (name : string) :
  keeps (only_file_changed name) (open_w name).
Proof.
  intros w. unfold open_w. destruct (writable w name); repeat split.
  intros other Hne. cbn [snd files with_files].
  now apply file_read_set_other.
Qed.

Lemma file_write_only_file (name text : string) :
  keeps (only_file_changed name) (file_write name text).
Proof.
  intros w. unfold file_write.
  destruct (utf8_encodable text); [| apply only_file_changed_refl].
  repeat split.
  intros other Hne. cbn [snd files with_files].
  now apply file_read_set_other.
Qed.

Lemma DictWriter_writerow_only_file (name : string)
    (fieldnames : list string) (rowdict : record) :
  keeps (only_file_changed name)
        (Csv.DictWriter_writerow py_str name fieldnames rowdict).
Proof.
  unfold Csv.DictWriter_writerow, Csv.writer_writerow.
  apply (@keeps_bind (only_file_changed name)
           (@only_file_changed_trans name)).
  - apply (@keeps_lift (only_file_changed name)
             (only_file_changed_refl name)).
  - intros row. apply file_write_only_file.
Qed.

Lemma DictWriter_writerows_only_file (name : string)
    (fieldnames : list string) (rowdicts : list record) :
  keeps (only_file_changed name)
        (Csv.DictWriter_writerows py_str name fieldnames rowdicts).
Proof.
  induction rowdicts as [|r rest IH]; cbn [Csv.DictWriter_writerows].
  - apply (@keeps_ret (only_file_changed name)
             (only_file_changed_refl name)).
  - apply (@keeps_bind (only_file_changed name)
             (@only_file_changed_trans name));
      [apply DictWriter_writerow_only_file | intros _; exact IH].
Qed.

Lemma save_to_csv_only_file (papers : list record) (filename : string) :
  keeps (only_file_changed filename) (save_to_csv py_str papers filename).
Proof.
  unfold save_to_csv.
  apply (@keeps_bind (only_file_changed filename)
           (@only_file_changed_trans filename));
    [apply open_w_only_file | intros _].
  apply (@keeps_bind (only_file_changed filename)
           (@only_file_changed_trans filename));
    [apply (@keeps_lift (only_file_changed filename)
              (only_file_changed_refl filename)) | intros first].
  apply (@keeps_bind (only_file_changed filename)
           (@only_file_changed_trans filename));
    [apply DictWriter_writerow_only_file | intros _].
  apply DictWriter_writerows_only_file.
Qed.

(** X13. Whatever records it is given and however it ends,
    [save_to_csv] changes nothing but the file it is asked to write: it
    makes no request, prints nothing, logs nothing, and every other file
    keeps its content. *)
Theorem save_to_csv_touches_one_file (papers : list record)
    (filename : string) (w : world) :
  only_file_changed filename w
    (snd (save_to_csv py_str papers filename w)).
Proof.
  apply save_to_csv_only_file.
Qed.

End Footprints.

(* ================================================================== *)
(** ** More about [main] *)

Section MoreMain.

Variable net : list request -> request -> get_outcome.
Variable py_str : pyval -> string.

Lemma main_started (args : Namespace) (w : world) :
  (if debug args then logger_setLevel DEBUG else ret tt) w
  = (Ok tt, started args w).
Proof.
  unfold started. now destruct (debug args).
Qed.

Lemma started_fields (args : Namespace) (w : world) :
  requests_made (started args w) = requests_made w /\
  stdout (started args w) = stdout w /\
  files (started args w) = files w /\
  writable (started args w) = writable w /\
  logged (started args w) = logged w.
Proof.
  unfold started. destruct (debug args); repeat split.
Qed.

Lemma print_all_prints (papers : list record) (w : world) :
  exists w',
    print_all papers w = (Ok tt, w') /\
    stdout w' = stdout w ++ papers /\
    files w' = files w /\ requests_made w' = requests_made w /\
    logged w' = logged w.
Proof.
  revert w. induction papers as [|p rest IH]; intros w.
  - exists w. rewrite app_nil_r. repeat split.
  - cbn [print_all]. unfold bindM, print.
    destruct (IH (with_stdout w (stdout w ++ [p])))
      as [w' [E1 [E2 [E3 [E4 E5]]]]].
    exists w'. rewrite E1, E2, E3, E4, E5.
    cbn [stdout files requests_made logged with_stdout].
    rewrite <- app_assoc. repeat split.
Qed.

(** X14. Without a file destination, or with the empty string as one,
    [main] prints the records [fetch_pubmed_papers] returned, each once
    and in order, and writes no file; an exception of the fetch leaves
    [main] as it is. *)
Theorem main_console_mode (args : Namespace) (w : world) :
  file args = None \/ file args = Some ""%string ->
  (forall papers w1,
     fetch_pubmed_papers net (query args) 20 (started args w)
       = (Ok papers, w1) ->
     exists w',
       main net py_str args w = (Ok tt, w') /\
       stdout w' = stdout w ++ papers /\
       files w' = files w /\
       requests_made w' = requests_made w1 /\ logged w' = logged w1) /\
  (forall e w1,
     fetch_pubmed_papers net (query args) 20 (started args w)
       = (Raise e, w1) ->
     main net py_str args w = (Raise e, w1)).
Proof.
  intros Hfile. split.
  - intros papers w1 Hfetch.
    pose proof (fetch_pubmed_papers_outputs net (query args) 20
                  (started args w)) as [S1 [S2 _]].
    rewrite Hfetch in S1, S2. cbn [snd] in S1, S2.
    destruct (started_fields args w) as [_ [T1 [T2 _]]].
    destruct (print_all_prints papers w1) as [w' [E1 [E2 [E3 [E4 E5]]]]].
    exists w'. unfold main. unfold bindM at 1. rewrite main_started.
    unfold bindM at 1. rewrite Hfetch.
    split; [| repeat split; congruence].
    destruct Hfile as [-> | ->]; cbn [String.eqb negb]; exact E1.
  - intros e w1 Hfetch. unfold main. unfold bindM at 1.
    rewrite main_started. unfold bindM at 1. now rewrite Hfetch.
Qed.

(** The records a fetch returns have the six columns as keys. *)
Lemma fetch_paper_details_keys (paper_ids : pyval) (w w1 : world)
    (papers : list record) :
  fetch_paper_details net paper_ids w = (Ok papers, w1) ->
  Forall (fun r => dict_keys r = columns) papers.
Proof.
  unfold fetch_paper_details. unfold bindM at 1. unfold lift at 1.
  destruct (py_join "," paper_ids) as [ids|e]; [| discriminate].
  unfold try_except_RequestException, bindM, requests_get, lift, ret.
  assert (Raised : forall (e : exn) w0,
            (if is_RequestException e
             then (let (r, w') :=
                     logger_error "Error fetching paper details: " e w0 in
                   match r with
                   | Ok _ => (Ok (@nil record), w')
                   | Raise e' => (Raise e', w')
                   end)
             else (Raise e, w0)) = (Ok papers, w1) ->
            Forall (fun r => dict_keys r = columns) papers).
  { intros e w0. destruct (is_RequestException e); [| discriminate].
    destruct (logger_error _ e w0) as [[[]|] ?]; cbv beta iota;
      [| discriminate].
    intros H. injection H as <- _. constructor. }
  destruct (net (requests_made w) _) as [r|t]; [| apply Raised].
  destruct (raise_for_status r); [| apply Raised].
  destruct (response_json r) as [data|]; [| apply Raised].
  destruct (parse_paper_details data) as [ps|e] eqn:E; [| apply Raised].
  intros H. injection H as <- _. exact (parse_paper_details_keys data E).
Qed.

Lemma fetch_pubmed_papers_keys (query : string) (retmax : Z) (w w1 : world)
    (papers : list record) :
  fetch_pubmed_papers net query retmax w = (Ok papers, w1) ->
  Forall (fun r => dict_keys r = columns) papers.
Proof.
  unfold fetch_pubmed_papers, fetch_pubmed_papers_calling.
  unfold try_except_RequestException, bindM, requests_get, lift, ret.
  assert (Handled : forall msg e w0,
            (let (r, w') := logger_error msg e w0 in
             match r with
             | Ok _ => (Ok (@nil record), w')
             | Raise e' => (Raise e', w')
             end) = (Ok papers, w1) ->
            Forall (fun r => dict_keys r = columns) papers).
  { intros msg e w0.
    destruct (logger_error msg e w0) as [[[]|] ?]; cbv beta iota;
      [| discriminate].
    intros H. injection H as <- _. constructor. }
  assert (Raised : forall (e : exn) w0,
            (if is_RequestException e
             then (let (r, w') :=
                     logger_error "Error fetching papers: " e w0 in
                   match r with
                   | Ok _ => (Ok (@nil record), w')
                   | Raise e' => (Raise e', w')
                   end)
             else (Raise e, w0)) = (Ok papers, w1) ->
            Forall (fun r => dict_keys r = columns) papers).
  { intros e w0. destruct (is_RequestException e); [apply Handled |].
    discriminate. }
  destruct (net (requests_made w) _) as [r|t]; [| apply Raised].
  destruct (raise_for_status r); [| apply Raised].
  destruct (response_json r) as [data|]; [| apply Raised].
  destruct (py_get data "esearchresult" (PDict [])) as [es|]; [| apply Raised].
  destruct (py_get es "idlist" (PList [])) as [ids|]; [| apply Raised].
  destruct (truthy ids).
  - destruct (fetch_paper_details net ids _) as [[ps|e] w2] eqn:E;
      [| apply Raised].
    intros H. injection H as <- _. exact (fetch_paper_details_keys _ _ E).
  - intros H. injection H as <- _. constructor.
Qed.

(** X15. With a file destination, when the fetch returns at least one
    record, UTF-8 can encode the texts of the records and the file can be
    opened, [main] ends normally: the file holds the header line and
    after it one line per record, in order, nothing is printed, no
    further request is made, and with the logger at INFO or below the
    last thing logged is "Results saved to" with the file name. *)
Theorem main_file_mode (args : Namespace) (w : world) (f : string)
    (papers : list record) (w1 : world) :
  file args = Some f -> f <> ""%string ->
  fetch_pubmed_papers net (query args) 20 (started args w)
    = (Ok papers, w1) ->
  papers <> [] ->
  Forall (fun r => encodable py_str r = true) papers ->
  writable w f = true ->
  exists w' body,
    main net py_str args w = (Ok tt, w') /\
    file_read (files w') f
      = Some ("PubmedID,Title,Publication Date,Non-academic Author(s),Company Affiliation(s),Corresponding Author Email"
              ++ line_end ++ body)%string /\
    lines_of (map (row_texts py_str) papers) body /\
    stdout w' = stdout w /\
    requests_made w' = requests_made w1 /\
    ((levelno (logger_level (started args w)) <= 20)%Z ->
     logged w' = logged w1 ++
       [ {| log_level := INFO; log_msg := ("Results saved to " ++ f)%string;
            log_exc := None |} ]).
Proof.
  intros Hfile Hf Hfetch Hne Henc Hw.
  pose proof (fetch_pubmed_papers_keys _ _ _ Hfetch) as Hkeys.
  pose proof (fetch_pubmed_papers_outputs net (query args) 20
                (started args w)) as [S1 [_ [S3 S4]]].
  rewrite Hfetch in S1, S3, S4. cbn [snd] in S1, S3, S4.
  destruct (started_fields args w) as [_ [T1 [_ [T3 _]]]].
  assert (Hw1 : writable w1 f = true) by now rewrite S3, T3.
  destruct (@save_to_csv_report py_str papers f w1 Hne Hkeys Henc Hw1)
    as [w2 [body [E1 [E2 E3]]]].
  unfold header_line in E2. rewrite append_assoc in E2.
  pose proof (save_to_csv_only_file py_str papers f w1)
    as [O1 [O2 [O3 [O4 _]]]].
  rewrite E1 in O1, O2, O3, O4. cbn [snd] in O1, O2, O3, O4.
  unfold main. unfold bindM at 1. rewrite main_started.
  unfold bindM at 1. rewrite Hfetch, Hfile.
  apply String.eqb_neq in Hf. rewrite Hf. cbn [negb].
  unfold bindM. rewrite E1. unfold logger_info, logger_log.
  rewrite O4, S4.
  destruct (levelno (logger_level (started args w)) <=? levelno INFO)%Z
    eqn:L; eexists; exists body; (split; [reflexivity |]);
    cbn [files stdout requests_made logged with_logged];
    (split; [exact E2 |]); (split; [exact E3 |]); (split; [congruence |]);
    (split; [exact O1 |]).
  - intros _. now rewrite O3.
  - intros Hl. apply Z.leb_le in Hl. cbn [levelno] in L. congruence.
Qed.

(** X16. With a file destination, when the fetch returns no record, for
    whatever reason (nothing found, a failed call), and the file can be
    opened, [main] ends with the IndexError of [save_to_csv] and leaves
    the file empty: what the file held before is lost. *)
Theorem main_file_mode_no_records (args : Namespace) (w : world)
    (f : string) (w1 : world) :
  file args = Some f -> f <> ""%string ->
  fetch_pubmed_papers net (query args) 20 (started args w) = (Ok [], w1) ->
  writable w f = true ->
  exists w',
    main net py_str args w = (Raise IndexError, w') /\
    file_read (files w') f = Some ""%string /\
    stdout w' = stdout w.
Proof.
  intros Hfile Hf Hfetch Hw.
  pose proof (fetch_pubmed_papers_outputs net (query args) 20
                (started args w)) as [S1 [_ [S3 _]]].
  rewrite Hfetch in S1, S3. cbn [snd] in S1, S3.
  destruct (started_fields args w) as [_ [T1 [_ [T3 _]]]].
  unfold main. unfold bindM at 1. rewrite main_started.
  unfold bindM at 1. rewrite Hfetch, Hfile.
  apply String.eqb_neq in Hf. rewrite Hf. cbn [negb].
  unfold bindM. rewrite save_to_csv_empty. rewrite S3, T3, Hw.
  eexists. split; [reflexivity |]. cbn [files stdout with_files]. split.
  - apply file_read_set.
  - congruence.
Qed.

End MoreMain.

Lemma main_console_mode_witness :
  file Sample.args_console = None /\
  exists w',
    main Sample.net_scenario Sample.plain_str Sample.args_console
      Sample.world0 = (Ok tt, w') /\
    stdout w' = map row_of (paper_items Sample.details_data).
Proof.
  split; [reflexivity |].
  destruct (proj1 (@main_console_mode Sample.net_scenario Sample.plain_str
                     Sample.args_console Sample.world0 (or_introl eq_refl))
              (map row_of (paper_items Sample.details_data))
              (snd (fetch_pubmed_papers Sample.net_scenario
                      "cancer immunotherapy" 20 Sample.world0))
              eq_refl) as [w' [E1 [E2 _]]].
  exists w'. split; [exact E1 | exact E2].
Defined.

Lemma main_file_mode_witness :
  file Sample.args_file = Some "out.csv"%string /\
  exists w',
    main Sample.net_scenario Sample.plain_str Sample.args_file
      Sample.world0 = (Ok tt, w') /\
    file_read (files w') "out.csv"
      = Some ("PubmedID,Title,Publication Date,Non-academic Author(s),Company Affiliation(s),Corresponding Author Email"
              ++ line_end ++
              "111,Study A,2023,Jane Doe,Pfizer Inc.,jane@pfizer.com"
              ++ line_end ++
              "222,Study B,2022,,,N/A" ++ line_end)%string /\
    stdout w' = [].
Proof.
  split; [reflexivity |].
  destruct (@main_file_mode Sample.net_scenario Sample.plain_str
              Sample.args_file Sample.world0 "out.csv"
              (map row_of (paper_items Sample.details_data))
              (snd (fetch_pubmed_papers Sample.net_scenario
                      "cancer immunotherapy" 20 Sample.world0))
              eq_refl ltac:(discriminate) eq_refl ltac:(discriminate)
              ltac:(repeat constructor) eq_refl)
    as [w' [body [E1 [_ [_ [E3 _]]]]]].
  exists w'. split; [exact E1 | split; [| exact E3]].
  assert (E : snd (main Sample.net_scenario Sample.plain_str
                     Sample.args_file Sample.world0) = w')
    by now rewrite E1.
  rewrite <- E. reflexivity.
Defined.

Lemma main_file_mode_no_records_witness :
  fst (fetch_pubmed_papers Sample.net_nothing "cancer immunotherapy" 20
         Sample.world0) = Ok [] /\
  exists w',
    main Sample.net_nothing Sample.plain_str Sample.args_file Sample.world0
      = (Raise IndexError, w') /\
    file_read (files w') "out.csv" = Some ""%string.
Proof.
  split; [reflexivity |].
  destruct (@main_file_mode_no_records Sample.net_nothing Sample.plain_str
              Sample.args_file Sample.world0 "out.csv"
              (snd (fetch_pubmed_papers Sample.net_nothing
                      "cancer immunotherapy" 20 Sample.world0))
              eq_refl ltac:(discriminate) eq_refl eq_refl)
    as [w' [E1 [E2 _]]].
  exists w'. split; [exact E1 | exact E2].
Defined.

(* ================================================================== *)
(** ** The debug flag *)

Section DebugFlag.

Variable net : list request -> request -> get_outcome.
Variable py_str : pyval -> string.

Lemma level_blind_ret {A : Type} (a : A) : level_blind (ret a).
Proof. intros w1 w2 H. now split. Qed.

Lemma level_blind_lift {A : Type} (r : result A) : level_blind (lift r).
Proof. intros w1 w2 H. now split. Qed.

Lemma level_blind_bind {A B : Type} (m : M A) (k : A -> M B) :
  level_blind m -> (forall a, level_blind (k a)) ->
  level_blind (bindM m k).
Proof.
  intros Hm Hk w1 w2 H. unfold bindM. destruct (Hm w1 w2 H) as [E1 E2].
  destruct (m w1) as [[a1|e1] u1], (m w2) as [[a2|e2] u2];
    cbn [fst snd] in *; try discriminate.
  - injection E1 as ->. now apply Hk.
  - injection E1 as ->. split; [reflexivity | assumption].
Qed.

Lemma level_blind_try {A : Type} (body : M A) (handler : exn -> M A) :
  level_blind body -> (forall e, level_blind (handler e)) ->
  level_blind (try_except_RequestException body handler).
Proof.
  intros Hb Hh w1 w2 H. unfold try_except_RequestException.
  destruct (Hb w1 w2 H) as [E1 E2].
  destruct (body w1) as [[a1|e1] u1], (body w2) as [[a2|e2] u2];
    cbn [fst snd] in *; try discriminate.
  - split; assumption.
  - injection E1 as ->. destruct (is_RequestException e2).
    + now apply Hh.
    + split; [reflexivity | assumption].
Qed.

Lemma level_blind_requests_get (u : string) (ps : list (string * pyval)) :
  level_blind (requests_get net u ps).
Proof.
  intros w1 w2 [H1 [H2 [H3 [H4 [H5 [H6 H7]]]]]]. unfold requests_get.
  rewrite H1. destruct (net _ _); cbn [fst snd]; split; trivial;
    repeat split; cbn [sent with_requests requests_made logged stdout
      writable files logger_level]; congruence.
Qed.

(** a record at INFO or above is kept by both loggers *)
Lemma level_blind_logger_log (l : level) (msg : string) (e : option exn) :
  (20 <= levelno l)%Z -> level_blind (logger_log l msg e).
Proof.
  intros Hl w1 w2 [H1 [H2 [H3 [H4 [H5 [H6 H7]]]]]]. unfold logger_log.
  assert (L1 : (levelno (logger_level w1) <=? levelno l)%Z = true)
    by (apply Z.leb_le; eapply Z.le_trans; eassumption).
  assert (L2 : (levelno (logger_level w2) <=? levelno l)%Z = true)
    by (apply Z.leb_le; eapply Z.le_trans; eassumption).
  rewrite L1, L2. cbn [fst snd]. split; trivial.
  repeat split; cbn [with_logged requests_made logged stdout writable files
    logger_level]; congruence.
Qed.

Lemma level_blind_print (paper : record) : level_blind (print paper).
Proof.
  intros w1 w2 [H1 [H2 [H3 [H4 [H5 [H6 H7]]]]]]. unfold print.
  cbn [fst snd]. split; trivial.
  repeat split; cbn [with_stdout requests_made logged stdout writable files
    logger_level]; congruence.
Qed.

Lemma level_blind_open_w (name : string) : level_blind (open_w name).
Proof.
  intros w1 w2 [H1 [H2 [H3 [H4 [H5 [H6 H7]]]]]]. unfold open_w.
  rewrite H4, H5. destruct (writable w2 name); cbn [fst snd]; split; trivial;
    repeat split; cbn [with_files requests_made logged stdout writable files
      logger_level]; congruence.
Qed.

Lemma level_blind_file_write (name text : string) :
  level_blind (file_write name text).
Proof.
  intros w1 w2 [H1 [H2 [H3 [H4 [H5 [H6 H7]]]]]]. unfold file_write.
  rewrite H5. destruct (utf8_encodable text); cbn [fst snd]; split; trivial;
    repeat split; cbn [with_files requests_made logged stdout writable files
      logger_level]; congruence.
Qed.

Lemma level_blind_handler (msg : string) (e : exn) :
  level_blind (logger_error msg e ;;; ret (@nil record)).
Proof.
  apply level_blind_bind.
  - apply level_blind_logger_log. cbn. discriminate.
  - intros _. apply level_blind_ret.
Qed.

Lemma level_blind_fetch_paper_details (paper_ids : pyval) :
  level_blind (fetch_paper_details net paper_ids).
Proof.
  unfold fetch_paper_details.
  apply level_blind_bind; [apply level_blind_lift | intros ids].
  apply level_blind_try; [| intros e; apply level_blind_handler].
  apply level_blind_bind; [apply level_blind_requests_get | intros r].
  apply level_blind_bind; [apply level_blind_lift | intros _].
  apply level_blind_bind; [apply level_blind_lift | intros data].
  apply level_blind_lift.
Qed.

Lemma level_blind_fetch_pubmed_papers (query : string) (retmax : Z) :
  level_blind (fetch_pubmed_papers net query retmax).
Proof.
  unfold fetch_pubmed_papers, fetch_pubmed_papers_calling.
  apply level_blind_try; [| intros e; apply level_blind_handler].
  apply level_blind_bind; [apply level_blind_requests_get | intros r].
  apply level_blind_bind; [apply level_blind_lift | intros _].
  apply level_blind_bind; [apply level_blind_lift | intros data].
  apply level_blind_bind; [apply level_blind_lift | intros es].
  apply level_blind_bind; [apply level_blind_lift | intros ids].
  destruct (truthy ids);
    [apply level_blind_fetch_paper_details | apply level_blind_ret].
Qed.

Lemma level_blind_writerow (name : string) (fieldnames : list string)
    (rowdict : record) :
  level_blind (Csv.DictWriter_writerow py_str name fieldnames rowdict).
Proof.
  unfold Csv.DictWriter_writerow, Csv.writer_writerow.
  apply level_blind_bind; [apply level_blind_lift | intros row].
  apply level_blind_file_write.
Qed.

Lemma level_blind_save_to_csv (papers : list record) (filename : string) :
  level_blind (save_to_csv py_str papers filename).
Proof.
  unfold save_to_csv.
  apply level_blind_bind; [apply level_blind_open_w | intros _].
  apply level_blind_bind; [apply level_blind_lift | intros first].
  apply level_blind_bind; [apply level_blind_writerow | intros _].
  induction papers as [|r rest IH]; cbn [Csv.DictWriter_writerows].
  - apply level_blind_ret.
  - apply level_blind_bind; [apply level_blind_writerow | intros _; exact IH].
Qed.

Lemma level_blind_print_all (papers : list record) :
  level_blind (print_all papers).
Proof.
  induction papers as [|p rest IH]; cbn [print_all].
  - apply level_blind_ret.
  - apply level_blind_bind; [apply level_blind_print | intros _; exact IH].
Qed.

(** X17. The debug flag changes nothing that can be observed: from a
    world whose logger lets INFO through, as [basicConfig] sets it, two
    runs of [main] that differ in the flag only end with the same result
    or exception, the same requests, the same log, the same console
    output and the same files. *)
Theorem debug_flag_changes_no_output (args args' : Namespace) (w : world) :
  query args = query args' ->
  file args = file args' ->
  (levelno (logger_level w) <= 20)%Z ->
  fst (main net py_str args w) = fst (main net py_str args' w) /\
  requests_made (snd (main net py_str args w))
    = requests_made (snd (main net py_str args' w)) /\
  logged (snd (main net py_str args w))
    = logged (snd (main net py_str args' w)) /\
  stdout (snd (main net py_str args w))
    = stdout (snd (main net py_str args' w)) /\
  files (snd (main net py_str args w))
    = files (snd (main net py_str args' w)).
Proof.
  intros Hq Hf Hl.
  assert (Hstart : agree_but_level (started args w) (started args' w)).
  { unfold started.
    destruct (debug args), (debug args'); repeat split; trivial;
      cbn; try discriminate. }
  assert (Hrest : level_blind
            (papers <~ fetch_pubmed_papers net (query args') 20 ;;
             match file args' with
             | Some f =>
                 if negb (String.eqb f "") then
                   save_to_csv py_str papers f ;;;
                   logger_info ("Results saved to " ++ f)
                 else print_all papers
             | None => print_all papers
             end)).
  { apply level_blind_bind;
      [apply level_blind_fetch_pubmed_papers | intros papers].
    destruct (file args') as [f|]; [| apply level_blind_print_all].
    destruct (negb (String.eqb f "")); [| apply level_blind_print_all].
    apply level_blind_bind; [apply level_blind_save_to_csv | intros _].
    apply level_blind_logger_log. cbn. discriminate. }
  destruct (Hrest _ _ Hstart) as [E1 [E2 [E3 [E4 [_ [E5 _]]]]]].
  assert (Hmain : forall a,
            main net py_str a w =
            (papers <~ fetch_pubmed_papers net (query a) 20 ;;
             match file a with
             | Some f =>
                 if negb (String.eqb f "") then
                   save_to_csv py_str papers f ;;;
                   logger_info ("Results saved to " ++ f)
                 else print_all papers
             | None => print_all papers
             end) (started a w)).
  { intros a. unfold main. unfold bindM at 1. now rewrite main_started. }
  rewrite (Hmain args), (Hmain args'), Hq, Hf. repeat split; assumption.
Qed.

End DebugFlag.

Lemma debug_flag_changes_no_output_witness :
  (levelno (logger_level Sample.world0) <= 20)%Z /\
  fst (main Sample.net_scenario Sample.plain_str
         {| query := "cancer immunotherapy"; file := None; debug := true |}
         Sample.world0)
  = fst (main Sample.net_scenario Sample.plain_str Sample.args_console
           Sample.world0).
Proof.
  assert (H : (levelno (logger_level Sample.world0) <= 20)%Z)
    by (intro E; discriminate E).
  split; [exact H |].
  exact (proj1 (@debug_flag_changes_no_output Sample.net_scenario
                  Sample.plain_str
                  {| query := "cancer immunotherapy"; file := None;
                     debug := true |}
                  Sample.args_console Sample.world0 eq_refl eq_refl H)).
Defined.


(* ================================================================== *)
(** ** Reading back the parser's rows *)

Section ReadBack.

Variable py_str : pyval -> string.

(** X18. Whatever the fields of the records hold that UTF-8 can encode
    (commas, quotes, line breaks, values that are not text), the file
    written for the N records the parser returned is read back, by the
    reader of the same format, as the header row and N rows of six fields
    each: the texts the writer took for the fields. No field content
    shifts a column or breaks a row. *)
Theorem parser_rows_read_back (data : pyval) (papers : list record)
    (filename : string) (w : world) :
  parse_paper_details data = Ok papers ->
  papers <> [] ->
  Forall (fun r => encodable py_str r = true) papers ->
  writable w filename = true ->
  exists w' text,
    save_to_csv py_str papers filename w = (Ok tt, w') /\
    file_read (files w') filename = Some text /\
    CsvReader.csv_reader text
      = Ok (columns :: map (row_texts py_str) papers) /\
    Forall (fun row => length row = 6%nat)
           (columns :: map (row_texts py_str) papers).
Proof.
  intros Hparse Hne Henc Hw.
  pose proof (parse_paper_details_keys data Hparse) as Hkeys.
  destruct (@save_to_csv_columns py_str papers filename w Hne Hkeys Henc Hw)
    as [w' [E1 E2]].
  exists w', (Csv.write_rows (columns :: map (row_texts py_str) papers)).
  split; [exact E1 | split; [exact E2 | split]].
  - apply RoundTrip.csv_reader_write_rows.
  - constructor; [reflexivity |].
    apply Forall_map. revert Hkeys. apply Forall_impl.
    intros r. apply row_texts_length.
Qed.

End ReadBack.

Lemma parser_rows_read_back_witness :
  parse_paper_details Sample.details_data
    = Ok (map row_of (paper_items Sample.details_data)) /\
  exists w' text,
    save_to_csv Sample.plain_str
      (map row_of (paper_items Sample.details_data)) "out.csv" Sample.world0
      = (Ok tt, w') /\
    file_read (files w') "out.csv" = Some text /\
    CsvReader.csv_reader text
      = Ok [ columns;
             [ "111"; "Study A"; "2023"; "Jane Doe"; "Pfizer Inc.";
               "jane@pfizer.com" ];
             [ "222"; "Study B"; "2022"; ""; ""; "N/A" ] ]%string.
Proof.
  split; [reflexivity |].
  destruct (@parser_rows_read_back Sample.plain_str Sample.details_data
              (map row_of (paper_items Sample.details_data)) "out.csv"
              Sample.world0 eq_refl ltac:(discriminate)
              ltac:(repeat constructor) eq_refl)
    as [w' [text [E1 [E2 [E3 _]]]]].
  exists w', text. split; [exact E1 | split; [exact E2 | exact E3]].
Defined.
